(** * bareBlog: a flat-file blog (app.py, import_wp.py)

    A shallow embedding of the storage accessor, the post repository, the
    settings, the sessions and the views, and the WordPress importer,
    followed by the properties proved about them.

    Layout: the Python values the program handles ([Py]), the world it runs
    in and its effects ([Run]), the functions of [app.py] ([App] for the
    storage and the posts, [Site] for the settings and the views) and of
    [import_wp.py] ([ImportWp], [ImportPages]), a sample library with
    sample data ([Sample]), then the facts. *)

From Stdlib Require Import String Ascii List ZArith NArith Bool Lia.
From Stdlib Require Import Permutation Sorted.
Import ListNotations.
Local Open Scope list_scope.
Local Set Warnings "-register-all".

(* ================================================================== *)
(** * Python values *)
(* ================================================================== *)

Module Py.

(** A Python [str] is a sequence of code points: [len] counts them and
    slicing cuts between them. *)
Definition char := N.
Definition str := list char.

(** An ASCII literal of the source. *)
Definition py (s : string) : str := map N_of_ascii (list_ascii_of_string s).

Fixpoint str_eqb (a b : str) : bool :=
  match a, b with
  | [], [] => true
  | x :: a', y :: b' => N.eqb x y && str_eqb a' b'
  | _, _ => false
  end.

(** [str.isspace] on one code point (the Unicode white space set). *)
Definition isspace (c : char) : bool :=
  ((9 <=? c) && (c <=? 13) || (28 <=? c) && (c <=? 32)
   || (c =? 133) || (c =? 160) || (c =? 5760)
   || (8192 <=? c) && (c <=? 8202)
   || (c =? 8232) || (c =? 8233) || (c =? 8239) || (c =? 8287)
   || (c =? 12288))%N.

Fixpoint lstrip (s : str) : str :=
  match s with
  | c :: s' => if isspace c then lstrip s' else s
  | [] => []
  end.

Definition rstrip (s : str) : str := rev (lstrip (rev s)).
Definition strip (s : str) : str := rstrip (lstrip s).

(** [s.split(sep)] for a one-character separator. *)
Fixpoint split (sep : char) (s : str) : list str :=
  match s with
  | [] => [[]]
  | c :: s' =>
      if N.eqb c sep then [] :: split sep s'
      else match split sep s' with
           | piece :: rest => (c :: piece) :: rest
           | [] => [[c]]
           end
  end.

(** [a < b] on strings: code point by code point, a proper prefix first. *)
Fixpoint str_ltb (a b : str) : bool :=
  match a, b with
  | _, [] => false
  | [], _ :: _ => true
  | x :: a', y :: b' => N.ltb x y || (N.eqb x y && str_ltb a' b')
  end.

(** What [json.load] returns and [json.dump] accepts, numbers being
    integers (the program stores no other).  A dict keeps its insertion
    order, which is the order [json.dump] writes. *)
Inductive json : Type :=
| JNull
| JBool (b : bool)
| JInt (z : Z)
| JStr (s : str)
| JList (items : list json)
| JObj (fields : list (str * json)).

Definition dict := list (str * json).

(** Truth value of an object in a condition ([if x], [not x], [x or y]). *)
Definition truthy (j : json) : bool :=
  match j with
  | JNull => false
  | JBool b => b
  | JInt z => negb (Z.eqb z 0)
  | JStr [] | JList [] | JObj [] => false
  | JStr _ | JList _ | JObj _ => true
  end.

Fixpoint lookup {V : Type} (k : str) (d : list (str * V)) : option V :=
  match d with
  | [] => None
  | (k', v) :: d' => if str_eqb k k' then Some v else lookup k d'
  end.

(** [d.get(k)] and [d.get(k, default)]; a missing key reads as [None]. *)
Definition get (k : str) (d : dict) : json :=
  match lookup k d with Some v => v | None => JNull end.

Definition get_default {V : Type} (k : str) (default : V)
    (d : list (str * V)) : V :=
  match lookup k d with Some v => v | None => default end.

(** [d[k] = v]: an existing key keeps its place, a new one goes last. *)
Fixpoint set (k : str) (v : json) (d : dict) : dict :=
  match d with
  | [] => [(k, v)]
  | (k', v') :: d' =>
      if str_eqb k k' then (k', v) :: d' else (k', v') :: set k v d'
  end.

(** [d.setdefault(k, v)]: the value now under [k], and the dict. *)
Definition setdefault (k : str) (v : json) (d : dict) : json * dict :=
  match lookup k d with
  | Some v' => (v', d)
  | None => (v, set k v d)
  end.

(** [a == b] on these values: [bool] is a subclass of [int], lists compare
    item by item, dicts key by key whatever their order. *)
Fixpoint py_eqb (a b : json) {struct a} : bool :=
  match a, b with
  | JNull, JNull => true
  | JBool x, JBool y => Bool.eqb x y
  | JBool x, JInt y => Z.eqb (Z.b2z x) y
  | JInt x, JBool y => Z.eqb x (Z.b2z y)
  | JInt x, JInt y => Z.eqb x y
  | JStr x, JStr y => str_eqb x y
  | JList xs, JList ys =>
      (fix items (xs ys : list json) : bool :=
         match xs, ys with
         | [], [] => true
         | x :: xs', y :: ys' => py_eqb x y && items xs' ys'
         | _, _ => false
         end) xs ys
  | JObj xs, JObj ys =>
      Nat.eqb (List.length xs) (List.length ys)
      && (fix fields (xs : list (str * json)) : bool :=
            match xs with
            | [] => true
            | (k, v) :: xs' =>
                match lookup k ys with
                | Some v' => py_eqb v v'
                | None => false
                end && fields xs'
            end) xs
  | _, _ => false
  end.

(** Exceptions the modelled code can let escape. *)
Inductive exn : Type :=
| JSONDecodeError
| FileNotFoundError
| AttributeError
| TypeError
| ValueError.

Inductive result (A : Type) : Type :=
| Ok (a : A)
| Raise (e : exn).
Arguments Ok {A} a.
Arguments Raise {A} e.

(** A [datetime]: its wall-clock reading, a number that grows with the
    reading ([datetime.min] at 0, the microseconds in its last six decimal
    digits), and its UTC offset in microseconds when it is aware; a naive
    one has none. *)
Record datetime : Type := mkDatetime {
  wall : N;
  offset : option Z
}.

Definition naive (reading : N) : datetime := mkDatetime reading None.
Definition datetime_min : datetime := naive 0.

Definition aware (t : datetime) : bool :=
  match offset t with Some _ => true | None => false end.

(** [dt.replace(microsecond=0)]. *)
Definition replace_microsecond_0 (t : datetime) : datetime :=
  mkDatetime (wall t - wall t mod 1000000)%N (offset t).

(** Where a datetime lies on the time line of its kind: the UTC time of an
    aware one, the reading of a naive one. *)
Definition moment (t : datetime) : Z :=
  (Z.of_N (wall t) - match offset t with Some o => o | None => 0 end)%Z.

(** [a < b]: defined between two naive and between two aware datetimes;
    between a naive and an aware one Python raises [TypeError]. *)
Definition before (a b : datetime) : result bool :=
  if Bool.eqb (aware a) (aware b) then Ok (Z.ltb (moment a) (moment b))
  else Raise TypeError.

(** [a < b] where it is defined. *)
Definition earlier (a b : datetime) : bool := Z.ltb (moment a) (moment b).

(** [a == b], which never raises: a naive datetime equals no aware one. *)
Definition datetime_eqb (a b : datetime) : bool :=
  Bool.eqb (aware a) (aware b) && Z.eqb (moment a) (moment b).

(** Whether [<] is defined between every two of the keys: they are all
    naive, or all aware. *)
Definition comparable (keys : list datetime) : bool :=
  match keys with
  | [] => true
  | k :: keys' => forallb (fun k' => Bool.eqb (aware k') (aware k)) keys'
  end.

(** [sorted(l, key=key, reverse=True)]: descending, and stable (items with
    equal keys keep their order).  Only [<] on keys is used. *)
Section Sorted.
Context {A K : Type} (ltb : K -> K -> bool) (key : A -> K).

Fixpoint insert_desc (x : A) (l : list A) : list A :=
  match l with
  | [] => [x]
  | y :: l' =>
      if ltb (key x) (key y) then y :: insert_desc x l' else x :: l
  end.

Fixpoint sorted_reverse (l : list A) : list A :=
  match l with
  | [] => []
  | x :: l' => insert_desc x (sorted_reverse l')
  end.
End Sorted.

(** [sorted(l, key=key, reverse=True)] on datetime keys, the keys already
    computed.  The sort compares keys with [<] and lets its [TypeError]
    escape.  A sort that returns has compared every two neighbours of its
    result, so on keys of both kinds it raises, whatever the order of its
    comparisons; on keys of one kind it is the stable descending sort; and
    on fewer than two items it compares nothing. *)
Definition sorted_by_time {A} (keyed : list (datetime * A)) : result (list A) :=
  if comparable (map fst keyed)
  then Ok (map snd (sorted_reverse earlier fst keyed))
  else Raise TypeError.

(** What a stable descending sort on a time key promises: later first,
    and the items of one key in the order they came. *)
Definition descending {A} (key : A -> Z) : list A -> Prop :=
  StronglySorted (fun a b => (key b <= key a)%Z).

Definition keyed {A} (key : A -> Z) (k : Z) (l : list A) : list A :=
  filter (fun a => Z.eqb (key a) k) l.

(** The library functions the program calls; their code is not part of the
    repository.  A parser that raises [ValueError] returns [None]; what it
    returns is naive or aware as the library decides ([fromisoformat] gives
    an aware datetime for a string that ends in a UTC offset). *)
Class Lib : Type := {
  strptime : str -> str -> option datetime;       (* datetime.strptime(s, fmt) *)
  fromisoformat : str -> option datetime;          (* datetime.fromisoformat *)
  isoformat : datetime -> str;                     (* dt.isoformat() *)
  slugify : str -> str;                            (* slugify.slugify *)
  markdown : str -> str;   (* markdown.markdown with the app's extensions *)
  int_of_str : str -> option Z;                    (* int(s) *)
  getenv : str -> option str;                      (* os.getenv(name) *)
  title_case : str -> str;                         (* s.title() *)
  clock : nat -> N   (* the n-th reading of datetime.utcnow(), naive *)
}.

Definition result_bind {A B} (r : result A) (f : A -> result B) : result B :=
  match r with Ok a => f a | Raise e => Raise e end.

(** A comprehension whose body can raise: the first exception escapes. *)
Fixpoint mapM {A B} (f : A -> result B) (l : list A) : result (list B) :=
  match l with
  | [] => Ok []
  | x :: l' =>
      result_bind (f x) (fun y =>
      result_bind (mapM f l') (fun ys => Ok (y :: ys)))
  end.

(** An insertion sort, latest first, that compares the keys with [<] as
    Python does and lets the [TypeError] of a comparison escape: one of
    the sorts [sorted_by_time] stands for. *)
Section SortedBefore.
Context {A : Type} (key : A -> datetime).

Fixpoint insert_before (x : A) (l : list A) : result (list A) :=
  match l with
  | [] => Ok [x]
  | y :: l' =>
      result_bind (before (key x) (key y)) (fun lt =>
      if lt : bool
      then result_bind (insert_before x l') (fun l'' => Ok (y :: l''))
      else Ok (x :: l))
  end.

Fixpoint sort_before (l : list A) : result (list A) :=
  match l with
  | [] => Ok []
  | x :: l' => result_bind (sort_before l') (insert_before x)
  end.
End SortedBefore.

(** Iterating over a value: a list gives its items, a string its
    characters, a dict its keys; nothing else is iterable. *)
Definition iter (j : json) : result (list json) :=
  match j with
  | JList items => Ok items
  | JStr s => Ok (map (fun c => JStr [c]) s)
  | JObj fields => Ok (map (fun kv => JStr (fst kv)) fields)
  | _ => Raise TypeError
  end.

(** The receiver of [.get]: only a dict has the method. *)
Definition as_dict (j : json) : result dict :=
  match j with
  | JObj fields => Ok fields
  | _ => Raise AttributeError
  end.

End Py.
Import Py.

(* ================================================================== *)
(** * The world: the backing file and the clock *)
(* ================================================================== *)

Module Run.

(** What the backing file holds, up to the JSON codec: the text [json.dump]
    writes for a value (which [json.load] reads back as that value), or a
    text [json.load] rejects. *)
Inductive contents : Type :=
| Encoded (j : json)
| Malformed (text : str).

(** [config.DATA_PATH] and its parent directory. *)
Inductive disk : Type :=
| NoDir
| EmptyDir
| File (c : contents).

Record World : Type := mkWorld {
  data_path : disk;
  ticks : nat   (* how many times the clock was read *)
}.

Definition M (A : Type) : Type := World -> result A * World.

Definition ret {A} (a : A) : M A := fun w => (Ok a, w).
Definition raise {A} (e : exn) : M A := fun w => (Raise e, w).
Definition bind {A B} (m : M A) (f : A -> M B) : M B :=
  fun w => match m w with
           | (Ok a, w') => f a w'
           | (Raise e, w') => (Raise e, w')
           end.
Definition lift {A} (r : result A) : M A := fun w => (r, w).

Declare Scope run_scope.
Delimit Scope run_scope with run.
Notation "x <- m ;; k" := (bind m (fun x => k))
  (at level 61, m at next level, right associativity) : run_scope.
Notation "m ;; k" := (bind m (fun _ => k))
  (at level 61, right associativity) : run_scope.

(** The world a computation leaves, and the one [n] runs of it leave. *)
Definition exec {A} (m : M A) (w : World) : World := snd (m w).
Definition calls {A} (n : nat) (m : M A) (w : World) : World :=
  Nat.iter n (exec m) w.

(** [path.parent.mkdir(parents=True, exist_ok=True)]. *)
Definition mkdir_parent : M unit :=
  fun w => (Ok tt,
            match data_path w with
            | NoDir => mkWorld EmptyDir (ticks w)
            | _ => w
            end).

(** [path.exists()]. *)
Definition exists_ : M bool :=
  fun w => (Ok match data_path w with File _ => true | _ => false end, w).

(** [json.load(open(path, "r"))]. *)
Definition json_load : M json :=
  fun w => match data_path w with
           | File (Encoded j) => (Ok j, w)
           | File (Malformed _) => (Raise JSONDecodeError, w)
           | _ => (Raise FileNotFoundError, w)
           end.

(** [json.dump(j, open(path, "w"), indent=2)]. *)
Definition json_dump (j : json) : M unit :=
  fun w => match data_path w with
           | NoDir => (Raise FileNotFoundError, w)
           | _ => (Ok tt, mkWorld (File (Encoded j)) (ticks w))
           end.

(** [datetime.utcnow()]. *)
Definition utcnow `{Lib} : M datetime :=
  fun w => (Ok (naive (clock (ticks w))),
            mkWorld (data_path w) (S (ticks w))).

End Run.
Import Run.
Local Open Scope run_scope.

(* ================================================================== *)
(** * app.py *)
(* ================================================================== *)

Module App.

Definition DATE_FMT : str := py "%Y-%m-%dT%H:%M:%S".

Definition nav_link (label url target : string) : json :=
  JObj [(py "label", JStr (py label)); (py "url", JStr (py url));
        (py "target", JStr (py target))].

Definition DEFAULT_NAV_LINKS : json :=
  JList [nav_link "About" "/about" "_self";
         nav_link "Contact" "mailto:" "_self";
         nav_link "LinkedIn" "" "_blank";
         nav_link "GitHub" "" "_blank"].

(** [config.SITE_DESCRIPTION]. *)
Definition DEFAULT_MAIN_TITLE : json := JStr (py "bareblog description").

Definition default_document : dict :=
  [(py "posts", JList []);
   (py "pages", JObj []);
   (py "settings", JObj [(py "nav_links", DEFAULT_NAV_LINKS);
                         (py "main_title", DEFAULT_MAIN_TITLE)])].

Definition save_data (data : dict) : M unit :=
  mkdir_parent ;;
  json_dump (JObj data).

Definition ensure_data_file : M unit :=
  mkdir_parent ;;
  present <- exists_ ;;
  if negb present then save_data default_document else ret tt.

Definition load_data : M dict :=
  ensure_data_file ;;
  raw <- json_load ;;
  let raw := match raw with JObj d => d | _ => [(py "posts", raw)] end in
  let raw := snd (setdefault (py "posts") (JList []) raw) in
  let raw := snd (setdefault (py "pages") (JObj []) raw) in
  let (settings, raw) := setdefault (py "settings") (JObj []) raw in
  match settings with
  | JObj settings =>
      let settings := snd (setdefault (py "nav_links") DEFAULT_NAV_LINKS settings) in
      let settings := snd (setdefault (py "main_title") DEFAULT_MAIN_TITLE settings) in
      (* [settings] is the dict held by [raw]: the defaults show in [raw] *)
      ret (set (py "settings") (JObj settings) raw)
  | _ => raise AttributeError
  end.

(** The backing file holds a document (a dict whose settings, if any, are
    a dict) and its posts are the dicts [ps]. *)
Definition stores (w : World) (ps : list dict) : Prop :=
  exists d,
    data_path w = File (Encoded (JObj d))
    /\ (forall v, lookup (py "settings") d = Some v -> exists s, v = JObj s)
    /\ get_default (py "posts") (JList []) d = JList (map JObj ps).

(** The strings that serve as slugs among [ps], and the invariant of the
    data model: one post per slug. *)
Definition slugs (ps : list dict) : list str :=
  flat_map (fun p => match get (py "slug") p with
                     | JStr s => [s]
                     | _ => []
                     end) ps.

Definition unique_slugs (ps : list dict) : Prop := NoDup (slugs ps).

(** Every post carries an integer id, and no two posts the same one. *)
Definition int_id (p : dict) : Prop := exists i, get (py "id") p = JInt i.

Definition unique_ids (ps : list dict) : Prop :=
  Forall int_id ps /\ NoDup (map (get (py "id")) ps).

(** The backing file holds a document whose posts have distinct integer
    ids and distinct slugs. *)
Definition kept (w : World) : Prop :=
  exists ps, stores w ps /\ unique_ids ps /\ unique_slugs ps.

Section WithLib.
Context `{Lib}.

(** [config.ADMIN_USER]. *)
Definition ADMIN_USER : str :=
  match getenv (py "ADMIN_USER") with
  | Some user => user
  | None => py "admin@bareblog.com"
  end.

Definition parse_date (date_str : json) : result datetime :=
  if negb (truthy date_str) then Ok datetime_min
  else
    match date_str with
    | JStr s =>
        match strptime s DATE_FMT with
        | Some t => Ok t
        | None =>
            match strptime s (py "%Y-%m-%d %H:%M:%S") with
            | Some t => Ok t
            | None =>
                match fromisoformat s with
                | Some t => Ok t
                | None => Ok datetime_min
                end
            end
        end
    | _ => Raise TypeError   (* strptime() argument 1 must be str *)
    end.

(** The key of [load_posts]: [lambda p: parse_date(p.get("date"))]. *)
Definition date_key (p : json) : result (datetime * dict) :=
  result_bind (as_dict p) (fun d =>
  result_bind (parse_date (get (py "date") d)) (fun k => Ok (k, d))).

(** The time a stored post sorts by, when its date can be read. *)
Definition timestamp (p : dict) : datetime :=
  match parse_date (get (py "date") p) with
  | Ok t => t
  | Raise _ => datetime_min
  end.

(** A post whose date [parse_date] accepts: a string, or nothing. *)
Definition dated (p : dict) : Prop :=
  exists t, parse_date (get (py "date") p) = Ok t.

(** The time the specification orders a post by, in the words of the
    library: what the first of the three formats that reads the stored
    date makes of it, and the minimum when none reads it or no date is
    stored. *)
Definition reading (date : json) : datetime :=
  match date with
  | JStr ((_ :: _) as s) =>
      match strptime s DATE_FMT,
            strptime s (py "%Y-%m-%d %H:%M:%S"),
            fromisoformat s with
      | Some t, _, _ => t
      | None, Some t, _ => t
      | None, None, Some t => t
      | None, None, None => datetime_min
      end
  | _ => datetime_min
  end.

(** The times [load_posts] sorts the posts [ps] by. *)
Definition times (ps : list dict) : list datetime := map timestamp ps.

(** [sorted] computes the key of every item, then orders the items, which
    raises when two keys cannot be compared; what comes back are the
    items, each one a dict since its key was read. *)
Definition load_posts : M (list dict) :=
  raw <- load_data ;;
  let posts := get_default (py "posts") (JList []) raw in
  items <- lift (iter posts) ;;
  keyed <- lift (mapM date_key items) ;;
  lift (sorted_by_time keyed).

Definition save_posts (posts : list dict) (data : option dict) : M unit :=
  payload <- match data with
             | Some ((_ :: _) as d) => ret d
             | _ => load_data
             end ;;
  save_data (set (py "posts") (JList (map JObj posts)) payload).

Definition get_post_by_slug (slug : str) : M (option dict) :=
  posts <- load_posts ;;
  ret (find (fun post => py_eqb (get (py "slug") post) (JStr slug)) posts).

Definition LT : char := 60%N.   (* < *)
Definition GT : char := 62%N.   (* > *)

(** Whether [<[^>]+>] matches right after a [<]: one character that is not
    [>] at least, and a [>] further on. *)
Definition opens_tag (rest : str) : bool :=
  match rest with
  | c :: rest' => negb (N.eqb c GT) && existsb (N.eqb GT) rest'
  | [] => false
  end.

(** [re.sub(r"<[^>]+>", "", s)], scanning from the left; [in_tag] is set
    while the characters of a match are dropped, up to its closing [>]. *)
Fixpoint sub_tags (in_tag : bool) (s : str) : str :=
  match s with
  | [] => []
  | c :: rest =>
      if in_tag then sub_tags (negb (N.eqb c GT)) rest
      else if N.eqb c LT && opens_tag rest then sub_tags true rest
      else c :: sub_tags false rest
  end.

(** The suffix of a cut excerpt, as the source file spells it: the three
    characters U+00E2 U+20AC U+00A6. *)
Definition ELLIPSIS : str := [226; 8364; 166]%N.

Definition build_excerpt_str (html : str) (length : nat) : str :=
  let text := strip (sub_tags false html) in
  if Nat.leb (List.length text) length then text
  else rstrip (firstn length text) ++ ELLIPSIS.

(** [build_excerpt(html)], [length] left at its default; [re.sub] takes a
    string only. *)
Definition build_excerpt (html : json) : result str :=
  match (if truthy html then html else JStr []) with
  | JStr s => Ok (build_excerpt_str s 220)
  | _ => Raise TypeError
  end.

(** The excerpt as the specification words it, to compare with
    [build_excerpt]: the plain text when it has at most 220 characters,
    else its first 220 characters and the marker. *)
Definition plain_text (html : str) : str := strip (sub_tags false html).

Definition excerpt_as_specified (html : str) : str :=
  let text := plain_text html in
  if Nat.leb (List.length text) 220 then text
  else firstn 220 text ++ ELLIPSIS.

Definition render_markdown (md_text : str) : str := markdown md_text.

(** An id as a number; [max(ids) + 1] needs every id to be one. *)
Definition as_int (j : json) : result Z :=
  match j with
  | JInt z => Ok z
  | JBool b => Ok (Z.b2z b)
  | _ => Raise TypeError
  end.

Definition next_id (posts : list dict) : result Z :=
  let ids := map (get_default (py "id") (JInt 0)) posts in
  match ids with
  | [] => Ok 1%Z
  | _ :: _ =>
      result_bind (mapM as_int ids) (fun ns =>
      Ok (fold_right Z.max (hd 0%Z ns) ns + 1)%Z)
  end.

(** The request as [handle_post_save] reads it. *)
Record Request : Type := {
  form : list (str * str);
  referrer : option str
}.

(** A flashed message with its category, and the redirect target. *)
Record Response : Type := {
  flashed : str * str;
  location : str
}.

Definition flash_redirect (message category : string) (target : str) : M Response :=
  ret {| flashed := (py message, py category); location := target |}.

(** [url_for("admin_posts")]. *)
Definition admin_posts_url : str := py "/admin/posts".

(** [request.referrer or url_for("admin_posts")]. *)
Definition back (req : Request) : str :=
  match referrer req with
  | Some ((_ :: _) as url) => url
  | _ => admin_posts_url
  end.

(** [existing] as a condition: [None] and the empty dict are false. *)
Definition given (existing : option dict) : option dict :=
  match existing with
  | Some (_ :: _) => existing
  | _ => None
  end.

Definition utcnow_iso : M str :=
  t <- utcnow ;;
  ret (isoformat (replace_microsecond_0 t)).

(** [[t.strip() for t in text.split(",") if t.strip()]]. *)
Definition comma_list (text : str) : list str :=
  map strip (filter (fun t => match strip t with [] => false | _ => true end)
                    (split 44%N text)).

(** [slugify(x)]: anything but a string is refused. *)
Definition slugify_value (x : json) : result str :=
  match x with
  | JStr s => Ok (slugify s)
  | _ => Raise TypeError
  end.

(** The uniqueness loop: a post owns the slug, and is not the edited one. *)
Definition collides (slug_value : str) (existing : option dict) (post : dict) : bool :=
  py_eqb (get (py "slug") post) (JStr slug_value)
  && match given existing with
     | None => true
     | Some e => negb (py_eqb (get (py "id") post) (get (py "id") e))
     end.

(** [posts[idx] = payload] at the first [idx] whose post has the id. *)
Fixpoint replace_by_id (id : json) (payload : dict) (posts : list dict) : list dict :=
  match posts with
  | [] => []
  | post :: posts' =>
      if py_eqb (get (py "id") post) id then payload :: posts'
      else post :: replace_by_id id payload posts'
  end.

(** The local variables of [handle_post_save] that the request and the
    edited post decide. *)
Definition field (name : string) (req : Request) : str :=
  get_default (py name) [] (form req).

Definition title (req : Request) : str := strip (field "title" req).
Definition slug_input (req : Request) : str := strip (field "slug" req).

(** [slugify(slug_input or (existing.get("slug") if existing else
    slugify(title)))]. *)
Definition slug_value (req : Request) (existing : option dict) : result str :=
  slugify_value
    match slug_input req with
    | _ :: _ => JStr (slug_input req)
    | [] => match given existing with
            | Some e => get (py "slug") e
            | None => JStr (slugify (title req))
            end
    end.

Definition md_body (req : Request) : str := strip (field "content_markdown" req).

Definition html_body (req : Request) (existing : option dict) : json :=
  match md_body req, strip (field "content_html" req), given existing with
  | _ :: _, _, _ => JStr (render_markdown (md_body req))
  | [], [], Some e => get_default (py "content_html") (JStr []) e
  | [], html, _ => JStr html
  end.

Definition date_input (req : Request) : str := strip (field "date" req).
Definition tags (req : Request) : list str := comma_list (field "tags" req).
Definition categories (req : Request) : list str :=
  comma_list (field "categories" req).
Definition status (req : Request) : str :=
  get_default (py "status") (py "publish") (form req).
Definition excerpt_input (req : Request) : str := strip (field "excerpt" req).

(** The k-th reading of the clock, as [utcnow_iso] writes it. *)
Definition now_iso (k : nat) : str :=
  isoformat (replace_microsecond_0 (naive (clock k))).

(** What [handle_post_save] hands to [save_posts]: the payload in the
    place of the first post with the edited id, or after the last post. *)
Definition with_post (existing : option dict) (payload : dict)
    (posts : list dict) : list dict :=
  match given existing with
  | Some e => replace_by_id (get (py "id") e) payload posts
  | None => posts ++ [payload]
  end.

(** The dict literal [payload]. *)
Definition post_dict (id : json) (slug title date modified status : str)
    (tags categories : list str) (content_markdown : str) (content_html : json)
    (excerpt : str) (author : json) : dict :=
  [(py "id", id);
   (py "slug", JStr slug);
   (py "title", JStr title);
   (py "date", JStr date);
   (py "modified", JStr modified);
   (py "status", JStr status);
   (py "tags", JList (map JStr tags));
   (py "categories", JList (map JStr categories));
   (py "content_markdown", JStr content_markdown);
   (py "content_html", content_html);
   (py "excerpt", JStr excerpt);
   (py "author", author)].

(** The second half of [handle_post_save], from the body of the post to
    the redirect: what runs once the slug is known to be free. *)
Definition save_valid_post (req : Request) (existing : option dict)
    (posts : list dict) (data : dict) (slug_value : str) : M Response :=
  let html_body := html_body req existing in
  date_str <- match date_input req with
              | (_ :: _) as d => ret d
              | [] => utcnow_iso
              end ;;
  parsed <- lift (parse_date (JStr date_str)) ;;
  date_str <- (if datetime_eqb parsed datetime_min then utcnow_iso
               else ret date_str) ;;
  excerpt <- match excerpt_input req with
             | [] => if truthy html_body then lift (build_excerpt html_body)
                     else ret []
             | (_ :: _) as excerpt => ret excerpt
             end ;;
  id <- match given existing with
        | Some e => ret (get (py "id") e)
        | None => lift (result_bind (next_id posts) (fun n => Ok (JInt n)))
        end ;;
  modified <- utcnow_iso ;;
  let payload : dict :=
    post_dict id slug_value (title req) date_str modified (status req)
      (tags req) (categories req) (md_body req) html_body excerpt
      match given existing with
      | Some e => get (py "author") e
      | None => JStr ADMIN_USER
      end in
  match given existing with
  | Some e =>
      save_posts (replace_by_id (get (py "id") e) payload posts) (Some data) ;;
      flash_redirect "Post updated" "success" admin_posts_url
  | None =>
      save_posts (posts ++ [payload]) (Some data) ;;
      flash_redirect "Post created" "success" admin_posts_url
  end.

(** The first half: the two loads and the three checks. *)
Definition handle_post_save (req : Request) (existing : option dict) : M Response :=
  posts <- load_posts ;;
  data <- load_data ;;
  match title req with
  | [] => flash_redirect "Title is required" "error" (back req)
  | _ :: _ =>
  slug_value <- lift (slug_value req existing) ;;
  match slug_value with
  | [] => flash_redirect "Slug could not be generated" "error" (back req)
  | _ :: _ =>
  if existsb (collides slug_value existing) posts
  then flash_redirect "Slug already exists" "error" (back req)
  else save_valid_post req existing posts data slug_value
  end
  end.

End WithLib.

End App.

(* ================================================================== *)
(** * import_wp.py *)
(* ================================================================== *)

Module ImportWp.

(** An [xml.etree.ElementTree.Element]; a namespaced tag is spelled
    [{uri}local]. *)
Inductive element : Type :=
| Element (tag : str) (attrib : list (str * str)) (text : option str)
          (children : list element).

Definition tag_of (e : element) : str := let (t, _, _, _) := e in t.
Definition attrib_of (e : element) : list (str * str) := let (_, a, _, _) := e in a.
Definition text_of (e : element) : option str := let (_, _, t, _) := e in t.
Definition children_of (e : element) : list element := let (_, _, _, c) := e in c.

Definition NS : list (str * str) :=
  [(py "content", py "http://purl.org/rss/1.0/modules/content/");
   (py "wp", py "http://wordpress.org/export/1.2/");
   (py "dc", py "http://purl.org/dc/elements/1.1/");
   (py "excerpt", py "http://wordpress.org/export/1.2/excerpt/")].

Definition DEFAULT_NAV : json :=
  JList [App.nav_link "About" "/about" "_self";
         App.nav_link "Contact" "mailto:" "_self";
         App.nav_link "LinkedIn" "" "_blank";
         App.nav_link "GitHub" "" "_blank"].

(** A path [prefix:local] names the tag [{NS[prefix]}local]; a path with no
    prefix names itself. *)
Definition qualified (path : str) : str :=
  match split 58%N path with
  | [prefix; local] =>
      match lookup prefix NS with
      | Some uri => py "{" ++ uri ++ py "}" ++ local
      | None => path
      end
  | _ => path
  end.

(** [e.findall(tag)]: the children with that tag, in document order. *)
Definition findall (path : str) (e : element) : list element :=
  filter (fun c => str_eqb (tag_of c) (qualified path)) (children_of e).

(** [e.find(tag)]. *)
Definition find_child (path : str) (e : element) : option element :=
  hd_error (findall path e).

(** [e.findtext(path, default=default, namespaces=NS)]: the text of the
    first match, [""] when it has none; [default] when nothing matches. *)
Definition findtext (path : str) (default : str) (e : element) : str :=
  match find_child path e with
  | Some c => match text_of c with Some t => t | None => [] end
  | None => default
  end.

(** [x or y] on strings. *)
Definition or_else (x y : str) : str :=
  match x with [] => y | _ :: _ => x end.

Section WithLib.
Context `{Lib}.

Definition to_iso (date_str : str) : M str :=
  match strptime date_str (py "%Y-%m-%d %H:%M:%S") with
  | Some t => ret (isoformat t)
  | None =>
      match strptime date_str (py "%Y-%m-%d %H:%M:%S%z") with
      | Some t => ret (isoformat t)
      | None =>
          match fromisoformat date_str with
          | Some t => ret (isoformat t)
          | None => App.utcnow_iso
          end
      end
  end.

(** The loop over the [category] children of an item. *)
Definition classify (cats : list element) : list str * list str :=
  fold_left
    (fun (acc : list str * list str) (cat : element) =>
       let (tags, categories) := acc in
       let domain := get_default (py "domain") [] (attrib_of cat) in
       let label := strip (match text_of cat with Some t => t | None => [] end) in
       match label with
       | [] => acc
       | _ :: _ =>
           if str_eqb domain (py "post_tag") then (tags ++ [label], categories)
           else if str_eqb domain (py "category") then (tags, categories ++ [label])
           else acc
       end)
    cats ([], []).

(** The labels the specification sends to one list: those of the
    [category] elements of the given domain whose text, trimmed, is not
    empty, in document order. *)
Definition label (cat : element) : str :=
  strip (match text_of cat with Some t => t | None => [] end).

Definition labels (domain : string) (cats : list element) : list str :=
  map label
    (filter (fun cat =>
               match label cat with [] => false | _ :: _ => true end
               && str_eqb (get_default (py "domain") [] (attrib_of cat))
                          (py domain))
            cats).

(** The local variable [slug_val] of [parse_posts]. *)
Definition slug_val (item : element) : str :=
  or_else (findtext (py "wp:post_name") [] item)
          (slugify (or_else (findtext (py "title") [] item) [])).

(** What the importer is to make of one item: its tags, categories and
    slug. *)
Definition imports (item : element) (post : dict) : Prop :=
  get (py "tags") post
  = JList (map JStr (labels "post_tag" (findall (py "category") item)))
  /\ get (py "categories") post
     = JList (map JStr (labels "category" (findall (py "category") item)))
  /\ get (py "slug") post = JStr (slug_val item).

(** An item whose [wp:post_id] is absent, empty, or a number [int] reads. *)
Definition id_reads (item : element) : Prop :=
  match findtext (py "wp:post_id") (py "0") item with
  | [] => True
  | (_ :: _) as s => exists n, int_of_str s = Some n
  end.

(** The body of the loop of [parse_posts] for one item of type [post]. *)
Definition post_of_item (item : element) : M dict :=
  let status := findtext (py "wp:status") (py "publish") item in
  post_id <- lift match findtext (py "wp:post_id") (py "0") item with
                  | [] => Ok 0%Z
                  | (_ :: _) as s =>
                      match int_of_str s with
                      | Some n => Ok n
                      | None => Raise ValueError
                      end
                  end ;;
  let title := or_else (findtext (py "title") [] item) [] in
  let slug_val := slug_val item in
  let post_date := findtext (py "wp:post_date") [] item in
  date_iso <- match post_date with
              | _ :: _ => to_iso post_date
              | [] => t <- utcnow ;; ret (isoformat t)
              end ;;
  let content_html := or_else (findtext (py "content:encoded") [] item) [] in
  let excerpt_html := or_else (findtext (py "excerpt:encoded") [] item) [] in
  let author := or_else (findtext (py "dc:creator") [] item) [] in
  let (tags, categories) := classify (findall (py "category") item) in
  ret [(py "id", JInt post_id);
       (py "slug", JStr slug_val);
       (py "title", JStr title);
       (py "date", JStr date_iso);
       (py "modified", JStr date_iso);
       (py "status", JStr status);
       (py "tags", JList (map JStr tags));
       (py "categories", JList (map JStr categories));
       (py "content_markdown", JStr []);
       (py "content_html", JStr content_html);
       (py "excerpt", JStr excerpt_html);
       (py "author", JStr author)].

Definition is_type (post_type : string) (item : element) : bool :=
  str_eqb (findtext (py "wp:post_type") [] item) (py post_type).

Fixpoint posts_of_items (items : list element) : M (list dict) :=
  match items with
  | [] => ret []
  | item :: items' =>
      if negb (is_type "post" item) then posts_of_items items'
      else
        post <- post_of_item item ;;
        posts <- posts_of_items items' ;;
        ret (post :: posts)
  end.

(** The key of the final sort, [p.get("date", "")]: a string in every
    post built above. *)
Definition date_of (p : dict) : str :=
  match get_default (py "date") (JStr []) p with
  | JStr s => s
  | _ => []
  end.

(** [parse_posts], from the root of the parsed export. *)
Definition parse_posts (root : element) : M (list dict) :=
  match find_child (py "channel") root with
  | None => raise AttributeError
  | Some channel =>
      posts <- posts_of_items (findall (py "item") channel) ;;
      ret (sorted_reverse str_ltb date_of posts)
  end.

Fixpoint pages_of_items (items : list element) (pages : dict) : M dict :=
  match items with
  | [] => ret pages
  | item :: items' =>
      if negb (is_type "page" item) then pages_of_items items' pages
      else
        let slug_val := or_else (findtext (py "wp:post_name") [] item) [] in
        let title := or_else (findtext (py "title") [] item) [] in
        let content_html := or_else (findtext (py "content:encoded") [] item) [] in
        match slug_val with
        | [] => pages_of_items items' pages
        | _ :: _ =>
            updated <- App.utcnow_iso ;;
            pages_of_items items'
              (set slug_val
                 (JObj [(py "title", JStr (or_else title (title_case slug_val)));
                        (py "slug", JStr slug_val);
                        (py "content_html", JStr content_html);
                        (py "content_markdown", JStr []);
                        (py "updated", JStr updated)])
                 pages)
        end
  end.

Definition parse_pages (root : element) : M dict :=
  match find_child (py "channel") root with
  | None => raise AttributeError
  | Some channel => pages_of_items (findall (py "item") channel) []
  end.

(** [main], once the export file has been found; [root] is what
    [ET.parse(xml_path).getroot()] gives. *)
Definition main (root : element) : M unit :=
  posts <- parse_posts root ;;
  pages <- parse_pages root ;;
  mkdir_parent ;;
  json_dump (JObj [(py "posts", JList (map JObj posts));
                   (py "pages", JObj pages);
                   (py "settings", JObj [(py "nav_links", DEFAULT_NAV);
                                         (py "main_title", JStr [])])]).

End WithLib.

End ImportWp.

(* ================================================================== *)
(** * app.py: settings, sessions and views *)
(* ================================================================== *)

Module Site.
Import App.

(** [config.SITE_TITLE] and [config.SITE_DESCRIPTION]. *)
Definition SITE_TITLE : str := py "bareblog".
Definition SITE_DESCRIPTION : str := py "bareblog description".

(** The characters [str.splitlines] ends a line at. *)
Definition line_break (c : char) : bool :=
  ((10 <=? c) && (c <=? 13) || (28 <=? c) && (c <=? 30)
   || (c =? 133) || (c =? 8232) || (c =? 8233))%N.

Definition cons_line (c : char) (lines : list str) : list str :=
  match lines with
  | [] => [[c]]
  | line :: rest => (c :: line) :: rest
  end.

(** [s.splitlines()]: the lines without their ends, a carriage return and
    the line feed after it ending one line, and no empty last line;
    [after_cr] is set right after a carriage return. *)
Fixpoint splitlines_from (after_cr : bool) (s : str) : list str :=
  match s with
  | [] => []
  | c :: s' =>
      if after_cr && N.eqb c 10 then splitlines_from false s'
      else if line_break c then [] :: splitlines_from (N.eqb c 13) s'
      else cons_line c (splitlines_from false s')
  end.

Definition splitlines (s : str) : list str := splitlines_from false s.

(** [s.startswith(prefix)]. *)
Fixpoint startswith (s prefix : str) : bool :=
  match prefix, s with
  | [], _ => true
  | p :: prefix', c :: s' => N.eqb c p && startswith s' prefix'
  | _ :: _, [] => false
  end.

(** [sep.join(parts)]. *)
Fixpoint join (sep : str) (parts : list str) : str :=
  match parts with
  | [] => []
  | [part] => part
  | part :: parts' => part ++ sep ++ join sep parts'
  end.

Definition BAR : char := 124%N.   (* | *)

(** [[p.strip() for p in line.split("|") if p.strip()]]. *)
Definition bar_list (line : str) : list str :=
  map strip (filter (fun p => match strip p with [] => false | _ => true end)
                    (split BAR line)).

(** The dict literal of a navigation link. *)
Definition link (label url target : str) : json :=
  JObj [(py "label", JStr label); (py "url", JStr url);
        (py "target", JStr target)].

(** The body of the loop of [parse_nav_links]: what one line appends. *)
Definition links_of_line (line : str) : list json :=
  match strip line with
  | [] => []
  | (_ :: _) as line =>
      match bar_list line with
      | label :: url :: rest =>
          let target := match rest with
                        | third :: _ => third
                        | [] => if startswith url (py "http") then py "_blank"
                                else py "_self"
                        end in
          [link label url target]
      | _ => []
      end
  end.

Definition parse_nav_links (raw_text : str) : json :=
  let links := fold_left (fun links line => links ++ links_of_line line)
                         (splitlines raw_text) [] in
  match links with
  | [] => DEFAULT_NAV_LINKS
  | _ :: _ => JList links
  end.

(** What [str.splitlines], [line.split("|")] and [str.strip] leave alone:
    a text that is not empty, has no bar and no line end in it, and no
    white space at either end. *)
Definition plain_field (s : str) : bool :=
  match s, rev s with
  | first :: _, last :: _ =>
      negb (isspace first) && negb (isspace last)
      && forallb (fun c => negb (N.eqb c BAR) && negb (line_break c)) s
  | _, _ => false
  end.

(** What [load_data] makes of the value it has read: lines 59 to 67. *)
Definition with_defaults (raw : json) : result dict :=
  let raw := match raw with JObj d => d | _ => [(py "posts", raw)] end in
  let raw := snd (setdefault (py "posts") (JList []) raw) in
  let raw := snd (setdefault (py "pages") (JObj []) raw) in
  let (settings, raw) := setdefault (py "settings") (JObj []) raw in
  match settings with
  | JObj settings =>
      let settings := snd (setdefault (py "nav_links") DEFAULT_NAV_LINKS settings) in
      let settings := snd (setdefault (py "main_title") DEFAULT_MAIN_TITLE settings) in
      Ok (set (py "settings") (JObj settings) raw)
  | _ => Raise AttributeError
  end.

(** A document with nothing left to default: the three top-level keys, and
    both settings. *)
Definition complete (data : dict) : Prop :=
  (exists posts, lookup (py "posts") data = Some posts)
  /\ (exists pages, lookup (py "pages") data = Some pages)
  /\ exists settings,
       lookup (py "settings") data = Some (JObj settings)
       /\ (exists links, lookup (py "nav_links") settings = Some links)
       /\ exists main_title, lookup (py "main_title") settings = Some main_title.

(** Whether [re.search(r"<[^>]+>", s)] finds a match. *)
Fixpoint has_tag (s : str) : bool :=
  match s with
  | [] => false
  | c :: rest => N.eqb c LT && opens_tag rest || has_tag rest
  end.

(** The line of the settings form for a link whose label, url and target
    are the strings [l], [u] and [t]. *)
Definition line_of (l u t : str) : str := l ++ BAR :: u ++ BAR :: t.

(** A link given by its three strings. *)
Definition triple (link : str * str * str) : json :=
  let '(l, u, t) := link in Site.link l u t.

(** A link with a label, a url and a target, none of them empty. *)
Definition full_link (l : json) : Prop :=
  exists label url target,
    l = link label url target /\ label <> [] /\ url <> [] /\ target <> [].

Definition get_nav_links : M json :=
  data <- load_data ;;
  settings <- lift (as_dict (get_default (py "settings") (JObj []) data)) ;;
  ret (get_default (py "nav_links") DEFAULT_NAV_LINKS settings).

Definition get_main_title : M json :=
  data <- load_data ;;
  settings <- lift (as_dict (get_default (py "settings") (JObj []) data)) ;;
  ret (get_default (py "main_title") DEFAULT_MAIN_TITLE settings).

(** The dict literal of a page. *)
Definition page_dict (title : json) (slug content_html updated : str) : dict :=
  [(py "title", title);
   (py "slug", JStr slug);
   (py "content_html", JStr content_html);
   (py "content_markdown", JStr []);
   (py "updated", JStr updated)].

(** The formatting of a value inside an f-string, [format(x, "")]: a string
    comes out as it is; what the other values give is the library's. *)
Class Format : Type := {
  format_value : json -> str;
  format_str : forall s, format_value (JStr s) = s
}.

(** The lines the settings form shows, one per link:
    [f"{link.get('label','')}|{link.get('url','')}|{link.get('target','')}"]
    joined by line feeds. *)
Definition nav_links_text `{Format} (nav_links : json) : result str :=
  result_bind (iter nav_links) (fun links =>
  result_bind
    (mapM (fun link =>
             result_bind (as_dict link) (fun link =>
             Ok (format_value (get_default (py "label") (JStr []) link)
                 ++ [BAR]
                 ++ format_value (get_default (py "url") (JStr []) link)
                 ++ [BAR]
                 ++ format_value (get_default (py "target") (JStr []) link))))
          links)
    (fun lines => Ok (join [10%N] lines))).

(** The request as the views read it. *)
Record Http : Type := {
  method : str;
  path : str;
  args : list (str * str);
  body : Request
}.

(** What a view answers: a template with the messages flashed before it
    and the context it is rendered in, a redirect with its message, the
    redirect of [login_required], or [abort(404)]. *)
Inductive answer : Type :=
| Page (flashes : list (str * str)) (template : str) (context : dict)
| Redirect (response : Response)
| LoginFirst (next : str)
| NotFound.

Definition POST : str := py "POST".

Section WithLib.
Context `{Lib}.

(** [config.ADMIN_PASSWORD]. *)
Definition ADMIN_PASSWORD : str :=
  match getenv (py "ADMIN_PASSWORD") with
  | Some password => password
  | None => py "bareblog123"
  end.

(** [pages.get] is looked up before its default is built. *)
Definition get_about_page : M json :=
  data <- load_data ;;
  pages <- lift (as_dict (get_default (py "pages") (JObj []) data)) ;;
  updated <- utcnow_iso ;;
  ret (get_default (py "about")
         (JObj (page_dict (JStr (py "About")) (py "about") [] updated)) pages).

(** The session is the dict Flask keeps for the visitor. *)
Definition is_authenticated (session : dict) : bool :=
  py_eqb (get (py "user") session) (JStr ADMIN_USER).

Definition login_required (http : Http) (session : dict) (view : M answer)
  : M answer :=
  if negb (is_authenticated session) then ret (LoginFirst (path http))
  else view.

(** The context processor, run at every [render_template]; its three
    function-valued entries are the functions of this module. *)
Definition inject_globals : M dict :=
  main_title <- get_main_title ;;
  nav_links <- get_nav_links ;;
  ret [(py "site_title", JStr SITE_TITLE);
       (py "site_description", JStr SITE_DESCRIPTION);
       (py "main_title", main_title);
       (py "nav_links", nav_links)].

(** [render_template(template, **context)]: the view's values come before
    those of the context processor, which they hide. *)
Definition render_template (flashes : list (str * str)) (template : string)
    (context : dict) : M answer :=
  globals <- inject_globals ;;
  ret (Page flashes (py template) (context ++ globals)).

(** [p.get("status", "publish") == "publish" or is_authenticated()]. *)
Definition listed (session : dict) (p : dict) : bool :=
  py_eqb (get_default (py "status") (JStr (py "publish")) p) (JStr (py "publish"))
  || is_authenticated session.

Definition blog_index (session : dict) : M answer :=
  posts <- load_posts ;;
  render_template [] "blog_index.html"
    [(py "posts", JList (map JObj (filter (listed session) posts)))].

Definition about : M answer :=
  page <- get_about_page ;;
  render_template [] "about.html" [(py "page", page)].

Definition blog_post (session : dict) (slug : str) : M answer :=
  post <- get_post_by_slug slug ;;
  match given post with
  | None => ret NotFound
  | Some post =>
      if negb (py_eqb (get (py "status") post) (JStr (py "publish")))
         && negb (is_authenticated session)
      then ret NotFound
      else render_template [] "blog_post.html" [(py "post", JObj post)]
  end.

(** [request.args.get("next") or url_for("admin_posts")]. *)
Definition next_or_posts (http : Http) : str :=
  match lookup (py "next") (args http) with
  | Some ((_ :: _) as next) => next
  | _ => admin_posts_url
  end.

(** The messages waiting in the session: the list Flask keeps under
    [_flashes]. *)
Definition pending (session : dict) : list json :=
  match lookup (py "_flashes") session with
  | Some (JList flashes) => flashes
  | _ => []
  end.

(** [flash(message, category)] of Flask:
    [flashes = session.get("_flashes", []); flashes.append((category, message));
     session["_flashes"] = flashes].
    The pair is written as a list of two; a value under [_flashes] that
    is not a list has no [append]. *)
Definition flash (message category : str) (session : dict) : result dict :=
  match get_default (py "_flashes") (JList []) session with
  | JList flashes =>
      Ok (set (py "_flashes")
            (JList (flashes ++ [JList [JStr category; JStr message]]))
            session)
  | _ => Raise AttributeError
  end.

(** The answer, and the session as the code of the view leaves it: the
    message flashed is in it under [_flashes], where it waits for the
    template that shows it ([get_flashed_messages] takes it out). *)
Definition admin_login (http : Http) (session : dict) : M (answer * dict) :=
  if str_eqb (method http) POST then
    let username := strip (field "username" (body http)) in
    let password := strip (field "password" (body http)) in
    if str_eqb username ADMIN_USER && str_eqb password ADMIN_PASSWORD then
      let session := set (py "user") (JStr ADMIN_USER) session in
      session <- lift (flash (py "Logged in") (py "success") session) ;;
      ret (Redirect {| flashed := (py "Logged in", py "success");
                       location := next_or_posts http |},
           session)
    else
      session <- lift (flash (py "Invalid credentials") (py "error") session) ;;
      page <- render_template [(py "Invalid credentials", py "error")]
                "admin_login.html" [] ;;
      ret (page, session)
  else
    page <- render_template [] "admin_login.html" [] ;;
    ret (page, session).

(** [session.clear()], then the message: the session left holds the
    message and nothing else.  The cleared session has nothing under
    [_flashes], so that [flash] does not raise. *)
Definition admin_logout (session : dict) : answer * dict :=
  let session : dict := [] in
  (Redirect {| flashed := (py "Logged out", py "success");
               location := py "/" |},
   match flash (py "Logged out") (py "success") session with
   | Ok session => session
   | Raise _ => session
   end).

Definition admin_posts (http : Http) (session : dict) : M answer :=
  login_required http session
    (posts <- load_posts ;;
     render_template [] "admin_posts.html"
       [(py "posts", JList (map JObj posts))]).

Definition admin_new_post (http : Http) (session : dict) : M answer :=
  login_required http session
    (if str_eqb (method http) POST then
       response <- handle_post_save (body http) None ;;
       ret (Redirect response)
     else
       now <- utcnow_iso ;;
       render_template [] "admin_edit.html"
         [(py "post", JObj [(py "title", JStr []);
                            (py "slug", JStr []);
                            (py "date", JStr now);
                            (py "status", JStr (py "publish"));
                            (py "tags", JList []);
                            (py "categories", JList []);
                            (py "content_markdown", JStr []);
                            (py "content_html", JStr []);
                            (py "excerpt", JStr [])]);
          (py "is_new", JBool true)]).

Definition admin_edit_post (http : Http) (session : dict) (slug : str)
  : M answer :=
  login_required http session
    (post <- get_post_by_slug slug ;;
     match given post with
     | None => ret NotFound
     | Some post =>
         if str_eqb (method http) POST then
           response <- handle_post_save (body http) (Some post) ;;
           ret (Redirect response)
         else
           render_template [] "admin_edit.html"
             [(py "post", JObj post); (py "is_new", JBool false)]
     end).

(** [request.form.get("main_title", "").strip() or DEFAULT_MAIN_TITLE]. *)
Definition main_title_val (http : Http) : json :=
  match strip (field "main_title" (body http)) with
  | [] => DEFAULT_MAIN_TITLE
  | (_ :: _) as t => JStr t
  end.

(** The branch of [admin_settings] for a POST: [pages] and [settings] are
    the dicts held by [data], so what is stored in them shows in [data]. *)
Definition save_settings (http : Http) (data : dict) (about_page : json)
  : M answer :=
  let about_html := strip (field "about_content" (body http)) in
  let nav_links_raw := field "nav_links" (body http) in
  let parsed_links := parse_nav_links nav_links_raw in
  let (pages, data) := setdefault (py "pages") (JObj []) data in
  about_page <- lift (as_dict about_page) ;;
  updated <- utcnow_iso ;;
  match pages with
  | JObj pages =>
      let about :=
        page_dict (get_default (py "title") (JStr (py "About")) about_page)
                  (py "about") about_html updated in
      let data := set (py "pages") (JObj (set (py "about") (JObj about) pages))
                      data in
      let (settings, data) := setdefault (py "settings") (JObj []) data in
      match settings with
      | JObj settings =>
          let settings := set (py "nav_links") parsed_links settings in
          let settings := set (py "main_title") (main_title_val http) settings in
          save_data (set (py "settings") (JObj settings) data) ;;
          ret (Redirect {| flashed := (py "Settings updated", py "success");
                           location := py "/admin/settings" |})
      | _ => raise TypeError   (* no item assignment *)
      end
  | _ => raise TypeError       (* no item assignment *)
  end.

(** The document [save_settings] writes, from the document loaded, its
    pages and its settings. *)
Definition settings_document (http : Http) (data pages settings : dict)
    (title : json) (updated : str) : dict :=
  set (py "settings")
    (JObj (set (py "main_title") (main_title_val http)
             (set (py "nav_links")
                (parse_nav_links (field "nav_links" (body http))) settings)))
    (set (py "pages")
       (JObj (set (py "about")
                (JObj (page_dict title (py "about")
                         (strip (field "about_content" (body http))) updated))
                pages))
       data).

Definition admin_settings `{Format} (http : Http) (session : dict) : M answer :=
  login_required http session
    (data <- load_data ;;
     about_page <- get_about_page ;;
     nav_links <- get_nav_links ;;
     main_title <- get_main_title ;;
     if str_eqb (method http) POST then save_settings http data about_page
     else
       text <- lift (nav_links_text nav_links) ;;
       about_page <- lift (as_dict about_page) ;;
       render_template [] "admin_settings.html"
         [(py "about_content",
           get_default (py "content_html") (JStr []) about_page);
          (py "nav_links_text", JStr text);
          (py "main_title", main_title)]).

End WithLib.

End Site.

(* ================================================================== *)
(** * import_wp.py: notions about the pages it imports *)
(* ================================================================== *)

Module ImportPages.
Import ImportWp.

(** The page items of an export that are imported under [slug]; the last
    of them in document order. *)
Definition is_page_of (slug : str) (item : element) : bool :=
  is_type "page" item
  && str_eqb (or_else (findtext (py "wp:post_name") [] item) []) slug.

Definition last_page (slug : str) (items : list element) : option element :=
  find (is_page_of slug) (rev items).

(** A computation that neither reads nor writes the backing file: what it
    returns and how often it reads the clock are the same whatever the
    file is, and the file is left as it was. *)
Definition file_blind {A} (m : M A) : Prop :=
  forall n, exists r k, forall p, m (mkWorld p n) = (r, mkWorld p k).

(** The page [parse_pages] makes of an item. *)
Definition imported_page `{Lib} (item : element) (updated : str) : json :=
  let slug := or_else (findtext (py "wp:post_name") [] item) [] in
  JObj [(py "title",
         JStr (or_else (or_else (findtext (py "title") [] item) [])
                       (title_case slug)));
        (py "slug", JStr slug);
        (py "content_html",
         JStr (or_else (findtext (py "content:encoded") [] item) []));
        (py "content_markdown", JStr []);
        (py "updated", JStr updated)].

End ImportPages.

(* ================================================================== *)
(** * A sample library, for running the model on concrete inputs *)
(* ================================================================== *)

Module Sample.

Definition digit (c : char) : option N :=
  if ((48 <=? c) && (c <=? 57))%N then Some (c - 48)%N else None.

Fixpoint number (acc : N) (s : str) : option N :=
  match s with
  | [] => Some acc
  | c :: s' =>
      match digit c with
      | Some d => number (10 * acc + d)%N s'
      | None => None
      end
  end.

(** Year, month, day, hour, minute, second and microsecond as one number,
    in the order of time. *)
Definition encode (Y M D h m s us : N) : N :=
  ((((((Y * 13 + M) * 32 + D) * 24 + h) * 60 + m) * 60 + s) * 1000000 + us)%N.

Definition of_fields (Y M D h m s : N) : option N :=
  if ((1 <=? Y) && (1 <=? M) && (M <=? 12) && (1 <=? D) && (D <=? 31)
      && (h <? 24) && (m <? 60) && (s <? 60))%N
  then Some (encode Y M D h m s 0 - encode 1 1 1 0 0 0 0)%N
  else None.

Definition digits_at (from len : nat) (s : str) : option N :=
  match firstn len (skipn from s) with
  | [] => None
  | digits => number 0 digits
  end.

(** [YYYY-MM-DD], then [sep] and [HH:MM:SS]; zero-padded fields only. *)
Definition parse_stamp (sep : char) (s : str) : option N :=
  match digits_at 0 4 s, digits_at 5 2 s, digits_at 8 2 s,
        digits_at 11 2 s, digits_at 14 2 s, digits_at 17 2 s with
  | Some Y, Some M, Some D, Some h, Some m, Some sec =>
      if Nat.eqb (List.length s) 19
         && str_eqb (map (fun i => nth i s 0%N) [4; 7; 10; 13; 16]%nat)
                    [45; 45; sep; 58; 58]%N
      then of_fields Y M D h m sec else None
  | _, _, _, _, _, _ => None
  end.

Definition parse_day (s : str) : option N :=
  match digits_at 0 4 s, digits_at 5 2 s, digits_at 8 2 s with
  | Some Y, Some M, Some D =>
      if Nat.eqb (List.length s) 10
         && str_eqb (map (fun i => nth i s 0%N) [4; 7]%nat) [45; 45]%N
      then of_fields Y M D 0 0 0 else None
  | _, _, _ => None
  end.

Definition sample_strptime (s fmt : str) : option datetime :=
  option_map naive
    (if str_eqb fmt (py "%Y-%m-%dT%H:%M:%S") then parse_stamp 84%N s
     else if str_eqb fmt (py "%Y-%m-%d %H:%M:%S") then parse_stamp 32%N s
     else None).

(** [+HH:MM] or [-HH:MM], in microseconds. *)
Definition parse_offset (s : str) : option Z :=
  match s, digits_at 1 2 s, digits_at 4 2 s with
  | sign :: _, Some h, Some m =>
      if Nat.eqb (List.length s) 6 && N.eqb (nth 3 s 0%N) 58
         && (h <? 24)%N && (m <? 60)%N
      then let o := Z.of_N ((h * 60 + m) * 60000000) in
           if N.eqb sign 43 then Some o
           else if N.eqb sign 45 then Some (- o)%Z
           else None
      else None
  | _, _, _ => None
  end.

(** A stamp, a day, or a stamp followed by a UTC offset. *)
Definition sample_fromisoformat (s : str) : option datetime :=
  match parse_stamp 84%N s with
  | Some t => Some (naive t)
  | None =>
      match parse_stamp 32%N s with
      | Some t => Some (naive t)
      | None =>
          match parse_day s with
          | Some t => Some (naive t)
          | None =>
              match parse_stamp 84%N (firstn 19 s), parse_offset (skipn 19 s) with
              | Some t, Some o => Some (mkDatetime t (Some o))
              | _, _ => None
              end
          end
      end
  end.

Fixpoint digits (width : nat) (n : N) : str :=
  match width with
  | O => []
  | S width' => digits width' (n / 10) ++ [48 + n mod 10]%N
  end.

Definition sample_offset (o : Z) : str :=
  let minutes := Z.to_N (Z.abs o / 60000000) in
  (if (o <? 0)%Z then 45%N else 43%N)
  :: digits 2 (minutes / 60) ++ [58%N] ++ digits 2 (minutes mod 60).

Definition sample_isoformat (d : datetime) : str :=
  let t := (wall d + encode 1 1 1 0 0 0 0)%N in
  let secs := (t / 1000000)%N in
  let mins := (secs / 60)%N in
  let hours := (mins / 60)%N in
  let days := (hours / 24)%N in
  let months := (days / 32)%N in
  digits 4 (months / 13) ++ [45%N] ++ digits 2 (months mod 13) ++ [45%N]
  ++ digits 2 (days mod 32) ++ [84%N] ++ digits 2 (hours mod 24) ++ [58%N]
  ++ digits 2 (mins mod 60) ++ [58%N] ++ digits 2 (secs mod 60)
  ++ match offset d with Some o => sample_offset o | None => [] end.

Definition lower (c : char) : char :=
  if ((65 <=? c) && (c <=? 90))%N then (c + 32)%N else c.

Definition alnum (c : char) : bool :=
  ((48 <=? c) && (c <=? 57) || (97 <=? c) && (c <=? 122))%N.

(** Lower-case ASCII letters and digits, joined by single hyphens. *)
Fixpoint sample_slugify_from (started gap : bool) (s : str) : str :=
  match s with
  | [] => []
  | c :: s' =>
      if alnum (lower c)
      then (if started && gap then [45%N] else [])
           ++ lower c :: sample_slugify_from true false s'
      else sample_slugify_from started true s'
  end.

Definition sample_slugify (s : str) : str := sample_slugify_from false false s.

Definition sample_int (s : str) : option Z :=
  match s with
  | [] => None
  | _ :: _ => option_map Z.of_N (number 0 s)
  end.

Definition sample_title (s : str) : str :=
  match s with
  | c :: s' => (if ((97 <=? c) && (c <=? 122))%N then (c - 32)%N else c) :: s'
  | [] => []
  end.

(** The clock starts on 2024-03-01 at noon and moves on by a second and a
    half between two readings. *)
Definition sample_clock (n : nat) : N :=
  (encode 2024 3 1 12 0 0 0 - encode 1 1 1 0 0 0 0 + 1500000 * N.of_nat n)%N.

#[export] Instance sample_lib : Lib := {|
  strptime := sample_strptime;
  fromisoformat := sample_fromisoformat;
  isoformat := sample_isoformat;
  slugify := sample_slugify;
  markdown := fun s => py "<p>" ++ s ++ py "</p>";
  int_of_str := sample_int;
  getenv := fun _ => None;
  title_case := sample_title;
  clock := sample_clock
|}.


(** ** Sample texts, worlds, requests and exports *)

(** A body of 221 characters: 219 letters, a space, and a letter. *)
Definition spaced_body : str := repeat 97%N 219 ++ py " b".

(** The data directory is there, the backing file is not. *)
Definition fresh : World := mkWorld EmptyDir 0.

Definition stored_post (id : Z) (slug : string) (date : option string) : dict :=
  [(py "id", JInt id); (py "slug", JStr (py slug));
   (py "title", JStr (py slug))]
  ++ match date with
     | Some d => [(py "date", JStr (py d))]
     | None => []
     end.

Definition january : dict := stored_post 1 "first" (Some "2024-01-01"%string).
Definition june : dict := stored_post 2 "second" (Some "2024-06-01"%string).
Definition undated : dict := stored_post 3 "third" None.

(** A backing file with three posts and nothing else. *)
Definition blog : World :=
  mkWorld (File (Encoded (JObj [(py "posts",
                                 JList [JObj january; JObj june; JObj undated])])))
          0.

Definition request (fields : list (string * string)) : App.Request :=
  {| App.form := map (fun kv => (py (fst kv), py (snd kv))) fields;
     App.referrer := None |}.

Definition untitled : App.Request := request [("title", "   ")]%string.
Definition unsluggable : App.Request := request [("title", "!!!")]%string.
Definition taken : App.Request := request [("title", "First")]%string.
Definition hello : App.Request :=
  request [("title", " Hello, World ");
           ("content_html", "<p>Hi <b>there</b></p>");
           ("date", "2024-05-01T10:00:00");
           ("tags", "a, b,,c ")]%string.

(** The edit form of the post [january], with a new title and the slug
    left as it is. *)
Definition retitled : App.Request :=
  request [("title", "First, again"); ("slug", "first");
           ("date", "2024-01-01"); ("content_markdown", "Some *text*")]%string.

(** A backing file with the posts [posts] and nothing else. *)
Definition shelf (posts : list dict) : World :=
  mkWorld (File (Encoded (JObj [(py "posts", JList (map JObj posts))]))) 0.

(** A post whose date carries a UTC offset, and a post whose date is a
    number. *)
Definition abroad : dict :=
  stored_post 4 "abroad" (Some "2024-05-01T10:00:00+02:00"%string).
Definition numbered : dict :=
  [(py "id", JInt 5); (py "slug", JStr (py "numbered"));
   (py "title", JStr (py "numbered")); (py "date", JInt 20240101)].

(** A post whose id is a string. *)
Definition lettered : dict :=
  [(py "id", JStr (py "x")); (py "slug", JStr (py "lettered"));
   (py "title", JStr (py "lettered"))].

Definition travels : World := shelf [january; abroad].
Definition alphabet : World := shelf [lettered].
Definition ledger : World := shelf [january; numbered].

(** A form whose date carries a UTC offset. *)
Definition hello_abroad : App.Request :=
  request [("title", "Hello, World");
           ("date", "2024-05-01T10:00:00+02:00")]%string.

(** Two posts under the id 0, and the edit form of the second with a date
    before both. *)
Definition first_zero : dict := stored_post 0 "a" (Some "2024-02-01"%string).
Definition second_zero : dict := stored_post 0 "b" (Some "2024-01-01"%string).
Definition zeros : World := shelf [first_zero; second_zero].
Definition b_again : App.Request :=
  request [("title", "B again"); ("slug", "b"); ("date", "2023-01-01")]%string.

(** What the edit writes: the payload in the place of the first post of
    id 0, in the document as [load_data] completes it. *)
Definition b_saved : dict :=
  App.post_dict (JInt 0) (py "b") (py "B again") (py "2023-01-01")
    (App.now_iso 0) (py "publish") [] [] [] (JStr []) [] JNull.
Definition zeros_edited : World :=
  mkWorld (File (Encoded (JObj
     [(py "posts", JList [JObj b_saved; JObj second_zero]);
      (py "pages", JObj []);
      (py "settings",
       JObj [(py "nav_links", App.DEFAULT_NAV_LINKS);
             (py "main_title", App.DEFAULT_MAIN_TITLE)])])))
    1.

(** A document whose settings are null. *)
Definition unset : World :=
  mkWorld (File (Encoded (JObj [(py "settings", JNull)]))) 0.

Definition wp (local : string) : str :=
  py "{http://wordpress.org/export/1.2/}" ++ py local.

Definition leaf (tag : str) (text : string) : ImportWp.element :=
  ImportWp.Element tag [] (Some (py text)) [].

Definition category (domain text : string) : ImportWp.element :=
  ImportWp.Element (py "category") [(py "domain", py domain)]
    (Some (py text)) [].

Definition item (id name title : string) (cats : list ImportWp.element)
  : ImportWp.element :=
  ImportWp.Element (py "item") [] None
    ([leaf (wp "post_type") "post"; leaf (wp "post_id") id;
      leaf (wp "post_name") name; leaf (py "title") title;
      leaf (wp "post_date") "2024-02-03 04:05:06"] ++ cats).

Definition rss (items : list ImportWp.element) : ImportWp.element :=
  ImportWp.Element (py "rss") [] None
    [ImportWp.Element (py "channel") [] None items].

(** The import scenario of the specification: a post whose only category
    is a tag with no text, and a post in the category Tech. *)
Definition export : ImportWp.element :=
  rss [item "1" "one" "One" [category "post_tag" "  "];
       item "2" "two" "Two" [category "category" "Tech"]].

(** An export whose two posts carry the same [wp:post_name]. *)
Definition twins : ImportWp.element :=
  rss [item "1" "hello" "Hello" []; item "2" "hello" "Hello again" []].


(** ** Sample sessions, requests of the views, drafts and pages *)

#[export] Instance sample_format : Site.Format := {|
  Site.format_value := fun j => match j with JStr s => s | _ => [] end;
  Site.format_str := fun s => eq_refl
|}.

Definition visitor : dict := [].
Definition administrator : dict :=
  [(py "user", JStr (py "admin@bareblog.com"))].

Definition http (method path : string) (args fields : list (string * string))
  : Site.Http :=
  {| Site.method := py method;
     Site.path := py path;
     Site.args := map (fun kv => (py (fst kv), py (snd kv))) args;
     Site.body := request fields |}.

Definition login_form : Site.Http :=
  http "POST" "/admin" [("next", "/admin/settings")]%string
       [("username", " admin@bareblog.com "); ("password", "bareblog123")]%string.

Definition wrong_password : Site.Http :=
  http "POST" "/admin" []
       [("username", "admin@bareblog.com"); ("password", "letmein")]%string.

Definition settings_form : Site.Http :=
  http "POST" "/admin/settings" []
       [("about_content", " <p>Hi</p> "); ("nav_links", "Home|/");
        ("main_title", " My blog ")]%string.

(** The edit form of the post [january], posted to its edit view. *)
Definition edit_form : Site.Http :=
  {| Site.method := py "POST";
     Site.path := py "/admin/posts/first/edit";
     Site.args := [];
     Site.body := retitled |}.

Definition with_status (status : string) (p : dict) : dict :=
  p ++ [(py "status", JStr (py status))].

Definition draft : dict :=
  with_status "draft" (stored_post 4 "draft" (Some "2024-07-01"%string)).
Definition news : dict :=
  with_status "publish" (stored_post 5 "news" (Some "2024-08-01"%string)).

(** A backing file with a post without status, a draft and a published
    post. *)
Definition magazine : World :=
  mkWorld (File (Encoded (JObj [(py "posts",
                                 JList [JObj january; JObj draft; JObj news])])))
          0.

Definition page (name title html : string) : ImportWp.element :=
  ImportWp.Element (py "item") [] None
    [leaf (wp "post_type") "page"; leaf (wp "post_name") name;
     leaf (py "title") title;
     leaf (py "{http://purl.org/rss/1.0/modules/content/}encoded") html].

(** An export with a post and three pages: two under the slug [about], the
    second without a title, and one without a slug. *)
Definition site : ImportWp.element :=
  rss [item "1" "one" "One" [];
       page "about" "About us" "<p>first</p>";
       page "" "Nameless" "<p>lost</p>";
       page "about" "" "<p>second</p>"].

End Sample.

(* ================================================================== *)
(** * Facts about the Python values *)
(* ================================================================== *)

Module PyFacts.

Lemma str_eqb_eq (a b : str) : str_eqb a b = true <-> a = b.
Proof.
  revert b; induction a as [|x a IH]; intros [|y b]; simpl;
    try (split; (discriminate || reflexivity)).
  rewrite andb_true_iff, N.eqb_eq, IH.
  split; [intros [-> ->]; reflexivity | intros [= -> ->]; auto].
Qed.

Lemma str_eqb_refl (a : str) : str_eqb a a = true.
Proof. apply str_eqb_eq; reflexivity. Qed.

Lemma str_eqb_neq (a b : str) : str_eqb a b = false <-> a <> b.
Proof.
  rewrite <- str_eqb_eq. destruct (str_eqb a b); split; intros; congruence.
Qed.

Lemma str_eqb_sym (a b : str) : str_eqb a b = str_eqb b a.
Proof.
  destruct (str_eqb a b) eqn:E.
  - apply str_eqb_eq in E; subst; symmetry; apply str_eqb_refl.
  - symmetry; apply str_eqb_neq; apply str_eqb_neq in E; congruence.
Qed.

Lemma lookup_set_same (k : str) (v : json) (d : dict) :
  lookup k (set k v d) = Some v.
Proof.
  induction d as [|[k' v'] d IH]; simpl.
  - rewrite str_eqb_refl; reflexivity.
  - destruct (str_eqb k k') eqn:E; simpl; rewrite E; auto.
Qed.

Lemma lookup_set_other (k k' : str) (v : json) (d : dict) :
  str_eqb k' k = false -> lookup k' (set k v d) = lookup k' d.
Proof.
  intros Hk; induction d as [|[k0 v0] d IH]; simpl.
  - rewrite Hk; reflexivity.
  - destruct (str_eqb k k0) eqn:E; simpl.
    + apply str_eqb_eq in E; subst k0. rewrite Hk; reflexivity.
    + rewrite IH; reflexivity.
Qed.

Lemma set_nonempty (k : str) (v : json) (d : dict) : set k v d <> [].
Proof.
  destruct d as [|[k' v'] d]; cbn [set]; [discriminate|].
  destruct (str_eqb k k'); discriminate.
Qed.

Lemma setdefault_fst (k : str) (v : json) (d : dict) :
  fst (setdefault k v d) = get_default k v d.
Proof. unfold setdefault, get_default; destruct (lookup k d); reflexivity. Qed.

Lemma setdefault_same (k : str) (v : json) (d : dict) :
  lookup k (snd (setdefault k v d)) = Some (get_default k v d).
Proof.
  unfold setdefault, get_default; destruct (lookup k d) eqn:E; simpl; auto.
  apply lookup_set_same.
Qed.

Lemma setdefault_other (k k' : str) (v : json) (d : dict) :
  str_eqb k' k = false ->
  lookup k' (snd (setdefault k v d)) = lookup k' d.
Proof.
  intros Hk; unfold setdefault; destruct (lookup k d); simpl; auto.
  apply lookup_set_other; assumption.
Qed.

(** [setdefault] never changes a key that is there. *)
Lemma setdefault_keeps (k k' : str) (v v' : json) (d : dict) :
  lookup k' d = Some v' -> lookup k' (snd (setdefault k v d)) = Some v'.
Proof.
  intros Hk'. destruct (str_eqb k' k) eqn:E.
  - apply str_eqb_eq in E; subst k'. rewrite setdefault_same.
    unfold get_default; rewrite Hk'; reflexivity.
  - rewrite setdefault_other; assumption.
Qed.

Lemma py_eqb_str (x : json) (s : str) :
  py_eqb x (JStr s) = true <-> x = JStr s.
Proof.
  destruct x as [|b|z|t|items|fields]; simpl;
    try solve [split; [discriminate | intros [=]]].
  rewrite str_eqb_eq; split; [intros ->; reflexivity | intros [= ->]; auto].
Qed.

Lemma py_eqb_int (a b : Z) : py_eqb (JInt a) (JInt b) = Z.eqb a b.
Proof. reflexivity. Qed.

Example strip_sample : strip (py "  two words ") = py "two words".
Proof. reflexivity. Qed.

Example split_sample :
  split 44%N (py "a, b,,c ") = [py "a"; py " b"; []; py "c "].
Proof. reflexivity. Qed.

Example split_empty : split 44%N [] = [[]].
Proof. reflexivity. Qed.

Example comma_list_sample :
  App.comma_list (py "a, b,,c ") = [py "a"; py "b"; py "c"].
Proof. reflexivity. Qed.

Example py_eqb_sample :
  py_eqb (JBool true) (JInt 1) = true
  /\ py_eqb (JStr (py "1")) (JInt 1) = false
  /\ py_eqb (JObj [(py "a", JInt 1); (py "b", JNull)])
            (JObj [(py "b", JNull); (py "a", JInt 1)]) = true.
Proof. repeat split; reflexivity. Qed.

Example setdefault_sample :
  setdefault (py "a") (JInt 2) [(py "a", JInt 1)] = (JInt 1, [(py "a", JInt 1)])
  /\ setdefault (py "b") (JInt 2) [(py "a", JInt 1)]
     = (JInt 2, [(py "a", JInt 1); (py "b", JInt 2)]).
Proof. split; reflexivity. Qed.

End PyFacts.
Import PyFacts.

(* ================================================================== *)
(** * The storage accessor: [ensure_data_file], [load_data] *)
(* ================================================================== *)

Module StorageFacts.
Import App.

(** Unfolds the monad down to the world. *)
Ltac run :=
  unfold ensure_data_file, save_data, mkdir_parent, exists_, json_load,
    json_dump, bind, ret, raise, lift, exec in *; simpl in *.

Lemma ensure_data_file_absent (w : World) :
  (forall c, data_path w <> File c) ->
  ensure_data_file w
  = (Ok tt, mkWorld (File (Encoded (JObj default_document))) (ticks w)).
Proof.
  destruct w as [[| |c] t]; intros Habsent; run; auto.
  exfalso; apply (Habsent c); reflexivity.
Qed.

Lemma ensure_data_file_present (w : World) (c : contents) :
  data_path w = File c -> ensure_data_file w = (Ok tt, w).
Proof. destruct w as [d t]; simpl; intros ->; reflexivity. Qed.

(** [ensure_data_file] always succeeds and leaves a backing file. *)
Lemma ensure_data_file_total (w : World) :
  ensure_data_file w = (Ok tt, exec ensure_data_file w)
  /\ exists c, data_path (exec ensure_data_file w) = File c.
Proof. destruct w as [[| |c] t]; run; eauto. Qed.

Lemma ensure_data_file_twice (w : World) :
  exec ensure_data_file (exec ensure_data_file w) = exec ensure_data_file w.
Proof. destruct w as [[| |c] t]; reflexivity. Qed.

(** An absent file comes out of [ensure_data_file] holding the default
    document; one that exists comes out as it was. *)
Lemma ensure_data_file_world (w : World) :
  (forall c, data_path w = File c -> exec ensure_data_file w = w)
  /\ ((forall c, data_path w <> File c) ->
      exec ensure_data_file w
      = mkWorld (File (Encoded (JObj default_document))) (ticks w)).
Proof.
  split.
  - intros c E. unfold exec. rewrite (ensure_data_file_present w c E); auto.
  - intros E. unfold exec. rewrite (ensure_data_file_absent w E); auto.
Qed.

Lemma calls_ensure_present (n : nat) (w : World) (c : contents) :
  data_path w = File c -> calls n ensure_data_file w = w.
Proof.
  intros E; induction n as [|n IH]; unfold calls in *; simpl; auto.
  rewrite IH. unfold exec. rewrite (ensure_data_file_present w c E); reflexivity.
Qed.

(** C6. The first call of [ensure_data_file] on an absent backing file
    creates it holding the default document (no posts, no pages, the
    default navigation links and main title); on a backing file that
    exists, any number of calls succeed and leave the file, and the whole
    world, as they were. *)
Theorem ensure_data_file_idempotent :
  (forall w, (forall c, data_path w <> File c) ->
     fst (ensure_data_file w) = Ok tt
     /\ data_path (exec ensure_data_file w)
        = File (Encoded (JObj
            [(py "posts", JList []);
             (py "pages", JObj []);
             (py "settings", JObj [(py "nav_links", DEFAULT_NAV_LINKS);
                                   (py "main_title", DEFAULT_MAIN_TITLE)])])))
  /\ (forall w c n, data_path w = File c ->
        fst (ensure_data_file (calls n ensure_data_file w)) = Ok tt
        /\ data_path (calls (S n) ensure_data_file w) = File c
        /\ calls (S n) ensure_data_file w = w).
Proof.
  split.
  - intros w Habsent. unfold exec.
    rewrite (ensure_data_file_absent w Habsent); simpl; auto.
  - intros w c n E.
    rewrite (calls_ensure_present (S n) w c E), (calls_ensure_present n w c E).
    rewrite (ensure_data_file_present w c E); auto.
Qed.

Lemma ensure_data_file_idempotent_witness :
  data_path (exec ensure_data_file (mkWorld NoDir 0))
  = File (Encoded (JObj default_document))
  /\ calls 3 ensure_data_file (mkWorld (File (Malformed (py "{"))) 0)
     = mkWorld (File (Malformed (py "{"))) 0.
Proof.
  split.
  - apply (proj1 ensure_data_file_idempotent (mkWorld NoDir 0)).
    intros c; simpl; discriminate.
  - apply (proj2 ensure_data_file_idempotent
             (mkWorld (File (Malformed (py "{"))) 0) (Malformed (py "{")) 2%nat).
    reflexivity.
Defined.

(** Whatever it returns, [load_data] leaves the world [ensure_data_file]
    leaves: it reads, and writes nothing of its own. *)
Lemma load_data_world (w : World) :
  snd (load_data w) = exec ensure_data_file w.
Proof.
  destruct (ensure_data_file_total w) as [Hrun [c Hc]].
  unfold load_data, bind. rewrite Hrun.
  unfold json_load. rewrite Hc.
  destruct c as [j|text]; [|reflexivity].
  destruct (setdefault (py "settings") (JObj []) _) as [[] raw]; reflexivity.
Qed.

Lemma load_data_after_ensure (w : World) :
  load_data (exec ensure_data_file w) = load_data w.
Proof.
  destruct (ensure_data_file_total w) as [Hrun [c Hc]].
  unfold load_data at 2. unfold bind at 1. rewrite Hrun.
  unfold load_data, bind at 1.
  rewrite (ensure_data_file_present _ c Hc). reflexivity.
Qed.

(** [load_data] on a backing file that holds a dict. *)
Lemma load_data_dict (w : World) (d : dict) :
  data_path w = File (Encoded (JObj d)) ->
  (forall v, lookup (py "settings") d = Some v -> exists s, v = JObj s) ->
  exists raw settings,
    load_data w = (Ok raw, w)
    /\ lookup (py "posts") raw = Some (get_default (py "posts") (JList []) d)
    /\ lookup (py "pages") raw = Some (get_default (py "pages") (JObj []) d)
    /\ lookup (py "settings") raw = Some (JObj settings)
    /\ (let stored := match lookup (py "settings") d with
                      | Some (JObj s) => s
                      | _ => []
                      end in
        lookup (py "nav_links") settings
        = Some (get_default (py "nav_links") DEFAULT_NAV_LINKS stored)
        /\ lookup (py "main_title") settings
           = Some (get_default (py "main_title") DEFAULT_MAIN_TITLE stored)
        /\ forall k v, lookup k stored = Some v -> lookup k settings = Some v)
    /\ (forall k v, str_eqb k (py "settings") = false ->
          lookup k d = Some v -> lookup k raw = Some v).
Proof.
  intros E Hsettings.
  unfold load_data, bind.
  rewrite (ensure_data_file_present w _ E).
  unfold json_load; rewrite E.
  set (raw1 := snd (setdefault (py "posts") (JList []) d)).
  set (raw2 := snd (setdefault (py "pages") (JObj []) raw1)).
  pose proof (setdefault_fst (py "settings") (JObj []) raw2) as Hfst.
  pose proof (setdefault_same (py "settings") (JObj []) raw2) as Hsame.
  assert (Hother : forall k, str_eqb k (py "settings") = false ->
            lookup k (snd (setdefault (py "settings") (JObj []) raw2))
            = lookup k raw2)
    by (intros k Hk; apply setdefault_other; exact Hk).
  destruct (setdefault (py "settings") (JObj []) raw2) as [sv raw3];
    simpl in Hfst, Hsame, Hother.
  assert (Hraw2 : lookup (py "settings") raw2 = lookup (py "settings") d).
  { unfold raw2, raw1. rewrite !setdefault_other by reflexivity. reflexivity. }
  assert (Hsv : exists stored, sv = JObj stored
            /\ stored = match lookup (py "settings") d with
                        | Some (JObj s) => s
                        | _ => []
                        end).
  { rewrite Hfst. unfold get_default. rewrite Hraw2.
    destruct (lookup (py "settings") d) as [v|] eqn:Ed.
    - destruct (Hsettings v eq_refl) as [s ->]. exists s; auto.
    - exists []; auto. }
  destruct Hsv as (stored & -> & Hstored). rewrite <- Hstored. clear Hstored.
  set (s1 := snd (setdefault (py "nav_links") DEFAULT_NAV_LINKS stored)).
  set (s2 := snd (setdefault (py "main_title") DEFAULT_MAIN_TITLE s1)).
  exists (set (py "settings") (JObj s2) raw3), s2.
  split; [reflexivity|].
  split.
  { rewrite lookup_set_other, Hother by reflexivity.
    unfold raw2. rewrite setdefault_other by reflexivity.
    unfold raw1. apply setdefault_same. }
  split.
  { rewrite lookup_set_other, Hother by reflexivity.
    unfold raw2. rewrite setdefault_same. f_equal.
    unfold get_default, raw1. rewrite setdefault_other by reflexivity.
    reflexivity. }
  split; [apply lookup_set_same|].
  split.
  { cbv zeta. split; [|split].
    - unfold s2. rewrite setdefault_other by reflexivity. apply setdefault_same.
    - unfold s2. rewrite setdefault_same. f_equal.
      unfold get_default, s1. rewrite setdefault_other by reflexivity.
      reflexivity.
    - intros k v Hk. unfold s2, s1. do 2 apply setdefault_keeps. exact Hk. }
  intros k v Hk Hd.
  rewrite lookup_set_other, Hother by assumption.
  unfold raw2, raw1. do 2 apply setdefault_keeps. exact Hd.
Qed.

(** [load_data] stops on a settings entry that is not a dict. *)
Lemma load_data_settings_not_dict (w : World) (d : dict) (v : json) :
  data_path w = File (Encoded (JObj d)) ->
  lookup (py "settings") d = Some v ->
  (forall s, v <> JObj s) ->
  load_data w = (Raise AttributeError, w).
Proof.
  intros E Hv Hnot.
  unfold load_data, bind.
  rewrite (ensure_data_file_present w _ E).
  unfold json_load; rewrite E.
  set (raw2 := snd (setdefault (py "pages") (JObj [])
                      (snd (setdefault (py "posts") (JList []) d)))).
  pose proof (setdefault_fst (py "settings") (JObj []) raw2) as Hfst.
  destruct (setdefault (py "settings") (JObj []) raw2) as [sv raw3];
    simpl in Hfst.
  assert (sv = v) as ->.
  { rewrite Hfst. unfold get_default, raw2.
    rewrite !setdefault_other by reflexivity. rewrite Hv; reflexivity. }
  destruct v; try reflexivity. exfalso; eapply Hnot; reflexivity.
Qed.

(** C7. [load_data] on a backing file holding a JSON object whose
    settings, if it has any, are an object, returns the document with the
    keys posts, pages, settings and, inside settings, nav_links and
    main_title all present: a key that was there keeps its value, a
    missing one gets its default ([[]], [{}], the default links, the
    default title); the call leaves the file as it was.  On a JSON object
    whose settings are not an object, [load_data] raises
    [AttributeError].  A file whose contents do not decode makes
    [load_data] raise the decoding error.  In both cases the file is left
    untouched. *)
Theorem load_data_fills_defaults :
  (forall w d,
     data_path w = File (Encoded (JObj d)) ->
     (forall v, lookup (py "settings") d = Some v -> exists s, v = JObj s) ->
     exists raw settings,
       load_data w = (Ok raw, w)
       /\ lookup (py "posts") raw = Some (get_default (py "posts") (JList []) d)
       /\ lookup (py "pages") raw = Some (get_default (py "pages") (JObj []) d)
       /\ lookup (py "settings") raw = Some (JObj settings)
       /\ (let stored := match lookup (py "settings") d with
                         | Some (JObj s) => s
                         | _ => []
                         end in
           lookup (py "nav_links") settings
           = Some (get_default (py "nav_links") DEFAULT_NAV_LINKS stored)
           /\ lookup (py "main_title") settings
              = Some (get_default (py "main_title") DEFAULT_MAIN_TITLE stored)
           /\ forall k v, lookup k stored = Some v -> lookup k settings = Some v)
       /\ (forall k v, str_eqb k (py "settings") = false ->
             lookup k d = Some v -> lookup k raw = Some v))
  /\ (forall w text,
        data_path w = File (Malformed text) ->
        load_data w = (Raise JSONDecodeError, w))
  /\ (forall w d v,
        data_path w = File (Encoded (JObj d)) ->
        lookup (py "settings") d = Some v ->
        (forall s, v <> JObj s) ->
        load_data w = (Raise AttributeError, w)).
Proof.
  split; [|split].
  - exact load_data_dict.
  - intros w text E. unfold load_data, bind.
    rewrite (ensure_data_file_present w _ E).
    unfold json_load; rewrite E; reflexivity.
  - exact load_data_settings_not_dict.
Qed.

Lemma load_data_fills_defaults_witness :
  (exists raw settings,
     load_data (mkWorld (File (Encoded (JObj [(py "pages", JObj [])]))) 0)
     = (Ok raw, mkWorld (File (Encoded (JObj [(py "pages", JObj [])]))) 0)
     /\ lookup (py "posts") raw = Some (JList [])
     /\ lookup (py "settings") raw = Some (JObj settings)
     /\ lookup (py "main_title") settings = Some DEFAULT_MAIN_TITLE)
  /\ load_data (mkWorld (File (Malformed (py "{"))) 0)
     = (Raise JSONDecodeError, mkWorld (File (Malformed (py "{"))) 0).
Proof.
  split.
  - destruct (proj1 load_data_fills_defaults
                (mkWorld (File (Encoded (JObj [(py "pages", JObj [])]))) 0)
                [(py "pages", JObj [])] eq_refl)
      as (raw & settings & Hrun & Hposts & _ & Hsettings & (_ & Htitle & _) & _).
    + intros v Hv; vm_compute in Hv; discriminate.
    + exists raw, settings; repeat split; assumption.
  - apply (proj1 (proj2 load_data_fills_defaults) _ (py "{")); reflexivity.
Defined.

(** C9. When the backing file holds well-formed JSON that is not an
    object, [load_data] does not fail: it returns the document whose posts
    entry is that value, whose pages are empty and whose settings are the
    defaults, and leaves the file as it was. *)
Theorem load_data_wraps_non_object (w : World) (j : json) :
  data_path w = File (Encoded j) ->
  (forall d, j <> JObj d) ->
  load_data w
  = (Ok [(py "posts", j);
         (py "pages", JObj []);
         (py "settings", JObj [(py "nav_links", DEFAULT_NAV_LINKS);
                               (py "main_title", DEFAULT_MAIN_TITLE)])],
     w).
Proof.
  intros E Hnot.
  unfold load_data, bind.
  rewrite (ensure_data_file_present w _ E).
  unfold json_load; rewrite E.
  destruct j; try reflexivity.
  exfalso; eapply Hnot; reflexivity.
Qed.

Lemma load_data_wraps_non_object_witness :
  load_data (mkWorld (File (Encoded (JList [JInt 7]))) 0)
  = (Ok [(py "posts", JList [JInt 7]);
         (py "pages", JObj []);
         (py "settings", JObj [(py "nav_links", DEFAULT_NAV_LINKS);
                               (py "main_title", DEFAULT_MAIN_TITLE)])],
     mkWorld (File (Encoded (JList [JInt 7]))) 0).
Proof.
  apply (load_data_wraps_non_object
           (mkWorld (File (Encoded (JList [JInt 7]))) 0) (JList [JInt 7]));
    [reflexivity | intros d; discriminate].
Defined.

End StorageFacts.

(* ================================================================== *)
(** * Excerpts: [build_excerpt] *)
(* ================================================================== *)

Module ExcerptFacts.
Import App Sample.

(** [lstrip] drops a run of white space and stops at the first character
    that is not. *)
Lemma lstrip_split (s : str) :
  exists ws, s = ws ++ lstrip s
             /\ forallb isspace ws = true
             /\ match lstrip s with
                | c :: _ => isspace c = false
                | [] => True
                end.
Proof.
  induction s as [|c s (ws & Hs & Hws & Hhd)]; simpl.
  - exists []; auto.
  - destruct (isspace c) eqn:Ec.
    + exists (c :: ws); simpl. rewrite Ec, Hws. split; [congruence | auto].
    + exists []; simpl; auto.
Qed.

(** [rstrip] keeps a prefix, drops a run of white space at the end, and
    what it keeps does not end in white space. *)
Lemma rstrip_split (s : str) :
  exists ws, s = rstrip s ++ ws
             /\ forallb isspace ws = true
             /\ match rev (rstrip s) with
                | c :: _ => isspace c = false
                | [] => True
                end.
Proof.
  unfold rstrip. destruct (lstrip_split (rev s)) as (ws & Hs & Hws & Hhd).
  exists (rev ws). rewrite rev_involutive. repeat split.
  - rewrite <- rev_app_distr, <- Hs, rev_involutive; reflexivity.
  - rewrite forallb_forall in *. intros c Hc; apply Hws, in_rev, Hc.
  - exact Hhd.
Qed.

Lemma rstrip_fixed (s : str) (c : char) :
  isspace c = false -> rstrip (s ++ [c]) = s ++ [c].
Proof.
  intros Hc. unfold rstrip. rewrite rev_app_distr; simpl. rewrite Hc.
  change (c :: rev s) with (rev [c] ++ rev s).
  rewrite <- rev_app_distr, rev_involutive; reflexivity.
Qed.

Lemma firstn_next {A} (n : nat) (l : list A) (d : A) :
  n < List.length l -> firstn (S n) l = firstn n l ++ [nth n l d].
Proof.
  revert l; induction n as [|n IH]; intros [|x l] Hn; simpl in *; try lia.
  - reflexivity.
  - f_equal. apply IH. lia.
Qed.

(** A text with no [<] in it has no tag to remove. *)
Lemma sub_tags_plain (s : str) :
  existsb (N.eqb LT) s = false -> sub_tags false s = s.
Proof.
  induction s as [|c s IH]; intros Hs; [reflexivity|].
  cbn [existsb] in Hs. apply orb_false_iff in Hs as [Hc Hs].
  cbn [sub_tags]. rewrite N.eqb_sym, Hc. cbn [andb].
  rewrite IH; auto.
Qed.

(** C5, as [build_excerpt] computes it.  With no explicit excerpt, the
    excerpt of an HTML body is its plain text (tags removed, white space
    trimmed at both ends) when that has at most 220 characters, with no
    marker.  When the plain text is longer, the excerpt is its first 220
    characters with the white space at their end removed, followed by the
    marker: what is kept is a prefix of those 220 characters, differs from
    them by white space only, does not end in white space, and is all 220
    characters when the 220th is not white space. *)
Theorem build_excerpt_cut (html : str) :
  let text := plain_text html in
  (List.length text <= 220 -> build_excerpt (JStr html) = Ok text)
  /\ (220 < List.length text ->
      exists kept ws,
        build_excerpt (JStr html) = Ok (kept ++ ELLIPSIS)
        /\ firstn 220 text = kept ++ ws
        /\ forallb isspace ws = true
        /\ match rev kept with
           | c :: _ => isspace c = false
           | [] => True
           end
        /\ (isspace (nth 219 text 0%N) = false -> kept = firstn 220 text)).
Proof.
  cbv zeta. unfold plain_text.
  assert (Hrun : build_excerpt (JStr html)
                 = Ok (build_excerpt_str html 220)).
  { unfold build_excerpt. destruct html; reflexivity. }
  rewrite Hrun. unfold build_excerpt_str.
  set (text := strip (sub_tags false html)).
  split; intros Hlen.
  - apply Nat.leb_le in Hlen. rewrite Hlen; reflexivity.
  - assert (Hgt : Nat.leb (List.length text) 220 = false)
      by (apply Nat.leb_gt; exact Hlen).
    rewrite Hgt.
    destruct (rstrip_split (firstn 220 text)) as (ws & Hsplit & Hws & Hend).
    exists (rstrip (firstn 220 text)), ws.
    repeat split; auto.
    intros Hlast.
    assert (Hcut : firstn 220 text = firstn 219 text ++ [nth 219 text 0%N])
      by (apply firstn_next; lia).
    rewrite Hcut. apply rstrip_fixed; exact Hlast.
Qed.

Lemma build_excerpt_cut_witness :
  build_excerpt (JStr (py "<p>Hello, <b>world</b>.</p>  "))
  = Ok (py "Hello, world.")
  /\ exists kept ws,
       build_excerpt (JStr (repeat 97%N 219 ++ py " b c"))
       = Ok (kept ++ ELLIPSIS)
       /\ firstn 220 (plain_text (repeat 97%N 219 ++ py " b c")) = kept ++ ws
       /\ forallb isspace ws = true.
Proof.
  split.
  - apply (proj1 (build_excerpt_cut (py "<p>Hello, <b>world</b>.</p>  "))).
    vm_compute. lia.
  - destruct (proj2 (build_excerpt_cut (repeat 97%N 219 ++ py " b c")))
      as (kept & ws & Hrun & Hcut & Hws & _).
    + vm_compute. lia.
    + exists kept, ws; auto.
Defined.

(** C5, as the specification words it, fails: the 220 first characters of
    [spaced_body] end in a space, which [build_excerpt] drops before it
    adds the marker. *)
Lemma build_excerpt_not_first_220 :
  build_excerpt (JStr spaced_body) = Ok (repeat 97%N 219 ++ ELLIPSIS)
  /\ excerpt_as_specified spaced_body = repeat 97%N 219 ++ py " " ++ ELLIPSIS
  /\ build_excerpt (JStr spaced_body) <> Ok (excerpt_as_specified spaced_body).
Proof.
  split; [vm_compute; reflexivity|].
  split; [vm_compute; reflexivity|].
  vm_compute. intros [=].
Qed.

(** The two examples of the specification: 300 plain characters give 220
    of them and the marker, 100 give the text itself. *)
Example excerpt_of_300_letters :
  build_excerpt (JStr (repeat 97%N 300)) = Ok (repeat 97%N 220 ++ ELLIPSIS).
Proof. vm_compute; reflexivity. Qed.

Example excerpt_of_100_letters :
  build_excerpt (JStr (repeat 97%N 100)) = Ok (repeat 97%N 100).
Proof. vm_compute; reflexivity. Qed.

Example sub_tags_sample :
  sub_tags false (py "<p>Hi <b>there</b></p> a < b <> c > d")
  = py "Hi there a  c > d".
Proof. reflexivity. Qed.

End ExcerptFacts.

(* ================================================================== *)
(** * Sorting: [sorted(..., reverse=True)] and [load_posts] *)
(* ================================================================== *)

Module SortFacts.

Section Generic.
Context {A K : Type} (ltb : K -> K -> bool) (key : A -> K).

Lemma insert_desc_perm (x : A) (l : list A) :
  Permutation (insert_desc ltb key x l) (x :: l).
Proof.
  induction l as [|y l IH]; simpl; auto.
  destruct (ltb (key x) (key y)); auto.
  rewrite IH. apply perm_swap.
Qed.

Lemma sorted_reverse_perm (l : list A) :
  Permutation (sorted_reverse ltb key l) l.
Proof.
  induction l as [|x l IH]; simpl; auto.
  rewrite insert_desc_perm. constructor; exact IH.
Qed.

(** Sorting the pairs (key, item) on their first component is sorting
    the items on their key. *)
Lemma insert_desc_decorated (x : A) (l : list A) :
  insert_desc ltb fst (key x, x) (map (fun a => (key a, a)) l)
  = map (fun a => (key a, a)) (insert_desc ltb key x l).
Proof.
  induction l as [|y l IH]; simpl; auto.
  destruct (ltb (key x) (key y)); simpl; [rewrite IH|]; reflexivity.
Qed.

Lemma sorted_reverse_decorated (l : list A) :
  map snd (sorted_reverse ltb fst (map (fun a => (key a, a)) l))
  = sorted_reverse ltb key l.
Proof.
  assert (H : sorted_reverse ltb fst (map (fun a => (key a, a)) l)
              = map (fun a => (key a, a)) (sorted_reverse ltb key l)).
  { induction l as [|x l IH]; simpl; auto.
    rewrite IH. apply insert_desc_decorated. }
  rewrite H, map_map; simpl. apply map_id.
Qed.
End Generic.

Section ByTime.
Context {A : Type} (key : A -> datetime).

Lemma insert_desc_sorted (x : A) (l : list A) :
  descending (fun a => moment (key a)) l ->
  descending (fun a => moment (key a)) (insert_desc earlier key x l).
Proof.
  unfold descending, earlier.
  induction l as [|y l IH]; intros Hl; simpl.
  - repeat constructor.
  - inversion Hl as [|? ? Hl' Hy]; subst.
    destruct (Z.ltb (moment (key x)) (moment (key y))) eqn:E.
    + apply Z.ltb_lt in E. constructor; [apply IH; exact Hl'|].
      eapply Permutation_Forall; [symmetry; apply insert_desc_perm|].
      constructor; [lia | exact Hy].
    + apply Z.ltb_ge in E. constructor; [exact Hl|].
      constructor; [exact E|].
      eapply Forall_impl; [|exact Hy]. simpl; intros; lia.
Qed.

Lemma sorted_reverse_sorted (l : list A) :
  descending (fun a => moment (key a)) (sorted_reverse earlier key l).
Proof.
  induction l as [|x l IH]; simpl; [constructor|].
  apply insert_desc_sorted; exact IH.
Qed.

Lemma insert_desc_stable (k : Z) (x : A) (l : list A) :
  keyed (fun a => moment (key a)) k (insert_desc earlier key x l)
  = keyed (fun a => moment (key a)) k (x :: l).
Proof.
  unfold keyed, earlier. induction l as [|y l IH]; simpl; auto.
  destruct (Z.ltb (moment (key x)) (moment (key y))) eqn:E; simpl; auto.
  apply Z.ltb_lt in E. simpl in IH; rewrite IH.
  destruct (Z.eqb (moment (key x)) k) eqn:Ex,
           (Z.eqb (moment (key y)) k) eqn:Ey; auto.
  apply Z.eqb_eq in Ex, Ey. lia.
Qed.

Lemma sorted_reverse_stable (k : Z) (l : list A) :
  keyed (fun a => moment (key a)) k (sorted_reverse earlier key l)
  = keyed (fun a => moment (key a)) k l.
Proof.
  induction l as [|x l IH]; simpl; auto.
  rewrite insert_desc_stable. unfold keyed in *; simpl. rewrite IH; auto.
Qed.

(** In a descending list an item is not earlier than the items after it. *)
Lemma descending_after (l1 l2 : list A) (x : A) :
  descending (fun a => moment (key a)) (l1 ++ x :: l2) ->
  forall y, In y l2 -> (moment (key y) <= moment (key x))%Z.
Proof.
  unfold descending. induction l1 as [|a l1 IH]; simpl; intros S y Hy.
  - inversion S as [|? ? _ F]; subst.
    rewrite Forall_forall in F. apply F. exact Hy.
  - inversion S; subst. apply IH; auto.
Qed.

(** Keys that can be compared, in any order. *)
Lemma comparable_alike (keys : list datetime) :
  comparable keys = true
  <-> forall a b, In a keys -> In b keys -> aware a = aware b.
Proof.
  destruct keys as [|k keys]; simpl.
  - split; [intros _ a b [] | reflexivity].
  - rewrite forallb_forall. split.
    + intros F a b Ha Hb.
      assert (G : forall c, k = c \/ In c keys -> aware c = aware k).
      { intros c [<- | Hc]; [reflexivity|].
        apply eqb_prop. apply F. exact Hc. }
      rewrite (G a Ha), (G b Hb). reflexivity.
    + intros F c Hc. rewrite (F c k); [apply eqb_reflx | right; exact Hc | left; reflexivity].
Qed.

Lemma comparable_perm (l1 l2 : list datetime) :
  Permutation l1 l2 -> comparable l1 = comparable l2.
Proof.
  intros P. apply eq_true_iff_eq. rewrite !comparable_alike.
  split; intros F a b Ha Hb; apply F;
    (eapply Permutation_in; [|eassumption]); auto using Permutation_sym.
Qed.

(** The insertion sort that compares with [before] raises exactly when
    the keys are of both kinds, and is the stable descending sort when
    they are of one: it is [sorted_by_time]. *)
Lemma insert_before_alike (x : A) (l : list A) :
  (forall y, In y l -> aware (key y) = aware (key x)) ->
  insert_before key x l = Ok (insert_desc earlier key x l).
Proof.
  induction l as [|y l IH]; intros Hl; [reflexivity|].
  cbn [insert_before insert_desc]. unfold before.
  rewrite (Hl y (or_introl eq_refl)), eqb_reflx. cbn [result_bind].
  fold (earlier (key x) (key y)).
  destruct (earlier (key x) (key y)); [|reflexivity].
  rewrite IH; [reflexivity|]. intros z Hz. apply Hl. right. exact Hz.
Qed.

Lemma sort_before_comparable (l : list A) :
  sort_before key l
  = if comparable (map key l) then Ok (sorted_reverse earlier key l)
    else Raise TypeError.
Proof.
  induction l as [|x l IH]; [reflexivity|].
  cbn [sort_before sorted_reverse map]. rewrite IH.
  pose proof (sorted_reverse_perm earlier key l) as P.
  destruct (comparable (map key l)) eqn:Cl; cbn [result_bind].
  - destruct (comparable (key x :: map key l)) eqn:Cx.
    + apply insert_before_alike. intros y Hy.
      apply (proj1 (comparable_alike _) Cx); [right | left; reflexivity].
      apply in_map. eapply Permutation_in; [exact P | exact Hy].
    + destruct (sorted_reverse earlier key l) as [|y s] eqn:Es.
      * apply Permutation_nil in P. subst l. discriminate Cx.
      * cbn [insert_before]. unfold before.
        destruct (Bool.eqb (aware (key x)) (aware (key y))) eqn:E;
          [|reflexivity].
        exfalso. apply eqb_prop in E.
        assert (Hy : In (key y) (map key l)).
        { apply in_map. eapply Permutation_in; [exact P | left; reflexivity]. }
        assert (Cx' : comparable (key x :: map key l) = true).
        { cbn [comparable]. apply forallb_forall. intros k Hk.
          rewrite (proj1 (comparable_alike _) Cl k (key y) Hk Hy), E.
          apply eqb_reflx. }
        congruence.
  - destruct (comparable (key x :: map key l)) eqn:Cx; [|reflexivity].
    exfalso.
    assert (Cl' : comparable (map key l) = true).
    { apply comparable_alike. intros a b Ha Hb.
      apply (proj1 (comparable_alike _) Cx); right; assumption. }
    congruence.
Qed.

Lemma sorted_by_time_insertion (l : list A) :
  sorted_by_time (map (fun a => (key a, a)) l) = sort_before key l.
Proof.
  unfold sorted_by_time. rewrite map_map, sort_before_comparable.
  cbn [fst]. change (map (fun a : A => key a) l) with (map key l).
  destruct (comparable (map key l)); [|reflexivity].
  rewrite sorted_reverse_decorated. reflexivity.
Qed.

(** A naive datetime that is not after [datetime.min] is [datetime.min]. *)
Lemma naive_min (t : datetime) :
  aware t = false -> (moment t <= 0)%Z -> t = datetime_min.
Proof.
  destruct t as [w [o|]]; unfold aware, moment; simpl; [discriminate|].
  intros _ Hle. assert (w = 0%N) as -> by lia. reflexivity.
Qed.
End ByTime.

End SortFacts.

(* ================================================================== *)
(** * The post repository: [load_posts], [get_post_by_slug],
      [handle_post_save] *)
(* ================================================================== *)

Module RepositoryFacts.
Import App StorageFacts SortFacts.

Section WithLib.
Context `{Lib}.

Lemma date_keys (ps : list dict) :
  Forall dated ps ->
  mapM date_key (map JObj ps) = Ok (map (fun p => (timestamp p, p)) ps).
Proof.
  induction 1 as [|p ps [t Hp] _ IH]; simpl; auto.
  rewrite IH. unfold date_key, timestamp; simpl. rewrite Hp; reflexivity.
Qed.

(** What [load_data] returns on a stored document: the stored posts are
    its posts, and nothing is written. *)
Lemma load_data_stores (w : World) (ps : list dict) :
  stores w ps ->
  exists raw,
    load_data w = (Ok raw, w)
    /\ raw <> []
    /\ get_default (py "posts") (JList []) raw = JList (map JObj ps)
    /\ (forall v, lookup (py "settings") raw = Some v -> exists s, v = JObj s).
Proof.
  intros (d & E & Hsettings & Hposts).
  destruct (load_data_dict w d E Hsettings)
    as (raw & settings & Hrun & Hp & _ & Hs & _).
  exists raw. split; [exact Hrun|]. split; [|split].
  - intros ->; discriminate.
  - unfold get_default at 1. rewrite Hp. exact Hposts.
  - intros v Hv. rewrite Hs in Hv. injection Hv as <-. eauto.
Qed.

Lemma load_posts_stores (w : World) (ps : list dict) :
  stores w ps -> Forall dated ps ->
  load_posts w
  = (if comparable (times ps) then Ok (sorted_reverse earlier timestamp ps)
     else Raise TypeError, w).
Proof.
  intros Hw Hps.
  destruct (load_data_stores w ps Hw) as (raw & Hrun & _ & Hposts & _).
  unfold load_posts, bind. rewrite Hrun, Hposts.
  unfold lift; simpl. rewrite (date_keys ps Hps).
  unfold sorted_by_time, times. rewrite map_map. cbn [fst].
  change (map (fun x : dict => timestamp x) ps) with (map timestamp ps).
  destruct (comparable (map timestamp ps)); [|reflexivity].
  rewrite (sorted_reverse_decorated earlier timestamp). reflexivity.
Qed.

Lemma load_posts_comparable (w : World) (ps : list dict) :
  stores w ps -> Forall dated ps -> comparable (times ps) = true ->
  load_posts w = (Ok (sorted_reverse earlier timestamp ps), w).
Proof.
  intros Hw Hps Hc. rewrite (load_posts_stores w ps Hw Hps), Hc. reflexivity.
Qed.

(** A stored date that is neither a string nor false in a condition stops
    the load. *)
Lemma date_keys_raise (ps : list dict) (p : dict) :
  In p ps -> ~ dated p -> mapM date_key (map JObj ps) = Raise TypeError.
Proof.
  induction ps as [|q ps IH]; intros Hin Hp; [destruct Hin|].
  cbn [map mapM]. unfold date_key at 1. cbn [as_dict result_bind].
  destruct (parse_date (get (py "date") q)) as [t|e] eqn:E.
  - destruct Hin as [-> | Hin]; [contradiction Hp; exists t; exact E|].
    cbn [result_bind]. rewrite (IH Hin Hp). reflexivity.
  - cbn [result_bind]. unfold parse_date in E.
    destruct (negb (truthy (get (py "date") q))); [discriminate|].
    destruct (get (py "date") q); try (injection E as <-; reflexivity).
    destruct (strptime s DATE_FMT); [discriminate|].
    destruct (strptime s _); [discriminate|].
    destruct (fromisoformat s); discriminate.
Qed.

Lemma timestamp_reading (p : dict) :
  dated p -> timestamp p = reading (get (py "date") p).
Proof.
  intros [t Hp]. unfold timestamp. rewrite Hp.
  unfold parse_date, reading in *.
  destruct (get (py "date") p) as [|b|z|s|items|fields];
    try (destruct (negb (truthy _));
         [injection Hp as <-; reflexivity | discriminate]).
  destruct s as [|c s]; cbn [truthy negb] in Hp;
    [injection Hp as <-; reflexivity|].
  destruct (strptime (c :: s) DATE_FMT); [injection Hp as <-; reflexivity|].
  destruct (strptime (c :: s) _); [injection Hp as <-; reflexivity|].
  destruct (fromisoformat (c :: s)); injection Hp as <-; reflexivity.
Qed.

(** C4. What [load_posts] does on a stored list of posts.  It raises
    [TypeError] when the date of some post is neither a string nor false
    in a condition, and when the dates parse to times of both kinds, some
    naive (among them the minimum, which a missing or unparseable date
    gets) and some with a UTC offset.  Otherwise it returns the stored
    posts (a permutation of them), later times first and posts of one
    time in their stored order, so that nothing but posts of the minimum
    time comes after a post of the minimum time.  The time of a post is
    what the first of the three formats that reads its date makes of it,
    and the minimum when its date is missing or no format reads it. *)
Theorem load_posts_sorted (w : World) (ps : list dict) :
  stores w ps ->
  (forall p, In p ps -> ~ dated p -> load_posts w = (Raise TypeError, w))
  /\ (Forall dated ps -> comparable (times ps) = false ->
      load_posts w = (Raise TypeError, w))
  /\ (Forall dated ps -> comparable (times ps) = true ->
      exists sorted,
        load_posts w = (Ok sorted, w)
        /\ Permutation sorted ps
        /\ descending (fun p => moment (timestamp p)) sorted
        /\ (forall k, keyed (fun p => moment (timestamp p)) k sorted
                      = keyed (fun p => moment (timestamp p)) k ps)
        /\ (forall before p after,
              sorted = before ++ p :: after ->
              timestamp p = datetime_min ->
              Forall (fun q => timestamp q = datetime_min) after))
  /\ (forall p, dated p -> timestamp p = reading (get (py "date") p))
  /\ (forall p s t,
        lookup (py "date") p = Some (JStr s) -> s <> [] ->
        strptime s DATE_FMT = Some t -> timestamp p = t)
  /\ (forall p s t,
        lookup (py "date") p = Some (JStr s) -> s <> [] ->
        strptime s DATE_FMT = None ->
        strptime s (py "%Y-%m-%d %H:%M:%S") = Some t -> timestamp p = t)
  /\ (forall p s t,
        lookup (py "date") p = Some (JStr s) -> s <> [] ->
        strptime s DATE_FMT = None ->
        strptime s (py "%Y-%m-%d %H:%M:%S") = None ->
        fromisoformat s = Some t -> timestamp p = t)
  /\ (forall p s,
        lookup (py "date") p = Some (JStr s) ->
        strptime s DATE_FMT = None ->
        strptime s (py "%Y-%m-%d %H:%M:%S") = None ->
        fromisoformat s = None ->
        timestamp p = datetime_min)
  /\ (forall p, lookup (py "date") p = None -> timestamp p = datetime_min).
Proof.
  intros Hw.
  assert (Hstr : forall p s, lookup (py "date") p = Some (JStr s) -> s <> [] ->
            timestamp p
            = match strptime s DATE_FMT, strptime s (py "%Y-%m-%d %H:%M:%S"),
                    fromisoformat s with
              | Some t, _, _ => t
              | None, Some t, _ => t
              | None, None, Some t => t
              | None, None, None => datetime_min
              end).
  { intros p s Hp Hs. unfold timestamp, get. rewrite Hp. unfold parse_date.
    destruct s as [|c s]; [contradiction Hs; reflexivity|]. cbn [truthy negb].
    destruct (strptime (c :: s) DATE_FMT); [reflexivity|].
    destruct (strptime (c :: s) _); [reflexivity|].
    destruct (fromisoformat (c :: s)); reflexivity. }
  split; [|split; [|split; [|split; [|split; [|split; [|split; [|split]]]]]]].
  - intros p Hin Hp.
    destruct (load_data_stores w ps Hw) as (raw & Hrun & _ & Hposts & _).
    unfold load_posts, bind. rewrite Hrun, Hposts.
    unfold lift; simpl. rewrite (date_keys_raise ps p Hin Hp). reflexivity.
  - intros Hps Hc. rewrite (load_posts_stores w ps Hw Hps), Hc. reflexivity.
  - intros Hps Hc. exists (sorted_reverse earlier timestamp ps).
    split; [apply load_posts_comparable; assumption|].
    split; [apply sorted_reverse_perm|].
    split; [apply sorted_reverse_sorted|].
    split; [intros k; apply sorted_reverse_stable|].
    intros before p after Hsplit Hp.
    pose proof (sorted_reverse_sorted timestamp ps) as Hsorted.
    rewrite Hsplit in Hsorted.
    apply Forall_forall. intros q Hq.
    pose proof (descending_after timestamp before after p Hsorted q Hq) as Hle.
    rewrite Hp in Hle. apply naive_min; [|exact Hle].
    assert (Hin : forall x, In x (before ++ p :: after) -> In (timestamp x) (times ps)).
    { intros x Hx. unfold times. apply in_map.
      eapply Permutation_in; [apply (sorted_reverse_perm earlier timestamp)|].
      rewrite Hsplit. exact Hx. }
    rewrite (proj1 (comparable_alike (times ps)) Hc (timestamp q) (timestamp p)).
    + rewrite Hp. reflexivity.
    + apply Hin. apply in_or_app. right; right; exact Hq.
    + apply Hin. apply in_or_app. right; left; reflexivity.
  - apply timestamp_reading.
  - intros p s t Hp Hs H1. rewrite (Hstr p s Hp Hs), H1. reflexivity.
  - intros p s t Hp Hs H1 H2. rewrite (Hstr p s Hp Hs), H1, H2. reflexivity.
  - intros p s t Hp Hs H1 H2 H3. rewrite (Hstr p s Hp Hs), H1, H2, H3.
    reflexivity.
  - intros p s Hp H1 H2 H3. destruct s as [|c s].
    + unfold timestamp, get. rewrite Hp. reflexivity.
    + rewrite (Hstr p _ Hp); [|discriminate]. rewrite H1, H2, H3. reflexivity.
  - intros p Hp. unfold timestamp, get. rewrite Hp. reflexivity.
Qed.

Lemma load_posts_world (w : World) :
  snd (load_posts w) = exec ensure_data_file w.
Proof.
  pose proof (load_data_world w) as Hw.
  unfold load_posts, bind.
  destruct (load_data w) as [[raw|e] w1]; simpl in Hw; subst; [|reflexivity].
  unfold lift.
  destruct (iter _) as [items|e]; [|reflexivity].
  destruct (mapM date_key items); reflexivity.
Qed.

(** What [load_data] returns is never the empty dict. *)
Lemma load_data_nonempty (w w' : World) (raw : dict) :
  load_data w = (Ok raw, w') -> raw <> [].
Proof.
  destruct (ensure_data_file_total w) as [Hrun [c Hc]].
  unfold load_data, bind. rewrite Hrun. unfold json_load. rewrite Hc.
  destruct c as [j|text]; [|discriminate].
  destruct (setdefault (py "settings") (JObj []) _) as [sv raw3] eqn:E.
  destruct sv; try discriminate.
  unfold ret; cbv beta. intros [= <- _]. apply set_nonempty.
Qed.

(** The two loads that open [handle_post_save]: both leave the world
    [ensure_data_file] leaves, in which the backing file exists. *)
Lemma loads (w : World) :
  let w1 := exec ensure_data_file w in
  (exists c, data_path w1 = File c)
  /\ ((exists e, load_posts w = (Raise e, w1))
      \/ exists posts,
           load_posts w = (Ok posts, w1)
           /\ ((exists e, load_data w1 = (Raise e, w1))
               \/ exists data, load_data w1 = (Ok data, w1) /\ data <> [])).
Proof.
  cbv zeta. split; [apply ensure_data_file_total|].
  pose proof (load_posts_world w) as Hp.
  destruct (load_posts w) as [[posts|e] w1]; simpl in Hp; subst; [|eauto].
  right. exists posts. split; [reflexivity|].
  pose proof (load_data_world (exec ensure_data_file w)) as Hd.
  rewrite ensure_data_file_twice in Hd.
  destruct (load_data (exec ensure_data_file w)) as [[data|e] w2] eqn:E;
    simpl in Hd; subst; [|eauto].
  right. exists data. split; [reflexivity|].
  eapply load_data_nonempty; exact E.
Qed.

Lemma parse_date_str (s : str) : exists t, parse_date (JStr s) = Ok t.
Proof.
  unfold parse_date. destruct s as [|c s]; simpl; eauto.
  destruct (strptime _ DATE_FMT); eauto.
  destruct (strptime _ _); eauto.
  destruct (fromisoformat _); eauto.
Qed.

Lemma utcnow_iso_run (w : World) :
  utcnow_iso w = (Ok (now_iso (ticks w)), mkWorld (data_path w) (S (ticks w))).
Proof. reflexivity. Qed.

Lemma save_posts_run (posts : list dict) (data : dict) (w : World) (c : contents) :
  data <> [] -> data_path w = File c ->
  save_posts posts (Some data) w
  = (Ok tt, mkWorld (File (Encoded (JObj (set (py "posts")
                                            (JList (map JObj posts)) data))))
                    (ticks w)).
Proof.
  intros Hdata Hw. destruct data as [|kv data]; [congruence|].
  destruct w as [d t]; simpl in Hw; subst d. reflexivity.
Qed.

Section Paths.
Variables (req : Request) (existing : option dict).
Variables (w w1 : World) (posts : list dict) (data : dict).
Hypothesis Hposts : load_posts w = (Ok posts, w1).
Hypothesis Hdata : load_data w1 = (Ok data, w1).

Ltac enter :=
  unfold handle_post_save; unfold bind at 1; rewrite Hposts;
  unfold bind at 1; rewrite Hdata.

Lemma path_title :
  title req = [] ->
  handle_post_save req existing w
  = (Ok {| flashed := (py "Title is required", py "error");
           location := back req |}, w1).
Proof. intros Ht. enter. rewrite Ht. reflexivity. Qed.

Lemma path_slug_raise (e : exn) :
  title req <> [] -> slug_value req existing = Raise e ->
  handle_post_save req existing w = (Raise e, w1).
Proof.
  intros Ht Hs. enter. destruct (title req); [congruence|].
  unfold bind at 1, lift. rewrite Hs. reflexivity.
Qed.

Lemma path_slug_empty :
  title req <> [] -> slug_value req existing = Ok [] ->
  handle_post_save req existing w
  = (Ok {| flashed := (py "Slug could not be generated", py "error");
           location := back req |}, w1).
Proof.
  intros Ht Hs. enter. destruct (title req); [congruence|].
  unfold bind at 1, lift. rewrite Hs. reflexivity.
Qed.

Lemma path_collision (sv : str) :
  title req <> [] -> slug_value req existing = Ok sv -> sv <> [] ->
  existsb (collides sv existing) posts = true ->
  handle_post_save req existing w
  = (Ok {| flashed := (py "Slug already exists", py "error");
           location := back req |}, w1).
Proof.
  intros Ht Hs Hsv Hc. enter. destruct (title req); [congruence|].
  unfold bind at 1, lift. rewrite Hs. destruct sv; [congruence|].
  rewrite Hc. reflexivity.
Qed.

Lemma path_valid (sv : str) :
  title req <> [] -> slug_value req existing = Ok sv -> sv <> [] ->
  existsb (collides sv existing) posts = false ->
  handle_post_save req existing w
  = save_valid_post req existing posts data sv w1.
Proof.
  intros Ht Hs Hsv Hc. enter. destruct (title req); [congruence|].
  unfold bind at 1, lift. rewrite Hs. destruct sv; [congruence|].
  rewrite Hc. reflexivity.
Qed.
End Paths.

Lemma datetime_eqb_min (t : datetime) :
  datetime_eqb t datetime_min = false <-> t <> datetime_min.
Proof.
  destruct t as [wl [o|]]; unfold datetime_eqb, aware, moment; simpl.
  - split; [discriminate | reflexivity].
  - rewrite Z.sub_0_r. split.
    + intros E [= ->]. discriminate E.
    + intros Hne. apply Z.eqb_neq. intros E. apply Hne.
      assert (wl = 0%N) as -> by lia. reflexivity.
Qed.

Lemma datetime_eqb_is_min (t : datetime) :
  datetime_eqb t datetime_min = true -> t = datetime_min.
Proof.
  destruct t as [wl [o|]]; unfold datetime_eqb, aware, moment; simpl.
  - discriminate.
  - rewrite Z.sub_0_r. intros E. apply Z.eqb_eq in E.
    assert (wl = 0%N) as -> by lia. reflexivity.
Qed.

(** The date [save_valid_post] resolves, starting in world [w1]: the date
    of the form when it is there and parses, else a reading of the clock. *)
Lemma date_steps {B} (req : Request) (k : str -> M B) (w1 : World) :
  exists d wd,
    (d0 <- match date_input req with
           | (_ :: _) as d => ret d
           | [] => utcnow_iso
           end ;;
     parsed <- lift (parse_date (JStr d0)) ;;
     d <- (if datetime_eqb parsed datetime_min then utcnow_iso else ret d0) ;;
     k d) w1
    = k d wd
    /\ data_path wd = data_path w1
    /\ ticks w1 <= ticks wd
    /\ ((date_input req <> []
         /\ (exists t, parse_date (JStr (date_input req)) = Ok t
                       /\ t <> datetime_min)
         /\ d = date_input req)
        \/ ((date_input req = []
             \/ parse_date (JStr (date_input req)) = Ok datetime_min)
            /\ exists n, ticks w1 <= n < ticks wd /\ d = now_iso n)).
Proof.
  destruct (date_input req) as [|d0 dl] eqn:Ed.
  - unfold bind at 1. rewrite utcnow_iso_run.
    destruct (parse_date_str (now_iso (ticks w1))) as [t Hparse].
    unfold bind at 1, lift. rewrite Hparse.
    destruct (datetime_eqb t datetime_min).
    + unfold bind at 1. rewrite utcnow_iso_run; simpl.
      do 2 eexists. split; [reflexivity|].
      simpl. split; [reflexivity|]. split; [lia|].
      right. split; [left; reflexivity|]. exists (S (ticks w1)).
      split; [lia | reflexivity].
    + unfold bind at 1, ret at 1. do 2 eexists. split; [reflexivity|].
      simpl. split; [reflexivity|]. split; [lia|].
      right. split; [left; reflexivity|]. exists (ticks w1).
      split; [lia | reflexivity].
  - unfold bind at 1, ret at 1.
    destruct (parse_date_str (d0 :: dl)) as [t Hparse].
    unfold bind at 1, lift. rewrite Hparse.
    destruct (datetime_eqb t datetime_min) eqn:Emin.
    + unfold bind at 1. rewrite utcnow_iso_run.
      do 2 eexists. split; [reflexivity|].
      split; [reflexivity|]. split; [simpl; lia|].
      right. split.
      * right. f_equal. apply datetime_eqb_is_min; exact Emin.
      * exists (ticks w1). simpl. split; [lia | reflexivity].
    + unfold bind at 1, ret at 1. do 2 eexists. split; [reflexivity|].
      repeat split; try lia. left. split; [discriminate|]. split; auto.
      exists t. split; auto. apply datetime_eqb_min; exact Emin.
Qed.

(** Past validation: the call raises before it writes (the excerpt or the
    next id cannot be computed), or it saves the payload.  [d] is the
    resolved date, [m] the modification stamp, [ex] the excerpt. *)
Lemma save_valid_post_run (req : Request) (existing : option dict)
    (posts : list dict) (data : dict) (sv : str) (w1 : World) :
  data <> [] -> (exists c, data_path w1 = File c) ->
  (exists e w2,
     save_valid_post req existing posts data sv w1 = (Raise e, w2)
     /\ data_path w2 = data_path w1
     /\ ((excerpt_input req = []
          /\ truthy (html_body req existing) = true
          /\ build_excerpt (html_body req existing) = Raise e)
         \/ (given existing = None /\ next_id posts = Raise e)))
  \/ (exists id d m ex w2,
     save_valid_post req existing posts data sv w1
     = (Ok {| flashed := (match given existing with
                          | Some _ => py "Post updated"
                          | None => py "Post created"
                          end, py "success");
              location := admin_posts_url |}, w2)
     /\ data_path w2
        = File (Encoded (JObj (set (py "posts")
            (JList (map JObj
               (with_post existing
                  (post_dict id sv (title req) d m (status req) (tags req)
                     (categories req) (md_body req) (html_body req existing)
                     ex
                     match given existing with
                     | Some e => get (py "author") e
                     | None => JStr ADMIN_USER
                     end)
                  posts)))
            data)))
     /\ match given existing with
        | Some e => id = get (py "id") e
        | None => exists n, next_id posts = Ok n /\ id = JInt n
        end
     /\ ((date_input req <> []
          /\ (exists t, parse_date (JStr (date_input req)) = Ok t
                        /\ t <> datetime_min)
          /\ d = date_input req)
         \/ ((date_input req = []
              \/ parse_date (JStr (date_input req)) = Ok datetime_min)
             /\ exists n, ticks w1 <= n < ticks w2 /\ d = now_iso n))
     /\ ticks w1 < ticks w2
     /\ m = now_iso (pred (ticks w2))
     /\ match excerpt_input req with
        | [] => if truthy (html_body req existing)
                then build_excerpt (html_body req existing) = Ok ex
                else ex = []
        | _ :: _ => ex = excerpt_input req
        end).
Proof.
  intros Hne [c Hc].
  unfold save_valid_post. cbv zeta.
  match goal with
  | |- context [bind _ (fun d0 => bind _ (fun parsed => bind _ ?k))] =>
      destruct (date_steps req k w1) as (d & wd & Hrun & Hpath & Hticks & Hd)
  end.
  rewrite Hrun. clear Hrun.
  assert (Hcd : data_path wd = File c) by congruence.
  match goal with
  | |- (exists e w2, ?R = _ /\ _) \/ _ =>
      destruct R as [r w2] eqn:E
  end.
  destruct (excerpt_input req) as [|x0 xl] eqn:Eex;
    [destruct (truthy (html_body req existing)) eqn:Etr;
     [destruct (build_excerpt (html_body req existing)) as [ex|e] eqn:Ebuild|]|];
    (destruct (given existing) as [e0|] eqn:Egiven;
     [|destruct (next_id posts) as [n|e'] eqn:Enext]);
    cbv beta iota zeta delta
      [bind lift ret raise utcnow_iso utcnow result_bind flash_redirect] in E;
    try (erewrite save_posts_run in E by (try eassumption; simpl; eassumption));
    cbv beta iota zeta delta
      [bind lift ret raise utcnow_iso utcnow result_bind flash_redirect] in E;
    injection E as <- <-;
    first
      [ right; do 5 eexists;
        split; [reflexivity|];
        split; [unfold with_post; rewrite Egiven; reflexivity|];
        split; [first [reflexivity | eexists; split; reflexivity]|];
        split; [destruct Hd as [Hd|[Hwhy [k [Hk ->]]]];
                [left; exact Hd
                |right; split; [exact Hwhy|];
                 exists k; split; [simpl; lia | reflexivity]]|];
        split; [simpl; lia|];
        split; reflexivity
      | left; do 2 eexists;
        split; [reflexivity|];
        split; [exact Hpath|];
        first [left; repeat split; reflexivity
              |right; repeat split; reflexivity] ].
Qed.

(** ** Ids and slugs under the two ways of storing a payload *)

Lemma get_post_dict (id : json) (slug title date modified status : str)
    (tags categories : list str) (md : str) (html : json) (excerpt : str)
    (author : json) :
  let p := post_dict id slug title date modified status tags categories md
             html excerpt author in
  get (py "id") p = id
  /\ get (py "slug") p = JStr slug
  /\ get (py "title") p = JStr title
  /\ get (py "date") p = JStr date
  /\ get (py "status") p = JStr status
  /\ get (py "tags") p = JList (map JStr tags)
  /\ get (py "categories") p = JList (map JStr categories)
  /\ get (py "content_markdown") p = JStr md
  /\ get (py "content_html") p = html
  /\ get (py "excerpt") p = JStr excerpt
  /\ get (py "author") p = author.
Proof. cbv zeta. repeat split; reflexivity. Qed.

Lemma in_slugs (s : str) (ps : list dict) :
  In s (slugs ps) <-> exists p, In p ps /\ get (py "slug") p = JStr s.
Proof.
  unfold slugs. rewrite in_flat_map. split.
  - intros (p & Hp & Hs). exists p. split; auto.
    destruct (get (py "slug") p); simpl in Hs; try contradiction.
    destruct Hs as [->|[]]; reflexivity.
  - intros (p & Hp & Hs). exists p. split; auto. rewrite Hs; simpl; auto.
Qed.

Lemma slugs_app (l1 l2 : list dict) : slugs (l1 ++ l2) = slugs l1 ++ slugs l2.
Proof. apply flat_map_app. Qed.

Lemma unique_ids_perm (l1 l2 : list dict) :
  Permutation l1 l2 -> unique_ids l1 -> unique_ids l2.
Proof.
  intros Hp [Hint Hnd]. split.
  - eapply Permutation_Forall; eassumption.
  - eapply Permutation_NoDup; [|exact Hnd]. apply Permutation_map; exact Hp.
Qed.

Lemma unique_slugs_perm (l1 l2 : list dict) :
  Permutation l1 l2 -> unique_slugs l1 -> unique_slugs l2.
Proof.
  unfold unique_slugs, slugs. intros Hp Hnd.
  eapply Permutation_NoDup; [|exact Hnd]. apply Permutation_flat_map; exact Hp.
Qed.

Lemma get_default_int (k : str) (p : dict) (i : Z) (v : json) :
  get k p = JInt i -> get_default k v p = JInt i.
Proof.
  unfold get, get_default. destruct (lookup k p); [auto | discriminate].
Qed.

Lemma fold_max_ge (a : Z) (ns : list Z) (n : Z) :
  In n ns -> (n <= fold_right Z.max a ns)%Z.
Proof.
  induction ns as [|m ns IH]; simpl; [contradiction|].
  intros [->|Hn]; [lia | specialize (IH Hn); lia].
Qed.

(** With integer ids all around, [next_id] gives an id no post has. *)
Lemma next_id_fresh (posts : list dict) :
  Forall int_id posts ->
  exists n, next_id posts = Ok n
            /\ forall p, In p posts -> get (py "id") p <> JInt n.
Proof.
  intros Hint.
  assert (Hns : exists ns,
             mapM as_int (map (get_default (py "id") (JInt 0)) posts) = Ok ns
             /\ forall p, In p posts ->
                  exists i, get (py "id") p = JInt i /\ In i ns).
  { induction Hint as [|p posts [i Hi] _ (ns & Hrun & Hin)].
    - exists []; split; [reflexivity | contradiction].
    - exists (i :: ns). simpl. rewrite (get_default_int _ _ _ _ Hi); simpl.
      rewrite Hrun; simpl. split; [reflexivity|].
      intros q [<-|Hq]; [exists i; auto|].
      destruct (Hin q Hq) as (j & Hj & Hjn). exists j; auto. }
  destruct Hns as (ns & Hrun & Hin).
  unfold next_id. destruct posts as [|p posts].
  - exists 1%Z. split; [reflexivity | contradiction].
  - cbn [map] in *. rewrite Hrun. cbn [result_bind].
    eexists. split; [reflexivity|].
    intros q Hq [= Hid]. destruct (Hin q Hq) as (j & Hj & Hjn).
    rewrite Hj in Hid. injection Hid as ->.
    pose proof (fold_max_ge (hd 0%Z ns) ns _ Hjn). lia.
Qed.

Lemma collides_new (sv : str) (existing : option dict) (posts : list dict) :
  given existing = None ->
  existsb (collides sv existing) posts = false ->
  ~ In sv (slugs posts).
Proof.
  intros Hg Hc Hin. apply in_slugs in Hin as (p & Hp & Hs).
  assert (Hex : existsb (collides sv existing) posts = true); [|congruence].
  apply existsb_exists. exists p. split; auto.
  unfold collides. rewrite Hg, Hs; simpl. rewrite str_eqb_refl; reflexivity.
Qed.

Lemma collides_edit (sv : str) (existing : option dict) (e : dict) (i : Z)
    (posts : list dict) (p : dict) :
  given existing = Some e -> get (py "id") e = JInt i ->
  existsb (collides sv existing) posts = false ->
  In p posts -> py_eqb (get (py "id") p) (JInt i) = false ->
  get (py "slug") p <> JStr sv.
Proof.
  intros Hg He Hc Hp Hid Hs.
  assert (Hex : existsb (collides sv existing) posts = true); [|congruence].
  apply existsb_exists. exists p. split; auto.
  unfold collides. rewrite Hg, Hs, He, Hid; simpl.
  rewrite str_eqb_refl; reflexivity.
Qed.

(** [replace_by_id] changes nothing, or exactly the first post of the id. *)
Lemma replace_by_id_split (id : json) (payload : dict) (posts : list dict) :
  (replace_by_id id payload posts = posts
   /\ forall p, In p posts -> py_eqb (get (py "id") p) id = false)
  \/ exists l1 p0 l2,
       posts = l1 ++ p0 :: l2
       /\ py_eqb (get (py "id") p0) id = true
       /\ (forall p, In p l1 -> py_eqb (get (py "id") p) id = false)
       /\ replace_by_id id payload posts = l1 ++ payload :: l2.
Proof.
  induction posts as [|q posts IH]; simpl.
  - left; split; [reflexivity | contradiction].
  - destruct (py_eqb (get (py "id") q) id) eqn:E.
    + right. exists [], q, posts. repeat split; auto. contradiction.
    + destruct IH as [[Hsame Hno]|(l1 & p0 & l2 & -> & Hp0 & Hl1 & Hrep)].
      * left. split; [rewrite Hsame; reflexivity|].
        intros p [<-|Hp]; auto.
      * right. exists (q :: l1), p0, l2. repeat split; auto.
        -- intros p [<-|Hp]; auto.
        -- simpl. rewrite Hrep. reflexivity.
Qed.

Lemma py_eqb_int_id (p : dict) (i j : Z) :
  get (py "id") p = JInt j ->
  py_eqb (get (py "id") p) (JInt i) = Z.eqb j i.
Proof. intros ->; reflexivity. Qed.

(** Appending a post with a fresh id and a free slug keeps both
    invariants. *)
Lemma append_kept (posts : list dict) (payload : dict) (n : Z) (sv : str) :
  unique_ids posts -> unique_slugs posts ->
  get (py "id") payload = JInt n ->
  get (py "slug") payload = JStr sv ->
  (forall p, In p posts -> get (py "id") p <> JInt n) ->
  ~ In sv (slugs posts) ->
  unique_ids (posts ++ [payload]) /\ unique_slugs (posts ++ [payload]).
Proof.
  intros [Hint Hnd] Hslugs Hid Hslug Hfresh Hfree. split; [split|].
  - apply Forall_app; split; auto. constructor; [exists n; exact Hid | constructor].
  - rewrite map_app; simpl.
    eapply Permutation_NoDup; [apply Permutation_cons_append|].
    constructor; auto. rewrite in_map_iff. intros (p & Hp & Hin).
    apply (Hfresh p Hin). congruence.
  - unfold unique_slugs. rewrite slugs_app.
    unfold slugs at 2; simpl. rewrite Hslug; simpl.
    eapply Permutation_NoDup; [apply Permutation_cons_append|].
    constructor; auto.
Qed.

(** Replacing the post of id [i] by a payload of the same id, whose slug no
    post of another id has, keeps both invariants. *)
Lemma replace_kept (posts : list dict) (payload : dict) (i : Z) (sv : str) :
  unique_ids posts -> unique_slugs posts ->
  get (py "id") payload = JInt i ->
  get (py "slug") payload = JStr sv ->
  (forall p, In p posts -> py_eqb (get (py "id") p) (JInt i) = false ->
             get (py "slug") p <> JStr sv) ->
  unique_ids (replace_by_id (JInt i) payload posts)
  /\ unique_slugs (replace_by_id (JInt i) payload posts).
Proof.
  intros [Hint Hnd] Hslugs Hid Hslug Hfree.
  destruct (replace_by_id_split (JInt i) payload posts)
    as [[-> _]|(l1 & p0 & l2 & -> & Hp0 & Hl1 & ->)].
  - split; [split|]; assumption.
  - assert (Hid0 : get (py "id") p0 = JInt i).
    { apply Forall_app in Hint as [_ Hint]. inversion Hint as [|? ? [j Hj] _].
      rewrite (py_eqb_int_id p0 i j Hj) in Hp0. apply Z.eqb_eq in Hp0.
      congruence. }
    assert (Hother : forall p, In p (l1 ++ l2) ->
                       py_eqb (get (py "id") p) (JInt i) = false).
    { intros p Hp. apply in_app_or in Hp as [Hp|Hp]; [auto|].
      rewrite map_app in Hnd; simpl in Hnd.
      apply NoDup_remove_2 in Hnd.
      assert (Hj : int_id p).
      { rewrite Forall_forall in Hint. apply Hint.
        apply in_or_app; right; right; exact Hp. }
      destruct Hj as [j Hj]. rewrite (py_eqb_int_id p i j Hj).
      apply Z.eqb_neq. intros ->. apply Hnd.
      apply in_or_app; right. rewrite Hid0, <- Hj. apply in_map; exact Hp. }
    split; [split|].
    + apply Forall_app in Hint as [H1 H2]. inversion H2; subst.
      apply Forall_app; split; auto. constructor; auto. exists i; exact Hid.
    + rewrite map_app in *; simpl in *. rewrite Hid, <- Hid0. exact Hnd.
    + unfold unique_slugs in *. rewrite slugs_app in *.
      change (p0 :: l2) with ([p0] ++ l2) in Hslugs.
      change (payload :: l2) with ([payload] ++ l2).
      rewrite slugs_app in *.
      assert (Hrest : NoDup (slugs l1 ++ slugs l2)).
      { clear - Hslugs. induction (slugs [p0]) as [|s l IH]; simpl in *; auto.
        apply IH. eapply NoDup_remove_1; exact Hslugs. }
      unfold slugs at 2; simpl. rewrite Hslug; simpl.
      apply NoDup_Add with (a := sv) (l := slugs l1 ++ slugs l2).
      * apply Add_app.
      * split; auto. intros Hin.
        rewrite <- slugs_app in Hin. apply in_slugs in Hin as (p & Hp & Hs).
        apply (Hfree p); auto.
        apply in_app_or in Hp as [Hp|Hp]; apply in_or_app;
          [left | right; right]; exact Hp.
Qed.

(** ** Validation failures *)

Lemma load_posts_raises (req : Request) (existing : option dict)
    (w w1 : World) (e : exn) :
  load_posts w = (Raise e, w1) ->
  handle_post_save req existing w = (Raise e, w1).
Proof. intros Hp. unfold handle_post_save, bind at 1. rewrite Hp; reflexivity. Qed.

Lemma load_data_raises (req : Request) (existing : option dict)
    (w w1 : World) (posts : list dict) (e : exn) :
  load_posts w = (Ok posts, w1) -> load_data w1 = (Raise e, w1) ->
  handle_post_save req existing w = (Raise e, w1).
Proof.
  intros Hp Hd. unfold handle_post_save, bind at 1. rewrite Hp.
  unfold bind at 1. rewrite Hd; reflexivity.
Qed.

(** Whatever [handle_post_save] does, the backing file exists afterwards,
    and the call ends in one of five ways: an exception, one of the three
    error messages (the world being the one the loads left), or a saved
    post. *)
Lemma handle_post_save_ends (req : Request) (existing : option dict)
    (w : World) :
  let w1 := exec ensure_data_file w in
  let failed (message : string) :=
    handle_post_save req existing w
    = (Ok {| flashed := (py message, py "error"); location := back req |}, w1) in
  (exists e w2, handle_post_save req existing w = (Raise e, w2)
                /\ data_path w2 = data_path w1)
  \/ (title req = [] /\ failed "Title is required"%string)
  \/ (title req <> [] /\ slug_value req existing = Ok []
      /\ failed "Slug could not be generated"%string)
  \/ (exists posts sv,
        load_posts w = (Ok posts, w1)
        /\ title req <> [] /\ slug_value req existing = Ok sv /\ sv <> []
        /\ existsb (collides sv existing) posts = true
        /\ failed "Slug already exists"%string)
  \/ (exists posts data sv,
        load_posts w = (Ok posts, w1)
        /\ load_data w1 = (Ok data, w1) /\ data <> []
        /\ title req <> [] /\ slug_value req existing = Ok sv /\ sv <> []
        /\ existsb (collides sv existing) posts = false
        /\ handle_post_save req existing w
           = save_valid_post req existing posts data sv w1).
Proof.
  cbv zeta.
  destruct (loads w) as [Hfile [[e He]|(posts & Hp & [[e Hd]|(data & Hd & Hne)])]].
  - left. exists e, (exec ensure_data_file w).
    split; [apply load_posts_raises; exact He | reflexivity].
  - left. exists e, (exec ensure_data_file w).
    split; [eapply load_data_raises; eassumption | reflexivity].
  - destruct (title req) as [|t0 tl] eqn:Et.
    { right; left. split; [reflexivity|].
      eapply path_title; eassumption. }
    assert (Ht : title req <> []) by (rewrite Et; discriminate).
    rewrite <- Et.
    destruct (slug_value req existing) as [[|s0 sl]|e] eqn:Es.
    + right; right; left. repeat split; auto.
      eapply path_slug_empty; eassumption.
    + assert (Hsv : s0 :: sl <> []) by discriminate.
      destruct (existsb (collides (s0 :: sl) existing) posts) eqn:Ec.
      * right; right; right; left. exists posts, (s0 :: sl).
        repeat split; auto. eapply path_collision; eassumption.
      * right; right; right; right. exists posts, data, (s0 :: sl).
        repeat split; auto. eapply path_valid; eassumption.
    + left. exists e, (exec ensure_data_file w).
      split; [eapply path_slug_raise; eassumption | reflexivity].
Qed.

Lemma load_posts_after_ensure (w : World) :
  load_posts (exec ensure_data_file w) = load_posts w.
Proof. unfold load_posts, bind. rewrite load_data_after_ensure. reflexivity. Qed.

(** An error response comes with no write of [handle_post_save]'s own. *)
Lemma error_response_world (req : Request) (existing : option dict)
    (w w' : World) (resp : Response) :
  handle_post_save req existing w = (Ok resp, w') ->
  snd (flashed resp) = py "error" ->
  w' = exec ensure_data_file w.
Proof.
  intros Hrun Herr.
  destruct (handle_post_save_ends req existing w)
    as [(e & w2 & He & _)|[[_ Hf]|[(_ & _ & Hf)|[(posts & sv & _ & _ & _ & _ & _ & Hf)
       |(posts & data & sv & Hp & Hd & Hne & _ & _ & _ & _ & Hv)]]]];
    try (rewrite Hrun in *; congruence).
  rewrite Hv in Hrun.
  destruct (save_valid_post_run req existing posts data sv
              (exec ensure_data_file w) Hne
              (proj2 (ensure_data_file_total w)))
    as [(e & w2 & He & _)|(id & d & m & ex & w2 & Hok & _)];
    rewrite Hrun in *; [discriminate|].
  injection Hok as -> _. simpl in Herr.
  vm_compute in Herr. discriminate.
Qed.

(** C3, as [handle_post_save] behaves.  A missing title and a slug
    collision are reported by two different messages.  Whenever the call
    answers with an error message, whatever the form and the prior state
    of the storage, it has written no post: the world is the one
    [ensure_data_file] leaves, that is, the world as it was when the
    backing file existed, and a backing file holding the empty default
    document when it did not; in both cases [load_data] and [load_posts]
    read afterwards what they would have read before. *)
Theorem validation_failure_writes_no_post :
  (forall req existing w posts data,
     load_posts w = (Ok posts, exec ensure_data_file w) ->
     load_data (exec ensure_data_file w) = (Ok data, exec ensure_data_file w) ->
     (title req = [] ->
      handle_post_save req existing w
      = (Ok {| flashed := (py "Title is required", py "error");
               location := back req |}, exec ensure_data_file w))
     /\ (forall sv,
           title req <> [] -> slug_value req existing = Ok sv -> sv <> [] ->
           existsb (collides sv existing) posts = true ->
           handle_post_save req existing w
           = (Ok {| flashed := (py "Slug already exists", py "error");
                    location := back req |}, exec ensure_data_file w)))
  /\ py "Title is required" <> py "Slug already exists"
  /\ (forall req existing w resp w',
        handle_post_save req existing w = (Ok resp, w') ->
        snd (flashed resp) = py "error" ->
        w' = exec ensure_data_file w
        /\ load_data w' = load_data w
        /\ load_posts w' = load_posts w)
  /\ (forall w c, data_path w = File c -> exec ensure_data_file w = w)
  /\ (forall w, (forall c, data_path w <> File c) ->
        exec ensure_data_file w
        = mkWorld (File (Encoded (JObj default_document))) (ticks w)).
Proof.
  split; [|split; [|split; [|split]]].
  - intros req existing w posts data Hp Hd. split.
    + intros Ht. eapply path_title; eassumption.
    + intros sv Ht Hs Hsv Hc. eapply path_collision; eassumption.
  - vm_compute. discriminate.
  - intros req existing w resp w' Hrun Herr.
    rewrite (error_response_world req existing w w' resp Hrun Herr).
    split; [reflexivity|].
    split; [apply load_data_after_ensure | apply load_posts_after_ensure].
  - intros w c. apply ensure_data_file_world.
  - intros w. apply ensure_data_file_world.
Qed.

(** C10, as [handle_post_save] behaves.  When the title is there and the
    slug comes out of [slugify] empty, the call answers with a message of
    its own, "Slug could not be generated", which is neither of the other
    two error messages; like them it writes no post, and leaves the world
    [ensure_data_file] leaves: unchanged when the backing file existed,
    holding the empty default document when it did not, so that
    [load_data] reads afterwards what it would have read before. *)
Theorem empty_slug_is_refused (req : Request) (existing : option dict)
    (w : World) (posts : list dict) (data : dict) :
  load_posts w = (Ok posts, exec ensure_data_file w) ->
  load_data (exec ensure_data_file w) = (Ok data, exec ensure_data_file w) ->
  title req <> [] ->
  slug_value req existing = Ok [] ->
  handle_post_save req existing w
  = (Ok {| flashed := (py "Slug could not be generated", py "error");
           location := back req |}, exec ensure_data_file w)
  /\ py "Slug could not be generated" <> py "Title is required"
  /\ py "Slug could not be generated" <> py "Slug already exists"
  /\ (forall c, data_path w = File c -> exec ensure_data_file w = w)
  /\ ((forall c, data_path w <> File c) ->
      exec ensure_data_file w
      = mkWorld (File (Encoded (JObj default_document))) (ticks w))
  /\ load_data (exec ensure_data_file w) = load_data w.
Proof.
  intros Hp Hd Ht Hs.
  split; [eapply path_slug_empty; eassumption|].
  split; [vm_compute; discriminate|].
  split; [vm_compute; discriminate|].
  split; [apply ensure_data_file_world|].
  split; [apply ensure_data_file_world | apply load_data_after_ensure].
Qed.

(** ** What is stored after a save *)

Lemma stores_file (w : World) (ps : list dict) :
  stores w ps -> exists c, data_path w = File c.
Proof. intros (d & E & _). eauto. Qed.

Lemma stores_data_path (w w' : World) (ps : list dict) :
  data_path w' = data_path w -> stores w ps -> stores w' ps.
Proof. intros E (d & Hd & Hs). exists d. rewrite E. auto. Qed.

Lemma kept_data_path (w w' : World) :
  data_path w' = data_path w -> kept w -> kept w'.
Proof.
  intros E (ps & Hst & Hk). exists ps. split; [|exact Hk].
  eapply stores_data_path; eassumption.
Qed.

Lemma date_keys_inv (ps : list dict) (keyed : list (datetime * dict)) :
  mapM date_key (map JObj ps) = Ok keyed -> Forall dated ps.
Proof.
  revert keyed; induction ps as [|p ps IH]; intros keyed Hrun; [constructor|].
  simpl in Hrun. unfold date_key at 1 in Hrun; simpl in Hrun.
  destruct (parse_date (get (py "date") p)) as [t|e] eqn:Ep;
    simpl in Hrun; [|discriminate].
  destruct (mapM date_key (map JObj ps)) as [rest|e] eqn:Er;
    simpl in Hrun; [|discriminate].
  constructor; [exists t; exact Ep | eapply IH; reflexivity].
Qed.

(** On a stored document the two loads read the stored posts, sorted, and
    the document, and change nothing. *)
Lemma loads_stored (w w1 : World) (ps posts : list dict) :
  stores w ps ->
  load_posts w = (Ok posts, w1) ->
  w1 = w /\ Forall dated ps /\ posts = sorted_reverse earlier timestamp ps.
Proof.
  intros Hst Hrun.
  destruct (load_data_stores w ps Hst) as (raw & Hraw & _ & Hposts & _).
  assert (Hdated : Forall dated ps).
  { unfold load_posts, bind in Hrun. rewrite Hraw, Hposts in Hrun.
    unfold lift in Hrun; simpl in Hrun.
    destruct (mapM date_key (map JObj ps)) as [keyed|e] eqn:Ek;
      [|discriminate].
    eapply date_keys_inv; exact Ek. }
  rewrite (load_posts_stores w ps Hst Hdated) in Hrun.
  destruct (comparable (times ps)); [|discriminate].
  injection Hrun as <- <-. auto.
Qed.

(** A load that returns has compared the times of the stored posts. *)
Lemma loads_comparable (w w1 : World) (ps posts : list dict) :
  stores w ps ->
  load_posts w = (Ok posts, w1) ->
  comparable (times ps) = true.
Proof.
  intros Hst Hrun.
  destruct (loads_stored w w1 ps posts Hst Hrun) as (_ & Hdated & _).
  rewrite (load_posts_stores w ps Hst Hdated) in Hrun.
  destruct (comparable (times ps)); [reflexivity | discriminate].
Qed.

Lemma stores_saved (w w2 : World) (ps new : list dict) (data : dict) :
  stores w ps ->
  load_data w = (Ok data, w) ->
  data_path w2
  = File (Encoded (JObj (set (py "posts") (JList (map JObj new)) data))) ->
  stores w2 new.
Proof.
  intros Hst Hd Hw2.
  destruct (load_data_stores w ps Hst) as (raw & Hraw & _ & _ & Hsettings).
  rewrite Hraw in Hd. injection Hd as ->.
  eexists. split; [exact Hw2|]. split.
  - intros v. rewrite lookup_set_other by reflexivity. apply Hsettings.
  - unfold get_default. rewrite lookup_set_same. reflexivity.
Qed.

(** The posts handed to [save_posts] keep the two invariants. *)
Lemma with_post_kept (existing : option dict) (posts : list dict)
    (payload : dict) (id : json) (sv : str) :
  unique_ids posts -> unique_slugs posts ->
  (forall e, given existing = Some e -> int_id e) ->
  existsb (collides sv existing) posts = false ->
  get (py "id") payload = id ->
  get (py "slug") payload = JStr sv ->
  match given existing with
  | Some e => id = get (py "id") e
  | None => exists n, next_id posts = Ok n /\ id = JInt n
  end ->
  unique_ids (with_post existing payload posts)
  /\ unique_slugs (with_post existing payload posts).
Proof.
  intros Hids Hslugs Hex Hcol Hid Hslug Hidv. unfold with_post.
  destruct (given existing) as [e|] eqn:Eg.
  - destruct (Hex e eq_refl) as [i Hi]. rewrite Hi in *. subst id.
    apply (replace_kept posts payload i sv); auto.
    intros p Hp Hpi. eapply collides_edit; eauto.
  - destruct Hidv as (n & Hn & ->).
    destruct (next_id_fresh posts (proj1 Hids)) as (n' & Hn' & Hfresh).
    assert (n' = n) by congruence. subst n'.
    apply (append_kept posts payload n sv); auto.
    eapply collides_new; eassumption.
Qed.

(** [handle_post_save] keeps a document of distinct ids and distinct slugs
    such, whatever the form and however the call ends. *)
Lemma handle_post_save_kept (req : Request) (existing : option dict)
    (w w' : World) (r : result Response) :
  kept w ->
  (forall e, given existing = Some e -> int_id e) ->
  handle_post_save req existing w = (r, w') ->
  kept w'.
Proof.
  intros Hk Hex Hrun.
  pose proof Hk as (ps & Hst & Hids & Hslugs).
  destruct (stores_file w ps Hst) as [c Hc].
  pose proof (proj1 (ensure_data_file_world w) c Hc) as Hw1.
  destruct (handle_post_save_ends req existing w)
    as [(e & w2 & He & Hp)|[[_ Hf]|[(_ & _ & Hf)|[(posts & sv & _ & _ & _ & _ & _ & Hf)
       |(posts & data & sv & Hp & Hd & Hne & _ & _ & _ & Hcol & Hv)]]]];
    rewrite Hw1 in *;
    try (rewrite Hrun in *; injection Hf as _ ->; exact Hk).
  - rewrite Hrun in He. injection He as _ ->.
    eapply kept_data_path; eassumption.
  - destruct (loads_stored w w ps posts Hst Hp) as (_ & Hdated & Hsorted).
    assert (Hperm : Permutation ps posts)
      by (rewrite Hsorted; symmetry; apply sorted_reverse_perm).
    rewrite Hv in Hrun.
    destruct (save_valid_post_run req existing posts data sv w Hne
                (ex_intro _ c Hc))
      as [(e & w2 & He & Hpath & _)
         |(id & d & m & ex & w2 & Hok & Hpath & Hid & _)];
      rewrite Hrun in *.
    + injection He as _ ->. eapply kept_data_path; eassumption.
    + injection Hok as _ ->.
      eexists. split; [eapply stores_saved; eassumption|].
      apply (with_post_kept existing posts _ id sv); auto.
      * eapply unique_ids_perm; eassumption.
      * eapply unique_slugs_perm; eassumption.
Qed.

(** A slug that a stored post of another id owns is refused, and nothing
    is written, on stored posts that [load_posts] can sort. *)
Lemma owned_slug_refused (req : Request) (existing : option dict)
    (w : World) (ps : list dict) (sv : str) (p : dict) :
  stores w ps -> Forall dated ps -> comparable (times ps) = true ->
  title req <> [] -> slug_value req existing = Ok sv -> sv <> [] ->
  In p ps -> get (py "slug") p = JStr sv ->
  (forall e, given existing = Some e ->
             py_eqb (get (py "id") p) (get (py "id") e) = false) ->
  handle_post_save req existing w
  = (Ok {| flashed := (py "Slug already exists", py "error");
           location := back req |}, w).
Proof.
  intros Hst Hdated Hcmp Ht Hs Hsv Hp Hslug Hother.
  pose proof (load_posts_comparable w ps Hst Hdated Hcmp) as Hposts.
  destruct (load_data_stores w ps Hst) as (raw & Hraw & _).
  eapply path_collision; try eassumption.
  apply existsb_exists. exists p. split.
  - eapply Permutation_in; [symmetry; apply sorted_reverse_perm | exact Hp].
  - unfold collides. rewrite Hslug; simpl. rewrite str_eqb_refl; simpl.
    destruct (given existing) as [e|]; [|reflexivity].
    rewrite (Hother e eq_refl); reflexivity.
Qed.

(** ** Saving, then finding by slug *)

Lemma existsb_perm {A} (f : A -> bool) (l1 l2 : list A) :
  Permutation l1 l2 -> existsb f l1 = existsb f l2.
Proof.
  intros Hp. destruct (existsb f l2) eqn:E.
  - apply existsb_exists in E as (x & Hx & Hf). apply existsb_exists.
    exists x; split; auto. eapply Permutation_in; [symmetry|]; eassumption.
  - destruct (existsb f l1) eqn:E1; auto.
    apply existsb_exists in E1 as (x & Hx & Hf).
    assert (existsb f l2 = true); [|congruence].
    apply existsb_exists. exists x; split; auto.
    eapply Permutation_in; eassumption.
Qed.

(** [find] returns the one item that passes the test, wherever it is. *)
Lemma find_only {A} (f : A -> bool) (l : list A) (x : A) :
  In x l -> f x = true -> (forall y, In y l -> f y = true -> y = x) ->
  find f l = Some x.
Proof.
  induction l as [|y l IH]; simpl; [contradiction|].
  intros Hx Hfx Honly. destruct (f y) eqn:Ey.
  - f_equal. apply Honly; auto.
  - destruct Hx as [->|Hx]; [congruence|]. apply IH; auto.
Qed.

Lemma others_differ (l1 l2 : list dict) (p0 : dict) (i : Z) :
  unique_ids (l1 ++ p0 :: l2) ->
  get (py "id") p0 = JInt i ->
  (forall p, In p l1 -> py_eqb (get (py "id") p) (JInt i) = false) ->
  forall p, In p (l1 ++ l2) -> py_eqb (get (py "id") p) (JInt i) = false.
Proof.
  intros [Hint Hnd] Hid0 Hl1 p Hp.
  apply in_app_or in Hp as [Hp|Hp]; [auto|].
  rewrite map_app in Hnd; simpl in Hnd. apply NoDup_remove_2 in Hnd.
  assert (Hj : int_id p).
  { rewrite Forall_forall in Hint. apply Hint.
    apply in_or_app; right; right; exact Hp. }
  destruct Hj as [j Hj]. rewrite (py_eqb_int_id p i j Hj).
  apply Z.eqb_neq. intros ->. apply Hnd.
  apply in_or_app; right. rewrite Hid0, <- Hj. apply in_map; exact Hp.
Qed.

(** Among the posts handed to [save_posts], the payload is there and is
    the only one with its slug. *)
Lemma with_post_only (existing : option dict) (posts : list dict)
    (payload : dict) (sv : str) :
  unique_ids posts ->
  (forall e, given existing = Some e -> In e posts) ->
  existsb (collides sv existing) posts = false ->
  get (py "slug") payload = JStr sv ->
  In payload (with_post existing payload posts)
  /\ forall q, In q (with_post existing payload posts) ->
               get (py "slug") q = JStr sv -> q = payload.
Proof.
  intros Hids Hex Hcol Hslug. unfold with_post.
  destruct (given existing) as [e|] eqn:Eg.
  - specialize (Hex e eq_refl).
    assert (He : int_id e)
      by (destruct Hids as [Hint _]; rewrite Forall_forall in Hint; auto).
    destruct He as [i Hi]. rewrite Hi.
    destruct (replace_by_id_split (JInt i) payload posts)
      as [[_ Hno]|(l1 & p0 & l2 & -> & Hp0 & Hl1 & ->)].
    + specialize (Hno e Hex). rewrite Hi in Hno; simpl in Hno.
      rewrite Z.eqb_refl in Hno. discriminate.
    + assert (Hid0 : get (py "id") p0 = JInt i).
      { destruct Hids as [Hint _]. apply Forall_app in Hint as [_ Hint].
        inversion Hint as [|? ? [j Hj] _].
        rewrite (py_eqb_int_id p0 i j Hj) in Hp0. apply Z.eqb_eq in Hp0.
        congruence. }
      pose proof (others_differ l1 l2 p0 i Hids Hid0 Hl1) as Hother.
      split; [apply in_or_app; right; left; reflexivity|].
      intros q Hq Hqs.
      apply in_app_or in Hq as [Hq|[Hq|Hq]]; auto; exfalso.
      * apply (collides_edit sv existing e i _ q Eg Hi Hcol);
          [apply in_or_app; left; exact Hq
          |apply Hother; apply in_or_app; left; exact Hq
          |exact Hqs].
      * apply (collides_edit sv existing e i _ q Eg Hi Hcol);
          [apply in_or_app; right; right; exact Hq
          |apply Hother; apply in_or_app; right; exact Hq
          |exact Hqs].
  - split; [apply in_or_app; right; left; reflexivity|].
    intros q Hq Hqs. apply in_app_or in Hq as [Hq|[Hq|[]]]; auto.
    exfalso. apply (collides_new sv existing posts Eg Hcol).
    apply in_slugs. exists q; auto.
Qed.

Lemma with_post_in (existing : option dict) (payload : dict)
    (posts : list dict) (q : dict) :
  In q (with_post existing payload posts) -> q = payload \/ In q posts.
Proof.
  unfold with_post. destruct (given existing) as [e|].
  - destruct (replace_by_id_split (get (py "id") e) payload posts)
      as [[-> _]|(l1 & p0 & l2 & -> & _ & _ & ->)]; auto.
    intros Hq. apply in_app_or in Hq as [Hq|[Hq|Hq]]; auto.
    + right. apply in_or_app; auto.
    + right. apply in_or_app; right; right; exact Hq.
  - intros Hq. apply in_app_or in Hq as [Hq|[Hq|[]]]; auto.
Qed.

Lemma with_post_forall (P : dict -> Prop) (existing : option dict)
    (posts : list dict) (payload : dict) :
  Forall P posts -> P payload -> Forall P (with_post existing payload posts).
Proof.
  intros Hposts Hp. unfold with_post. destruct (given existing) as [e|].
  - destruct (replace_by_id_split (get (py "id") e) payload posts)
      as [[-> _]|(l1 & p0 & l2 & -> & _ & _ & ->)]; auto.
    apply Forall_app in Hposts as [H1 H2]. inversion H2; subst.
    apply Forall_app; split; auto.
  - apply Forall_app; split; auto.
Qed.

(** C2. On a stored document whose posts have dates that parse to times
    [load_posts] can sort, and distinct integer ids, a form with a title
    and a slug that no other post owns is saved: the payload is stored,
    and is the only stored post with the resolved slug.  Its fields are
    the resolved values: the id (that of the edited post, else the next
    free one), the slug, the trimmed title, the date (the form's when it
    is there and parses, else a reading of the clock), the status, the
    tags and categories of the comma lists, the body, the excerpt (the
    form's, else the one built from the body) and the author.
    [get_post_by_slug] on the resolved slug then returns the payload when
    the times of the stored posts are of the kind of its own time, and
    raises [TypeError] when a stored post has a time of the other kind
    (a date with a UTC offset among dates without, or the reverse). *)
Theorem save_then_find (req : Request) (existing : option dict)
    (w : World) (ps : list dict) (sv : str) :
  stores w ps -> Forall dated ps -> comparable (times ps) = true ->
  unique_ids ps ->
  (forall e, given existing = Some e ->
     In e ps /\ exists h, get_default (py "content_html") (JStr []) e = JStr h) ->
  title req <> [] ->
  slug_value req existing = Ok sv -> sv <> [] ->
  existsb (collides sv existing) ps = false ->
  exists id d m ex resp w' new,
    let payload :=
      post_dict id sv (title req) d m (status req) (tags req)
        (categories req) (md_body req) (html_body req existing) ex
        match given existing with
        | Some e => get (py "author") e
        | None => JStr ADMIN_USER
        end in
    handle_post_save req existing w = (Ok resp, w')
    /\ snd (flashed resp) = py "success"
    /\ stores w' new
    /\ In payload new
    /\ (forall q, In q new -> q = payload \/ In q ps)
    /\ (forall q, In q new -> get (py "slug") q = JStr sv -> q = payload)
    /\ timestamp payload = reading (JStr d)
    /\ ((forall q, In q new -> aware (timestamp q) = aware (timestamp payload)) ->
        get_post_by_slug sv w' = (Ok (Some payload), w'))
    /\ (forall q, In q new -> aware (timestamp q) <> aware (timestamp payload) ->
        get_post_by_slug sv w' = (Raise TypeError, w'))
    /\ match given existing with
       | Some e => id = get (py "id") e
       | None => exists n, next_id (sorted_reverse earlier timestamp ps) = Ok n
                           /\ id = JInt n
       end
    /\ ((date_input req <> []
         /\ (exists t, parse_date (JStr (date_input req)) = Ok t
                       /\ t <> datetime_min)
         /\ d = date_input req)
        \/ ((date_input req = []
             \/ parse_date (JStr (date_input req)) = Ok datetime_min)
            /\ exists n, ticks w <= n < ticks w' /\ d = now_iso n))
    /\ match excerpt_input req with
       | [] => if truthy (html_body req existing)
               then build_excerpt (html_body req existing) = Ok ex
               else ex = []
       | _ :: _ => ex = excerpt_input req
       end.
Proof.
  intros Hst Hdated Hcmp Hids Hex Ht Hs Hsv Hcol.
  set (posts := sorted_reverse earlier timestamp ps).
  assert (Hperm : Permutation ps posts)
    by (symmetry; apply sorted_reverse_perm).
  pose proof (load_posts_comparable w ps Hst Hdated Hcmp) as Hposts.
  destruct (load_data_stores w ps Hst) as (data & Hdata & Hne & _).
  destruct (stores_file w ps Hst) as [c Hc].
  assert (Hcol' : existsb (collides sv existing) posts = false)
    by (rewrite <- (existsb_perm _ ps posts Hperm); exact Hcol).
  pose proof (unique_ids_perm ps posts Hperm Hids) as Hids'.
  rewrite (path_valid req existing w w posts data Hposts Hdata sv Ht Hs Hsv Hcol').
  destruct (save_valid_post_run req existing posts data sv w Hne
              (ex_intro _ c Hc))
    as [(e & w2 & _ & _ & [(_ & Htr & Hb)|(Hg & Hn)])
       |(id & d & m & ex & w2 & Hok & Hpath & Hid & Hd & _ & _ & Hexc)].
  - (* the excerpt cannot fail: the body is a string *)
    exfalso.
    assert (Hhtml : exists h, html_body req existing = JStr h).
    { unfold html_body. destruct (md_body req); [|eauto].
      destruct (strip (field "content_html" req)); [|eauto].
      destruct (given existing) as [e0|] eqn:Eg; [|eauto].
      apply (Hex e0 eq_refl). }
    destruct Hhtml as [h Hh]. rewrite Hh in *.
    unfold build_excerpt in Hb. destruct h; discriminate.
  - (* nor the next id: the ids are integers *)
    exfalso. destruct (next_id_fresh posts (proj1 Hids')) as (n & Hn' & _).
    congruence.
  - set (payload := post_dict id sv (title req) d m (status req) (tags req)
                      (categories req) (md_body req) (html_body req existing)
                      ex _) in *.
    exists id, d, m, ex. do 2 eexists.
    exists (with_post existing payload posts). cbv zeta. fold payload.
    split; [exact Hok|].
    split; [destruct (given existing); reflexivity|].
    assert (Hst2 : stores w2 (with_post existing payload posts))
      by (eapply stores_saved; eassumption).
    assert (Hpd : dated payload) by apply parse_date_str.
    assert (Hdated2 : Forall dated (with_post existing payload posts)).
    { apply with_post_forall.
      - eapply Permutation_Forall; eassumption.
      - exact Hpd. }
    destruct (with_post_only existing posts payload sv Hids') as [Hin Honly];
      auto.
    { intros e0 Hg. eapply Permutation_in; [exact Hperm|].
      apply (Hex e0 Hg). }
    split; [exact Hst2|]. split; [exact Hin|].
    split.
    { intros q Hq. destruct (with_post_in existing payload posts q Hq)
        as [->|Hq']; [left; reflexivity|right].
      eapply Permutation_in; [symmetry; exact Hperm | exact Hq']. }
    split; [exact Honly|].
    split; [apply (timestamp_reading payload Hpd)|].
    split; [|split; [|split; [exact Hid | split; [exact Hd | exact Hexc]]]].
    + intros Hkind.
      assert (Hcmp2 : comparable (times (with_post existing payload posts)) = true).
      { apply comparable_alike. intros a b Ha Hb. unfold times in Ha, Hb.
        apply in_map_iff in Ha as (qa & <- & Ha).
        apply in_map_iff in Hb as (qb & <- & Hb).
        rewrite (Hkind qa Ha), (Hkind qb Hb). reflexivity. }
      unfold get_post_by_slug, bind.
      rewrite (load_posts_comparable w2 _ Hst2 Hdated2 Hcmp2).
      unfold ret. do 2 f_equal.
      pose proof (sorted_reverse_perm earlier timestamp
                    (with_post existing payload posts)) as Hperm2.
      apply find_only.
      * eapply Permutation_in; [symmetry; exact Hperm2 | exact Hin].
      * simpl. apply str_eqb_refl.
      * intros q Hq Hqs. apply Honly.
        -- eapply Permutation_in; [exact Hperm2 | exact Hq].
        -- apply py_eqb_str; exact Hqs.
    + intros q Hq Hkind.
      assert (Hcmp2 : comparable (times (with_post existing payload posts)) = false).
      { destruct (comparable (times (with_post existing payload posts))) eqn:E;
          [|reflexivity].
        exfalso. apply Hkind.
        apply (proj1 (comparable_alike _) E); unfold times; apply in_map;
          assumption. }
      unfold get_post_by_slug, bind.
      rewrite (load_posts_stores w2 _ Hst2 Hdated2), Hcmp2. reflexivity.
Qed.

End WithLib.

End RepositoryFacts.

(* ================================================================== *)
(** * The importer: [parse_posts], [main] *)
(* ================================================================== *)

Module ImportFacts.
Import App ImportWp RepositoryFacts SortFacts.

Section WithLib.
Context `{Lib}.

(** The loop over the categories, from any pair of lists built so far. *)
Lemma classify_from (cats : list element) (tags categories : list str) :
  fold_left
    (fun (acc : list str * list str) (cat : element) =>
       let (tags, categories) := acc in
       let domain := get_default (py "domain") [] (attrib_of cat) in
       let label := strip (match text_of cat with Some t => t | None => [] end) in
       match label with
       | [] => acc
       | _ :: _ =>
           if str_eqb domain (py "post_tag") then (tags ++ [label], categories)
           else if str_eqb domain (py "category") then (tags, categories ++ [label])
           else acc
       end)
    cats (tags, categories)
  = (tags ++ labels "post_tag" cats, categories ++ labels "category" cats).
Proof.
  revert tags categories.
  induction cats as [|cat cats IH]; intros tags categories.
  - simpl. rewrite !app_nil_r. reflexivity.
  - cbn [fold_left]. unfold labels. cbn [filter]. fold (label cat).
    destruct (label cat) as [|c l] eqn:El.
    + cbn [andb]. apply IH.
    + cbn [andb].
      destruct (str_eqb (get_default (py "domain") [] (attrib_of cat))
                        (py "post_tag")) eqn:Etag.
      * apply str_eqb_eq in Etag. rewrite Etag.
        change (str_eqb (py "post_tag") (py "category")) with false.
        rewrite IH. cbn [map]. rewrite El, <- app_assoc. reflexivity.
      * destruct (str_eqb (get_default (py "domain") [] (attrib_of cat))
                          (py "category")) eqn:Ecat.
        -- rewrite IH. cbn [map]. rewrite El, <- app_assoc. reflexivity.
        -- apply IH.
Qed.

Lemma classify_labels (cats : list element) :
  classify cats = (labels "post_tag" cats, labels "category" cats).
Proof. unfold classify. rewrite classify_from. reflexivity. Qed.

Lemma to_iso_run (date_str : str) (w : World) :
  exists d w', to_iso date_str w = (Ok d, w') /\ data_path w' = data_path w.
Proof.
  unfold to_iso.
  destruct (strptime date_str _); [eexists _, _; split; reflexivity|].
  destruct (strptime date_str _); [eexists _, _; split; reflexivity|].
  destruct (fromisoformat date_str); eexists _, _; split; reflexivity.
Qed.

Lemma post_of_item_run (item : element) (w : World) :
  id_reads item ->
  exists post w',
    post_of_item item w = (Ok post, w')
    /\ data_path w' = data_path w
    /\ imports item post.
Proof.
  intros Hid. unfold post_of_item, id_reads in *.
  assert (Hpid : exists n,
             match findtext (py "wp:post_id") (py "0") item with
             | [] => Ok 0%Z
             | (_ :: _) as s =>
                 match int_of_str s with
                 | Some n => Ok n
                 | None => Raise ValueError
                 end
             end = Ok n).
  { destruct (findtext (py "wp:post_id") (py "0") item); [eauto|].
    destruct Hid as [n ->]. eauto. }
  destruct Hpid as [n Hn]. unfold bind at 1, lift. rewrite Hn.
  assert (Hdate : exists d w',
             match findtext (py "wp:post_date") [] item with
             | [] => t <- utcnow ;; ret (isoformat t)
             | _ :: _ => to_iso (findtext (py "wp:post_date") [] item)
             end w = (Ok d, w') /\ data_path w' = data_path w).
  { destruct (findtext (py "wp:post_date") [] item) eqn:Ed.
    - eexists _, _; split; reflexivity.
    - apply to_iso_run. }
  destruct Hdate as (d & w' & Hd & Hpath).
  unfold bind at 1. rewrite Hd. rewrite classify_labels.
  eexists _, w'. split; [reflexivity|]. split; [exact Hpath|].
  repeat split; reflexivity.
Qed.

Lemma posts_of_items_run (items : list element) (w : World) :
  Forall id_reads (filter (is_type "post") items) ->
  exists built w',
    posts_of_items items w = (Ok built, w')
    /\ data_path w' = data_path w
    /\ Forall2 imports (filter (is_type "post") items) built.
Proof.
  revert w. induction items as [|item items IH]; intros w Hids.
  - exists [], w. repeat split; constructor.
  - cbn [posts_of_items filter] in *.
    destruct (is_type "post" item); cbn [negb].
    + inversion Hids as [|? ? Hid Hrest]; subst.
      destruct (post_of_item_run item w Hid) as (post & w1 & Hrun & Hp1 & Himp).
      destruct (IH w1 Hrest) as (built & w2 & Hrun2 & Hp2 & Hall).
      unfold bind. rewrite Hrun, Hrun2.
      exists (post :: built), w2. split; [reflexivity|].
      split; [congruence | constructor; assumption].
    + apply IH; exact Hids.
Qed.

Lemma pages_of_items_run (items : list element) (pages : dict) (w : World) :
  exists pages' w',
    pages_of_items items pages w = (Ok pages', w')
    /\ data_path w' = data_path w.
Proof.
  revert pages w. induction items as [|item items IH]; intros pages w.
  - exists pages, w. split; reflexivity.
  - cbn [pages_of_items]. destruct (is_type "page" item); cbn [negb]; [|apply IH].
    destruct (or_else (findtext (py "wp:post_name") [] item) []); [apply IH|].
    unfold bind at 1. rewrite utcnow_iso_run.
    match goal with
    | |- context [pages_of_items items ?p ?w0] =>
        destruct (IH p w0) as (pages' & w' & Hrun & Hpath)
    end.
    exists pages', w'. split; [exact Hrun | exact Hpath].
Qed.

(** C8. The loop of [parse_posts] over the [category] elements of an
    item sends the label of each element of domain [post_tag] to the tags
    and of each element of domain [category] to the categories, in
    document order; an element whose trimmed text is empty, or whose
    domain is another one, adds to neither list.  When the export has a
    channel and the ids of its post items read as numbers, [parse_posts]
    returns, sorted, one post per item of type [post], whose tags and
    categories are those two lists. *)
Theorem parse_posts_classifies :
  (forall cats,
     classify cats = (labels "post_tag" cats, labels "category" cats))
  /\ (forall root channel w,
        find_child (py "channel") root = Some channel ->
        Forall id_reads
          (filter (is_type "post") (findall (py "item") channel)) ->
        exists built w',
          parse_posts root w = (Ok (sorted_reverse str_ltb date_of built), w')
          /\ Permutation (sorted_reverse str_ltb date_of built) built
          /\ Forall2
               (fun item post =>
                  get (py "tags") post
                  = JList (map JStr
                      (labels "post_tag" (findall (py "category") item)))
                  /\ get (py "categories") post
                     = JList (map JStr
                         (labels "category" (findall (py "category") item))))
               (filter (is_type "post") (findall (py "item") channel))
               built).
Proof.
  split; [exact classify_labels|].
  intros root channel w Hch Hids.
  destruct (posts_of_items_run _ w Hids) as (built & w' & Hrun & _ & Hall).
  exists built, w'. split; [|split].
  - unfold parse_posts. rewrite Hch. unfold bind. rewrite Hrun. reflexivity.
  - apply sorted_reverse_perm.
  - eapply Forall2_impl; [|exact Hall].
    intros item post (Ht & Hc & _). split; assumption.
Qed.

(** What [main] writes: a document whose posts carry the slugs of the
    post items of the export, as the export gives them. *)
Lemma main_stores (root channel : element) (w : World) :
  find_child (py "channel") root = Some channel ->
  Forall id_reads (filter (is_type "post") (findall (py "item") channel)) ->
  exists ps w',
    main root w = (Ok tt, w')
    /\ stores w' ps
    /\ Permutation (slugs ps)
         (map slug_val (filter (is_type "post") (findall (py "item") channel))).
Proof.
  intros Hch Hids.
  destruct (posts_of_items_run _ w Hids) as (built & w1 & Hrun & Hp1 & Hall).
  destruct (pages_of_items_run (findall (py "item") channel) [] w1)
    as (pages & w2 & Hrun2 & Hp2).
  exists (sorted_reverse str_ltb date_of built).
  eexists. split; [|split].
  - unfold main, parse_posts, parse_pages. rewrite Hch.
    unfold bind at 1. unfold bind at 1. rewrite Hrun.
    unfold ret at 1. unfold bind at 1. rewrite Hrun2.
    unfold bind, mkdir_parent, json_dump.
    destruct w2 as [[| |c] t]; reflexivity.
  - eexists. split; [|split].
    + destruct w2 as [[| |c] t]; reflexivity.
    + intros v Hv. vm_compute in Hv. injection Hv as <-. eauto.
    + reflexivity.
  - transitivity (slugs built).
    + unfold slugs. apply Permutation_flat_map, sorted_reverse_perm.
    + clear - Hall. induction Hall as [|item post items built (_ & _ & Hs) _ IH].
      * constructor.
      * cbn [map]. unfold slugs in *. cbn [flat_map]. rewrite Hs.
        simpl. constructor. exact IH.
Qed.

End WithLib.

End ImportFacts.

(* ================================================================== *)
(** * The slug invariant, across the repository and the importer *)
(* ================================================================== *)

Module InvariantFacts.
Import App ImportWp RepositoryFacts ImportFacts.

(** C1, as the code has it.  [handle_post_save] never saves under a
    resolved slug that a stored post of another id owns, and writes
    nothing then: it answers that the slug exists, or, when [load_posts]
    raises, lets that exception escape; it answers that the slug exists
    whenever the stored posts can be loaded, their dates being strings or
    missing and their times of one kind.  On a document whose posts have
    distinct integer ids and distinct slugs (as the default document,
    which has no post, is), every call of [handle_post_save] leaves such
    a document, however it ends.  The importer writes one post per post
    item of the export with the slug the export gives it ([wp:post_name],
    else the slugified title): its document has one post per slug exactly
    when those slugs are distinct. *)
Theorem slugs_stay_unique `{Lib} :
  (forall req existing w ps sv p,
     stores w ps ->
     title req <> [] -> slug_value req existing = Ok sv -> sv <> [] ->
     In p ps -> get (py "slug") p = JStr sv ->
     (forall e, given existing = Some e ->
                py_eqb (get (py "id") p) (get (py "id") e) = false) ->
     ((exists e, load_posts w = (Raise e, w)
                 /\ handle_post_save req existing w = (Raise e, w))
      \/ handle_post_save req existing w
         = (Ok {| flashed := (py "Slug already exists", py "error");
                  location := back req |}, w))
     /\ (Forall dated ps -> comparable (times ps) = true ->
         handle_post_save req existing w
         = (Ok {| flashed := (py "Slug already exists", py "error");
                  location := back req |}, w)))
  /\ (forall w, (forall c, data_path w <> File c) ->
        kept (exec ensure_data_file w))
  /\ (forall req existing w r w',
        kept w ->
        (forall e, given existing = Some e -> int_id e) ->
        handle_post_save req existing w = (r, w') ->
        kept w')
  /\ (forall root channel w,
        find_child (py "channel") root = Some channel ->
        Forall id_reads (filter (is_type "post") (findall (py "item") channel)) ->
        exists ps w',
          main root w = (Ok tt, w')
          /\ stores w' ps
          /\ Permutation (slugs ps)
               (map slug_val
                  (filter (is_type "post") (findall (py "item") channel)))
          /\ (unique_slugs ps
              <-> NoDup (map slug_val
                    (filter (is_type "post") (findall (py "item") channel))))).
Proof.
  split; [|split; [|split]].
  - intros req existing w ps sv p Hst Ht Hs Hsv Hp Hslug Hother.
    split; [|intros Hd Hc; apply (owned_slug_refused req existing w ps sv p);
              assumption].
    destruct (load_posts w) as [[posts|e] w1] eqn:E.
    + right.
      destruct (loads_stored w w1 ps posts Hst E) as (_ & Hd & _).
      pose proof (loads_comparable w w1 ps posts Hst E) as Hc.
      apply (owned_slug_refused req existing w ps sv p); assumption.
    + left. exists e.
      assert (w1 = w) as ->.
      { pose proof (load_posts_world w) as Hw. rewrite E in Hw. cbn [snd] in Hw.
        destruct (stores_file w ps Hst) as [c Hc].
        rewrite (proj1 (StorageFacts.ensure_data_file_world w) c Hc) in Hw.
        exact Hw. }
      split; [reflexivity|]. apply load_posts_raises. exact E.
  - intros w Habsent.
    rewrite (proj2 (StorageFacts.ensure_data_file_world w) Habsent).
    exists []. split; [|split].
    + eexists. split; [reflexivity|]. split; [|reflexivity].
      intros v Hv. vm_compute in Hv. injection Hv as <-. eauto.
    + split; constructor.
    + constructor.
  - intros req existing w r w'. apply handle_post_save_kept.
  - intros root channel w Hch Hids.
    destruct (main_stores root channel w Hch Hids) as (ps & w' & Hrun & Hst & Hp).
    exists ps, w'. repeat split; auto.
    + intros Hu. eapply Permutation_NoDup; [exact Hp | exact Hu].
    + intros Hu. eapply Permutation_NoDup; [symmetry; exact Hp | exact Hu].
Qed.

End InvariantFacts.

(* ================================================================== *)
(** * Runs on the sample data *)
(* ================================================================== *)

Module Runs.
Import App ImportWp Sample.
Import StorageFacts RepositoryFacts ImportFacts InvariantFacts.

Lemma blog_stores : stores blog [january; june; undated].
Proof.
  eexists. split; [reflexivity|]. split; [|reflexivity].
  intros v Hv. vm_compute in Hv. discriminate.
Qed.

Lemma blog_dated : Forall dated [january; june; undated].
Proof. repeat constructor; eexists; vm_compute; reflexivity. Qed.

Lemma blog_ids : unique_ids [january; june; undated].
Proof.
  split.
  - repeat constructor; eexists; reflexivity.
  - vm_compute. repeat constructor; simpl; intuition discriminate.
Qed.

Lemma blog_kept : kept blog.
Proof.
  exists [january; june; undated].
  split; [exact blog_stores|]. split; [exact blog_ids|].
  vm_compute. repeat constructor; simpl; intuition discriminate.
Qed.

Lemma shelf_stores (posts : list dict) : stores (shelf posts) posts.
Proof.
  eexists. split; [reflexivity|]. split; [|reflexivity].
  intros v Hv. vm_compute in Hv. discriminate.
Qed.

Lemma ledger_stores : stores ledger [january; numbered].
Proof. apply shelf_stores. Qed.

Lemma travels_stores : stores travels [january; abroad].
Proof. apply shelf_stores. Qed.

Lemma zeros_stores : stores zeros [first_zero; second_zero].
Proof. apply shelf_stores. Qed.

Lemma zeros_edited_stores : stores zeros_edited [b_saved; second_zero].
Proof.
  eexists. split; [reflexivity|]. split; [|reflexivity].
  intros v Hv. vm_compute in Hv. injection Hv as <-. eauto.
Qed.

(** The order of the specification's example: June, January, the post
    with no date. *)
Example load_posts_sample :
  load_posts blog = (Ok [june; january; undated], blog).
Proof. vm_compute; reflexivity. Qed.

Lemma load_posts_sorted_witness :
  (exists sorted,
     load_posts blog = (Ok sorted, blog)
     /\ Permutation sorted [january; june; undated]
     /\ descending (fun p => moment (timestamp p)) sorted)
  /\ timestamp january = naive (encode 2024 1 1 0 0 0 0 - encode 1 1 1 0 0 0 0)
  /\ timestamp undated = datetime_min.
Proof.
  destruct (load_posts_sorted blog [january; june; undated] blog_stores)
    as (_ & _ & Hsorted & _ & _ & _ & Hiso & _ & Hmissing).
  split; [|split].
  - destruct (Hsorted blog_dated eq_refl)
      as (sorted & Hrun & Hperm & Hdesc & _).
    exists sorted. repeat split; assumption.
  - apply (Hiso january (py "2024-01-01")); try reflexivity. discriminate.
  - apply Hmissing. reflexivity.
Defined.

Lemma save_then_find_witness :
  exists post resp w',
    handle_post_save hello None blog = (Ok resp, w')
    /\ get_post_by_slug (py "hello-world") w' = (Ok (Some post), w')
    /\ get (py "title") post = JStr (py "Hello, World")
    /\ get (py "id") post = JInt 4
    /\ get (py "date") post = JStr (py "2024-05-01T10:00:00")
    /\ get (py "tags") post = JList [JStr (py "a"); JStr (py "b"); JStr (py "c")].
Proof.
  destruct (save_then_find hello None blog [january; june; undated]
              (py "hello-world") blog_stores blog_dated eq_refl blog_ids)
    as (id & d & m & ex & resp & w' & new & Hrun & _ & _ & _ & Hfrom & _
        & Htime & Hfind & _ & Hid & Hd & _).
  - intros e He. discriminate He.
  - vm_compute. discriminate.
  - vm_compute. reflexivity.
  - discriminate.
  - vm_compute. reflexivity.
  - destruct Hd as [(_ & _ & ->)|([E|E] & _)];
      [|vm_compute in E; discriminate E..].
    eexists _, resp, w'. split; [exact Hrun|].
    split.
    { apply Hfind. intros q Hq. rewrite Htime.
      destruct (Hfrom q Hq) as [->|[<-|[<-|[<-|[]]]]];
        [rewrite Htime|..]; reflexivity. }
    split; [reflexivity|].
    simpl in Hid. destruct Hid as (n & Hn & ->).
    vm_compute in Hn. injection Hn as <-.
    repeat split; reflexivity.
Defined.

(** The saved post of the run above, field by field. *)
Example save_then_find_sample :
  match handle_post_save hello None blog with
  | (Ok _, w') =>
      match get_post_by_slug (py "hello-world") w' with
      | (Ok (Some post), _) =>
          map (fun k => get (py k) post)
              ["id"; "slug"; "title"; "date"; "status"; "content_html";
               "excerpt"; "author"]%string
      | _ => []
      end
  | _ => []
  end
  = [JInt 4; JStr (py "hello-world"); JStr (py "Hello, World");
     JStr (py "2024-05-01T10:00:00"); JStr (py "publish");
     JStr (py "<p>Hi <b>there</b></p>"); JStr (py "Hi there");
     JStr (py "admin@bareblog.com")].
Proof. vm_compute; reflexivity. Qed.

(** Editing [january]: the post keeps its id, slug and place among the
    posts (which are stored in the order [load_posts] gave), and takes the
    new title. *)
Example edit_sample :
  match handle_post_save retitled (Some january) blog with
  | (Ok resp, w') =>
      match load_posts w' with
      | (Ok posts, _) =>
          Some (flashed resp,
                map (fun p => (get (py "id") p, get (py "slug") p,
                               get (py "title") p)) posts)
      | _ => None
      end
  | _ => None
  end
  = Some ((py "Post updated", py "success"),
          [(JInt 2, JStr (py "second"), JStr (py "second"));
           (JInt 1, JStr (py "first"), JStr (py "First, again"));
           (JInt 3, JStr (py "third"), JStr (py "third"))]).
Proof. vm_compute; reflexivity. Qed.

Lemma validation_failure_writes_no_post_witness :
  handle_post_save untitled None blog
  = (Ok {| flashed := (py "Title is required", py "error");
           location := py "/admin/posts" |}, blog)
  /\ handle_post_save taken None blog
     = (Ok {| flashed := (py "Slug already exists", py "error");
              location := py "/admin/posts" |}, blog).
Proof.
  destruct validation_failure_writes_no_post as (Hsame & _ & _ & Hfile & _).
  rewrite <- (Hfile blog _ eq_refl).
  assert (Hposts : load_posts blog
                   = (Ok [june; january; undated], exec ensure_data_file blog))
    by (vm_compute; reflexivity).
  assert (Hdata : exists data,
             load_data (exec ensure_data_file blog)
             = (Ok data, exec ensure_data_file blog))
    by (eexists; vm_compute; reflexivity).
  destruct Hdata as [data Hdata].
  split.
  - apply (proj1 (Hsame untitled None blog _ data Hposts Hdata)).
    reflexivity.
  - apply (proj2 (Hsame taken None blog _ data Hposts Hdata) (py "first")).
    + vm_compute; discriminate.
    + vm_compute; reflexivity.
    + discriminate.
    + vm_compute; reflexivity.
Defined.

(** C3, as stated, fails on a backing file that does not exist yet: the
    request with no title is refused, and the loads that come before the
    check have created the file with the default document. *)
Lemma missing_title_creates_the_file :
  data_path fresh = EmptyDir
  /\ handle_post_save untitled None fresh
     = (Ok {| flashed := (py "Title is required", py "error");
              location := py "/admin/posts" |},
        mkWorld (File (Encoded (JObj default_document))) 0)
  /\ exec (handle_post_save untitled None) fresh <> fresh.
Proof.
  split; [reflexivity|]. split; [vm_compute; reflexivity|].
  vm_compute. discriminate.
Qed.

Lemma empty_slug_is_refused_witness :
  handle_post_save unsluggable None blog
  = (Ok {| flashed := (py "Slug could not be generated", py "error");
           location := py "/admin/posts" |}, blog).
Proof.
  assert (Hdata : exists data, load_data blog = (Ok data, blog))
    by (eexists; vm_compute; reflexivity).
  destruct Hdata as [data Hdata].
  refine (proj1 (empty_slug_is_refused unsluggable None blog
                   [june; january; undated] data _ Hdata _ _)).
  - vm_compute; reflexivity.
  - vm_compute; discriminate.
  - vm_compute; reflexivity.
Defined.

(** C10, as stated, fails on a backing file that does not exist yet: the
    title with nothing to make a slug of is refused, and the file has been
    created with the default document. *)
Lemma empty_slug_creates_the_file :
  data_path fresh = EmptyDir
  /\ handle_post_save unsluggable None fresh
     = (Ok {| flashed := (py "Slug could not be generated", py "error");
              location := py "/admin/posts" |},
        mkWorld (File (Encoded (JObj default_document))) 0)
  /\ exec (handle_post_save unsluggable None) fresh <> fresh.
Proof.
  split; [reflexivity|]. split; [vm_compute; reflexivity|].
  vm_compute. discriminate.
Qed.

Lemma export_channel :
  find_child (py "channel") export
  = Some (Element (py "channel") [] None
            [item "1" "one" "One" [category "post_tag" "  "];
             item "2" "two" "Two" [category "category" "Tech"]]).
Proof. reflexivity. Qed.

Lemma parse_posts_classifies_witness :
  exists posts w',
    parse_posts export fresh = (Ok posts, w')
    /\ List.length posts = 2.
Proof.
  destruct (proj2 parse_posts_classifies export _ fresh export_channel)
    as (built & w' & Hrun & Hperm & Hall).
  - repeat constructor; vm_compute; eauto.
  - exists (sorted_reverse str_ltb date_of built), w'. split; [exact Hrun|].
    rewrite (Permutation_length Hperm).
    apply Forall2_length in Hall. rewrite <- Hall. reflexivity.
Defined.

(** The import scenario of the specification: the first post has no tag
    and no category, the second is in the category Tech. *)
Example parse_posts_sample :
  match parse_posts export fresh with
  | (Ok posts, _) =>
      map (fun p => (get (py "slug") p, get (py "tags") p,
                     get (py "categories") p)) posts
  | _ => []
  end
  = [(JStr (py "one"), JList [], JList []);
     (JStr (py "two"), JList [], JList [JStr (py "Tech")])].
Proof. vm_compute; reflexivity. Qed.

Lemma slugs_stay_unique_witness :
  handle_post_save taken None blog
  = (Ok {| flashed := (py "Slug already exists", py "error");
           location := py "/admin/posts" |}, blog)
  /\ handle_post_save taken None ledger = (Raise TypeError, ledger)
  /\ kept (exec (handle_post_save hello None) blog)
  /\ exists ps w',
       main export fresh = (Ok tt, w') /\ stores w' ps /\ unique_slugs ps.
Proof.
  destruct slugs_stay_unique as (Hrefused & _ & Hkept & Himport).
  split; [|split; [|split]].
  - refine (proj2 (Hrefused taken None blog [january; june; undated]
                     (py "first") january blog_stores _ _ _ _ _ _)
                  blog_dated eq_refl).
    + vm_compute; discriminate.
    + vm_compute; reflexivity.
    + discriminate.
    + left; reflexivity.
    + reflexivity.
    + intros e He; discriminate He.
  - destruct (proj1 (Hrefused taken None ledger [january; numbered]
                       (py "first") january ledger_stores
                       ltac:(vm_compute; discriminate) eq_refl
                       ltac:(discriminate) (or_introl eq_refl) eq_refl
                       ltac:(intros e He; discriminate He)))
      as [(e & Hload & Hrun)|Hrun].
    + vm_compute in Hload. injection Hload as <-. exact Hrun.
    + vm_compute in Hrun. discriminate Hrun.
  - apply (Hkept hello None blog
             (fst (handle_post_save hello None blog)) _ blog_kept).
    + intros e He; discriminate He.
    + unfold exec. apply surjective_pairing.
  - destruct (Himport export _ fresh export_channel)
      as (ps & w' & Hrun & Hst & _ & Hunique).
    + repeat constructor; vm_compute; eauto.
    + exists ps, w'. split; [exact Hrun|]. split; [exact Hst|].
      apply Hunique. vm_compute.
      repeat constructor; simpl; intuition discriminate.
Defined.

(** C1, as stated, fails on the importer and on stored posts that share
    an id.  An export whose two posts have the same [wp:post_name] is
    imported as it is, and the document written has two posts with the
    slug [hello].  On a document with the posts [a] and [b], both of id 0,
    the edit of [b] under its own slug passes the check of the slug and
    replaces the first post of id 0, which is [a]: the document written
    has two posts with the slug [b]. *)
Lemma slug_stored_twice :
  (exists ps w',
     main twins fresh = (Ok tt, w')
     /\ stores w' ps
     /\ slugs ps = [py "hello"; py "hello"]
     /\ ~ unique_slugs ps)
  /\ (stores zeros [first_zero; second_zero]
      /\ unique_slugs [first_zero; second_zero]
      /\ exists w',
           handle_post_save b_again (Some second_zero) zeros
           = (Ok {| flashed := (py "Post updated", py "success");
                     location := py "/admin/posts" |}, w')
           /\ stores w' [b_saved; second_zero]
           /\ slugs [b_saved; second_zero] = [py "b"; py "b"]
           /\ ~ unique_slugs [b_saved; second_zero]).
Proof.
  split.
  - assert (Hch : find_child (py "channel") twins
                  = Some (Element (py "channel") [] None
                            [item "1" "hello" "Hello" [];
                             item "2" "hello" "Hello again" []]))
      by reflexivity.
    destruct (main_stores twins _ fresh Hch) as (ps & w' & Hrun & Hst & Hperm).
    { repeat constructor; vm_compute; eauto. }
    assert (Hslugs : slugs ps = [py "hello"; py "hello"]).
    { change (Permutation (slugs ps) [py "hello"; py "hello"]) in Hperm.
      symmetry in Hperm.
      destruct (Permutation_length_2_inv Hperm) as [->| ->]; reflexivity. }
    exists ps, w'. split; [exact Hrun|]. split; [exact Hst|].
    split; [exact Hslugs|].
    unfold unique_slugs. rewrite Hslugs. intros Hnd.
    inversion Hnd as [|? ? Hin _]. apply Hin. left; reflexivity.
  - split; [exact zeros_stores|].
    split; [vm_compute; repeat constructor; simpl; intuition discriminate|].
    exists zeros_edited.
    split; [vm_compute; reflexivity|].
    split; [exact zeros_edited_stores|].
    split; [reflexivity|].
    unfold unique_slugs. intros Hnd. vm_compute in Hnd.
    inversion Hnd as [|? ? Hin _]. apply Hin. left; reflexivity.
Qed.

(** C2, as stated, fails on a date with a UTC offset and on stored posts
    that share an id.  The form [hello_abroad] is valid and is saved on
    the sample blog with its date, whose time cannot be ordered with the
    times of the other posts: [get_post_by_slug] on its slug then raises
    [TypeError], as every later load of the posts does.  On the document
    with the posts [a] and [b] of id 0, the edit of [b] is saved over [a],
    and [get_post_by_slug] on the slug [b] returns the post [b] as it was
    before, with its old title and date.  And nothing is saved when the
    stored posts cannot be loaded (a date that is a number, dates of both
    kinds) or when the next id cannot be computed (an id that is a
    string): the valid form [hello] then ends in [TypeError]. *)
Lemma saved_post_not_found :
  (exists resp w',
     handle_post_save hello_abroad None blog = (Ok resp, w')
     /\ flashed resp = (py "Post created", py "success")
     /\ get_post_by_slug (py "hello-world") w' = (Raise TypeError, w')
     /\ load_posts w' = (Raise TypeError, w'))
  /\ (handle_post_save b_again (Some second_zero) zeros
      = (Ok {| flashed := (py "Post updated", py "success");
                location := py "/admin/posts" |}, zeros_edited)
      /\ get_post_by_slug (py "b") zeros_edited
         = (Ok (Some second_zero), zeros_edited)
      /\ get (py "title") second_zero = JStr (py "b")
      /\ title b_again = py "B again")
  /\ handle_post_save hello None ledger = (Raise TypeError, ledger)
  /\ handle_post_save hello None travels = (Raise TypeError, travels)
  /\ handle_post_save hello None alphabet = (Raise TypeError, alphabet).
Proof.
  split; [|split].
  - do 2 eexists. split; [vm_compute; reflexivity|].
    split; [reflexivity|]. split; vm_compute; reflexivity.
  - repeat split; vm_compute; reflexivity.
  - repeat split; vm_compute; reflexivity.
Qed.

(** C4, as stated, fails on stored lists that [load_posts] cannot sort: a
    post whose date is a number makes [parse_date] raise [TypeError], and
    so do two posts of which one has a date with a UTC offset and the
    other a date without, whose times Python does not compare. *)
Lemma load_posts_raises_on_dates :
  stores ledger [january; numbered]
  /\ load_posts ledger = (Raise TypeError, ledger)
  /\ stores travels [january; abroad]
  /\ Forall dated [january; abroad]
  /\ load_posts travels = (Raise TypeError, travels).
Proof.
  split; [exact ledger_stores|]. split; [vm_compute; reflexivity|].
  split; [exact travels_stores|].
  split; [repeat constructor; eexists; vm_compute; reflexivity|].
  vm_compute; reflexivity.
Qed.

(** C7, as stated, fails on a JSON object whose settings are not an
    object: on the document whose settings are null, which misses the
    keys posts and pages and the two keys inside settings, [load_data]
    raises [AttributeError] and returns no document. *)
Lemma load_data_null_settings :
  data_path unset = File (Encoded (JObj [(py "settings", JNull)]))
  /\ lookup (py "posts") [(py "settings", JNull)] = None
  /\ load_data unset = (Raise AttributeError, unset).
Proof. repeat split; vm_compute; reflexivity. Qed.

End Runs.

(* ================================================================== *)
(** * The document: what is loaded is what was saved *)
(* ================================================================== *)

Module DocumentFacts.
Import App Site PyFacts StorageFacts.

Lemma set_same (k : str) (v : json) (d : dict) :
  lookup k d = Some v -> set k v d = d.
Proof.
  induction d as [|[k' v'] d IH]; simpl; [discriminate|].
  destruct (str_eqb k k'); [intros [= ->]; reflexivity|].
  intros E. rewrite IH; auto.
Qed.

Lemma setdefault_present (k : str) (v v' : json) (d : dict) :
  lookup k d = Some v' -> setdefault k v d = (v', d).
Proof. unfold setdefault. intros ->. reflexivity. Qed.

Lemma load_data_reads (w : World) :
  load_data w
  = let w1 := exec ensure_data_file w in
    match data_path w1 with
    | File (Encoded j) => (with_defaults j, w1)
    | File (Malformed _) => (Raise JSONDecodeError, w1)
    | _ => (Raise FileNotFoundError, w1)
    end.
Proof.
  destruct w as [[| |[j|t]] n]; unfold load_data, with_defaults; run;
    try reflexivity.
  destruct (setdefault (py "settings") _ _) as [[| | | | |s] raw]; reflexivity.
Qed.

Lemma with_defaults_complete (j : json) (d : dict) :
  with_defaults j = Ok d -> complete d.
Proof.
  unfold with_defaults.
  set (r0 := match j with JObj d0 => d0 | _ => [(py "posts", j)] end).
  set (r1 := snd (setdefault (py "posts") (JList []) r0)).
  set (r2 := snd (setdefault (py "pages") (JObj []) r1)).
  destruct (setdefault (py "settings") (JObj []) r2) as [st r3] eqn:E.
  destruct st as [| | | | |s]; try discriminate.
  intros [= <-].
  assert (E3 : r3 = snd (setdefault (py "settings") (JObj []) r2))
    by (rewrite E; reflexivity).
  assert (P1 : exists v, lookup (py "posts") r1 = Some v)
    by (eexists; apply setdefault_same).
  assert (P2 : exists v, lookup (py "pages") r2 = Some v)
    by (eexists; apply setdefault_same).
  destruct P1 as [v1 P1]. destruct P2 as [v2 P2].
  repeat split.
  - exists v1. rewrite lookup_set_other by reflexivity.
    rewrite E3. apply setdefault_keeps. unfold r2. apply setdefault_keeps.
    exact P1.
  - exists v2. rewrite lookup_set_other by reflexivity.
    rewrite E3. apply setdefault_keeps. exact P2.
  - eexists. split; [apply lookup_set_same|]. split.
    + eexists. apply setdefault_keeps. apply setdefault_same.
    + eexists. apply setdefault_same.
Qed.

Lemma complete_fixed (d : dict) : complete d -> with_defaults (JObj d) = Ok d.
Proof.
  intros [[v1 P1] [[v2 P2] [s [P3 [[l P4] [m P5]]]]]].
  unfold with_defaults.
  rewrite (setdefault_present _ _ _ _ P1). cbn [snd].
  rewrite (setdefault_present _ _ _ _ P2). cbn [snd].
  rewrite (setdefault_present _ _ _ _ P3).
  rewrite (setdefault_present _ _ _ _ P4). cbn [snd].
  rewrite (setdefault_present _ _ _ _ P5). cbn [snd].
  rewrite set_same; auto.
Qed.

Lemma load_data_complete (w w1 : World) (data : dict) :
  load_data w = (Ok data, w1) ->
  complete data /\ w1 = exec ensure_data_file w.
Proof.
  rewrite load_data_reads. cbv zeta.
  destruct (data_path (exec ensure_data_file w)) as [| |[j|t]]; try discriminate.
  intros [= E <-]. split; [eapply with_defaults_complete; eauto | reflexivity].
Qed.

Lemma load_data_file (w : World) (d : dict) :
  data_path w = File (Encoded (JObj d)) -> complete d ->
  load_data w = (Ok d, w).
Proof.
  intros P C. rewrite load_data_reads. cbv zeta.
  unfold exec. rewrite (ensure_data_file_present w _ P). cbn [snd].
  rewrite P. rewrite complete_fixed; auto.
Qed.

Lemma load_data_path (a b : World) :
  data_path a = data_path b -> fst (load_data a) = fst (load_data b).
Proof.
  destruct a as [pa na], b as [pb nb]. simpl. intros ->.
  rewrite !load_data_reads. cbv zeta.
  destruct pb as [| |[j|t]]; reflexivity.
Qed.

(** X1. Whatever [load_data] has returned, [save_data] writes and
    [load_data] reads back unchanged. *)
Theorem save_then_load_same (w w1 : World) (data : dict) :
  load_data w = (Ok data, w1) ->
  (save_data data ;; load_data) w1
  = (Ok data, mkWorld (File (Encoded (JObj data))) (ticks w1)).
Proof.
  intros L. destruct (load_data_complete _ _ _ L) as [C ->].
  destruct (ensure_data_file_total w) as [_ [c P]].
  unfold bind at 1.
  assert (S : save_data data (exec ensure_data_file w)
              = (Ok tt, mkWorld (File (Encoded (JObj data)))
                                (ticks (exec ensure_data_file w)))).
  { unfold save_data, bind, mkdir_parent, json_dump. rewrite P. simpl.
    rewrite P. reflexivity. }
  rewrite S. apply load_data_file; auto.
Qed.


Section WithLib.
Context `{Lib}.
Import RepositoryFacts.

Lemma complete_set_posts (v : json) (d : dict) :
  complete d -> complete (set (py "posts") v d).
Proof.
  intros [[v1 P1] [[v2 P2] [s [P3 Q]]]].
  split; [eexists; apply lookup_set_same|].
  split; [exists v2 | exists s; split; auto];
    rewrite lookup_set_other by reflexivity; assumption.
Qed.

Lemma same_reading (a b : World) :
  data_path a = data_path b ->
  match fst (load_data a), fst (load_data b) with
  | Ok d, Ok d' =>
      forall k, str_eqb k (py "posts") = false -> lookup k d' = lookup k d
  | Raise e, Raise e' => e = e'
  | _, _ => False
  end.
Proof.
  intros E. rewrite (load_data_path a b E).
  destruct (fst (load_data b)); auto.
Qed.

(** X7. [handle_post_save] changes nothing but the posts: whatever the
    request and however the call ends, [load_data] reads afterwards the
    pages, the settings and every other top-level key as it read them
    before, and fails afterwards as it failed before. *)
Theorem handle_post_save_keeps_the_rest (req : Request)
    (existing : option dict) (w : World) :
  match fst (load_data w),
        fst (load_data (exec (handle_post_save req existing) w)) with
  | Ok data, Ok data' =>
      forall k, str_eqb k (py "posts") = false ->
                lookup k data' = lookup k data
  | Raise e, Raise e' => e = e'
  | _, _ => False
  end.
Proof.
  rewrite <- (load_data_after_ensure w).
  remember (exec ensure_data_file w) as w1 eqn:Ew1.
  assert (Same : forall w2, data_path w2 = data_path w1 ->
            match fst (load_data w1), fst (load_data w2) with
            | Ok d, Ok d' =>
                forall k, str_eqb k (py "posts") = false ->
                          lookup k d' = lookup k d
            | Raise e, Raise e' => e = e'
            | _, _ => False
            end).
  { intros w2 E. apply same_reading. symmetry. exact E. }
  destruct (handle_post_save_ends req existing w)
    as [(e & w2 & R & P) | [[_ R] | [(_ & _ & R) | [(posts & sv & _ & _ & _ & _ & _ & R)
        | (posts & data & sv & LP & LD & Hne & _ & _ & _ & _ & R)]]]];
    cbv zeta in *; rewrite <- ?Ew1 in *; unfold exec;
    try (rewrite R; cbn [snd]; apply Same; auto; fail).
  rewrite R.
  destruct (ensure_data_file_total w) as [_ Hfile]. rewrite <- Ew1 in Hfile.
  destruct (save_valid_post_run req existing posts data sv w1 Hne Hfile)
    as [(e & w2 & R2 & P & _) | (id & d & m & ex & w2 & R2 & P & _)];
    rewrite R2; cbn [snd]; [apply Same; auto|].
  rewrite LD. cbn [fst].
  destruct (load_data_complete _ _ _ LD) as [C _].
  destruct w2 as [p2 n2]. simpl in P. subst p2.
  rewrite (load_data_file (mkWorld _ n2) _ eq_refl (complete_set_posts _ _ C)).
  cbn [fst].
  intros k Hk. apply lookup_set_other. exact Hk.
Qed.

End WithLib.

End DocumentFacts.

(* ================================================================== *)
(** * The posts: ids, lookups by slug, and what a save keeps *)
(* ================================================================== *)

Module PostFacts.
Import App Site PyFacts StorageFacts SortFacts RepositoryFacts.

Lemma mapM_as_int (posts : list dict) :
  (exists ns, mapM as_int (map (get_default (py "id") (JInt 0)) posts) = Ok ns
              /\ Forall2 (fun p n => as_int (get_default (py "id") (JInt 0) p) = Ok n)
                         posts ns)
  \/ (mapM as_int (map (get_default (py "id") (JInt 0)) posts) = Raise TypeError
      /\ exists p, In p posts
                   /\ as_int (get_default (py "id") (JInt 0) p) = Raise TypeError).
Proof.
  induction posts as [|p posts IH]; simpl.
  - left. exists []. split; [reflexivity | constructor].
  - destruct (as_int (get_default (py "id") (JInt 0) p)) as [n|e] eqn:E; simpl.
    + destruct IH as [(ns & -> & F) | (-> & q & Hq & Eq)]; simpl.
      * left. exists (n :: ns). split; [reflexivity | constructor; auto].
      * right. split; [reflexivity|]. exists q. split; auto.
    + assert (e = TypeError) as ->.
      { destruct (get_default (py "id") (JInt 0) p); simpl in E;
          congruence. }
      right. split; [reflexivity|]. exists p. split; auto.
Qed.

Lemma fold_max_in (a : Z) (ns : list Z) :
  In (fold_right Z.max a ns) (a :: ns).
Proof.
  induction ns as [|n ns IH]; simpl; [left; reflexivity|].
  destruct (Z.max_spec n (fold_right Z.max a ns)) as [[_ ->] | [_ ->]].
  - destruct IH as [IH | IH]; [left; exact IH | right; right; exact IH].
  - right; left; reflexivity.
Qed.

Lemma forall2_in_left {A B} (R : A -> B -> Prop) (l : list A) (l' : list B)
    (x : A) :
  Forall2 R l l' -> In x l -> exists y, In y l' /\ R x y.
Proof.
  induction 1 as [|a b l l' Hab F IH]; intros Hx; [destruct Hx|].
  destruct Hx as [-> | Hx].
  - exists b. split; [left; reflexivity | exact Hab].
  - destruct (IH Hx) as (y & Hy & Hr). exists y. split; [right|]; auto.
Qed.

Lemma forall2_in_right {A B} (R : A -> B -> Prop) (l : list A) (l' : list B)
    (y : B) :
  Forall2 R l l' -> In y l' -> exists x, In x l /\ R x y.
Proof.
  induction 1 as [|a b l l' Hab F IH]; intros Hy; [destruct Hy|].
  destruct Hy as [-> | Hy].
  - exists a. split; [left; reflexivity | exact Hab].
  - destruct (IH Hy) as (x & Hx & Hr). exists x. split; [right|]; auto.
Qed.

(** X4. [next_id] gives 1 for no posts; for posts whose ids are numbers (a
    post without an id counting as 0) it gives one more than the largest,
    so a number above every id; and it raises [TypeError] as soon as one
    id is not a number. *)
Theorem next_id_above :
  next_id [] = Ok 1%Z
  /\ (forall posts,
        Forall (fun p => exists i,
                  as_int (get_default (py "id") (JInt 0) p) = Ok i) posts ->
        exists n,
          next_id posts = Ok n
          /\ (forall p i, In p posts ->
                as_int (get_default (py "id") (JInt 0) p) = Ok i -> (i < n)%Z)
          /\ (posts <> [] ->
              exists p, In p posts
                /\ as_int (get_default (py "id") (JInt 0) p) = Ok (n - 1)%Z))
  /\ (forall posts p,
        In p posts ->
        as_int (get_default (py "id") (JInt 0) p) = Raise TypeError ->
        next_id posts = Raise TypeError).
Proof.
  split; [reflexivity|]. split.
  - intros posts Hall.
    destruct posts as [|p0 posts].
    { exists 1%Z. split; [reflexivity|].
      split; [intros p i Hp; destruct Hp | intros C; contradiction C; reflexivity]. }
    destruct (mapM_as_int (p0 :: posts)) as [(ns & E & F) | (_ & q & Hq & Eq)].
    + unfold next_id. cbn [map] in *. rewrite E. cbn [result_bind].
      eexists. split; [reflexivity|]. split.
      * intros p i Hp Hi.
        destruct (forall2_in_left _ _ _ p F Hp) as (y & Hy & Ey).
        assert (y = i) as -> by congruence.
        pose proof (fold_max_ge (hd 0%Z ns) ns i Hy). lia.
      * intros _. replace (fold_right Z.max (hd 0 ns) ns + 1 - 1)%Z
          with (fold_right Z.max (hd 0%Z ns) ns) by lia.
        assert (Hin : In (fold_right Z.max (hd 0%Z ns) ns) ns).
        { destruct (fold_max_in (hd 0%Z ns) ns) as [Hh | Hh]; [|exact Hh].
          rewrite <- Hh. inversion F; subst. left; reflexivity. }
        apply (forall2_in_right _ _ _ _ F Hin).
    + rewrite Forall_forall in Hall. destruct (Hall q Hq) as [i Hi].
      congruence.
  - intros posts p Hp Ep.
    destruct posts as [|p0 posts]; [contradiction|].
    destruct (mapM_as_int (p0 :: posts)) as [(ns & E & F) | (E & _)].
    + exfalso. destruct (forall2_in_left _ _ _ p F Hp) as (y & _ & Ey).
      congruence.
    + unfold next_id. cbn [map] in *. rewrite E. reflexivity.
Qed.

Section WithLib.
Context `{Lib}.

Lemma find_split {A} (f : A -> bool) (l : list A) (x : A) :
  find f l = Some x ->
  exists l1 l2, l = l1 ++ x :: l2 /\ f x = true
                /\ forall y, In y l1 -> f y = false.
Proof.
  induction l as [|a l IH]; simpl; [discriminate|].
  destruct (f a) eqn:E.
  - intros [= ->]. exists [], l. repeat split; auto. intros y [].
  - intros Hf. destruct (IH Hf) as (l1 & l2 & -> & Hx & Hl1).
    exists (a :: l1), l2. repeat split; auto.
    intros y [-> | Hy]; auto.
Qed.

(** What [get_post_by_slug] finds is stored under the slug asked for, and
    it finds nothing only when nothing is stored under it. *)
Lemma get_post_by_slug_stored (w : World) (ps : list dict) (slug : str) :
  stores w ps -> Forall dated ps -> comparable (times ps) = true ->
  exists found,
    get_post_by_slug slug w = (Ok found, w)
    /\ (found = None -> ~ In slug (slugs ps))
    /\ forall p, found = Some p -> In p ps /\ get (py "slug") p = JStr slug.
Proof.
  intros St Dt Cmp.
  pose proof (sorted_reverse_perm earlier timestamp ps) as Perm.
  exists (find (fun post => py_eqb (get (py "slug") post) (JStr slug))
               (sorted_reverse earlier timestamp ps)).
  split; [|split].
  - unfold get_post_by_slug, bind.
    rewrite (load_posts_comparable w ps St Dt Cmp). reflexivity.
  - intros Hnone Hin. apply in_slugs in Hin as (p & Hp & Es).
    assert (Hp' : In p (sorted_reverse earlier timestamp ps))
      by (eapply Permutation_in; [symmetry; exact Perm | exact Hp]).
    pose proof (find_none _ _ Hnone p Hp') as Hf. cbv beta in Hf.
    apply py_eqb_str in Es. congruence.
  - intros p E. apply find_some in E as [Hp Es].
    split; [eapply Permutation_in; eauto | apply py_eqb_str; exact Es].
Qed.

(** X3. On stored posts whose dates are strings or missing, the time of
    a post is what the formats read in its date.  When those times are
    not all of one kind (some carry a UTC offset, some do not),
    [get_post_by_slug] raises [TypeError].  Otherwise it finds a post
    exactly when some stored post has the slug, and among the stored posts
    with that slug it returns one of the latest time; the file is left as
    it is. *)
Theorem get_post_by_slug_latest (w : World) (ps : list dict) (slug : str) :
  stores w ps -> Forall dated ps ->
  (forall q, In q ps -> timestamp q = reading (get (py "date") q))
  /\ (comparable (times ps) = false ->
      get_post_by_slug slug w = (Raise TypeError, w))
  /\ (comparable (times ps) = true ->
      exists found,
        get_post_by_slug slug w = (Ok found, w)
        /\ (found = None <-> ~ In slug (slugs ps))
        /\ forall p, found = Some p ->
             In p ps
             /\ get (py "slug") p = JStr slug
             /\ forall q, In q ps -> get (py "slug") q = JStr slug ->
                          (moment (timestamp q) <= moment (timestamp p))%Z).
Proof.
  intros St Dt.
  split; [|split].
  { intros q Hq. apply timestamp_reading.
    rewrite Forall_forall in Dt. apply Dt. exact Hq. }
  { intros Cmp. unfold get_post_by_slug, bind.
    rewrite (load_posts_stores w ps St Dt), Cmp. reflexivity. }
  intros Cmp.
  pose proof (sorted_reverse_perm earlier timestamp ps) as Perm.
  exists (find (fun post => py_eqb (get (py "slug") post) (JStr slug))
               (sorted_reverse earlier timestamp ps)).
  split; [|split].
  - unfold get_post_by_slug, bind.
    rewrite (load_posts_comparable w ps St Dt Cmp). reflexivity.
  - split.
    + intros Hnone Hin. apply in_slugs in Hin as (p & Hp & Es).
      assert (Hp' : In p (sorted_reverse earlier timestamp ps))
        by (eapply Permutation_in; [symmetry; exact Perm | exact Hp]).
      pose proof (find_none _ _ Hnone p Hp') as Hf. cbv beta in Hf.
      apply py_eqb_str in Es. congruence.
    + intros Hno.
      destruct (find _ _) as [p|] eqn:E; [|reflexivity].
      exfalso. apply find_some in E as [Hp Es]. apply Hno. apply in_slugs.
      exists p. split; [eapply Permutation_in; eauto | apply py_eqb_str; auto].
  - intros p E. apply find_split in E as (l1 & l2 & Hs & Es & Hl1).
    assert (Hp : In p ps).
    { eapply Permutation_in; [exact Perm|]. rewrite Hs.
      apply in_or_app. right; left; reflexivity. }
    split; [exact Hp|]. split; [apply py_eqb_str; exact Es|].
    intros q Hq Eq.
    assert (Hq' : In q (l1 ++ p :: l2)).
    { rewrite <- Hs. eapply Permutation_in; [symmetry; exact Perm | exact Hq]. }
    apply in_app_or in Hq' as [Hq' | [<- | Hq']].
    + apply Hl1 in Hq'. apply py_eqb_str in Eq. congruence.
    + apply Z.le_refl.
    + apply (SortFacts.descending_after timestamp l1 l2 p); auto.
      rewrite <- Hs. apply SortFacts.sorted_reverse_sorted.
Qed.

(** X8. A save that reports success stores its payload and loses no other
    post: every post stored before whose id is not the payload's is still
    stored, and nothing is stored that is neither the payload nor a post
    stored before.  A new post makes the list one longer; an edit keeps
    its length, and when no stored post has the edited id the list is
    stored as it was, the payload not in it, under the message of a
    successful edit. *)
Theorem save_keeps_other_posts (req : Request) (existing : option dict)
    (w w' : World) (ps : list dict) (resp : Response) :
  stores w ps ->
  handle_post_save req existing w = (Ok resp, w') ->
  snd (flashed resp) = py "success" ->
  exists payload new,
    stores w' new
    /\ get (py "title") payload = JStr (title req)
    /\ (forall p, In p ps ->
          py_eqb (get (py "id") p) (get (py "id") payload) = false ->
          In p new)
    /\ (forall q, In q new -> q = payload \/ In q ps)
    /\ match given existing with
       | None => Permutation new (payload :: ps)
       | Some e =>
           get (py "id") payload = get (py "id") e
           /\ List.length new = List.length ps
           /\ ((exists p, In p ps
                  /\ py_eqb (get (py "id") p) (get (py "id") e) = true) ->
               In payload new)
           /\ ((forall p, In p ps ->
                  py_eqb (get (py "id") p) (get (py "id") e) = false) ->
               Permutation new ps)
       end.
Proof.
  intros St R Hs.
  pose proof (sorted_reverse_perm earlier timestamp ps) as Perm.
  destruct (handle_post_save_ends req existing w)
    as [(e & w2 & R' & _) | [[_ R'] | [(_ & _ & R') | [(posts & sv & _ & _ & _ & _ & _ & R')
        | (posts & data & sv & LP & LD & Hne & _ & _ & _ & _ & R')]]]];
    cbv zeta in *;
    try (rewrite R' in R; injection R as <- <-; simpl in Hs;
         exfalso; revert Hs; discriminate);
    try (rewrite R' in R; discriminate R).
  destruct (loads_stored w _ ps posts St LP) as (Ew & Dt & ->).
  rewrite Ew in *. rewrite R' in R.
  destruct (stores_file w ps St) as [c Hc].
  destruct (save_valid_post_run req existing
              (sorted_reverse earlier timestamp ps) data sv w Hne
              (ex_intro _ c Hc))
    as [(e & w2 & R2 & _) | (id & d & m & ex & w2 & R2 & P & Hid & _)];
    rewrite R2 in R; [discriminate R|].
  injection R as _ <-.
  set (payload := post_dict id sv (title req) d m (status req) (tags req)
                    (categories req) (md_body req) (html_body req existing) ex
                    match given existing with
                    | Some e => get (py "author") e
                    | None => JStr ADMIN_USER
                    end) in *.
  exists payload, (with_post existing payload (sorted_reverse earlier timestamp ps)).
  split; [eapply stores_saved; eauto|].
  destruct (get_post_dict id sv (title req) d m (status req) (tags req)
              (categories req) (md_body req) (html_body req existing) ex
              match given existing with
              | Some e => get (py "author") e
              | None => JStr ADMIN_USER
              end) as (Gid & _ & Gt & _).
  fold payload in Gid, Gt.
  split; [exact Gt|].
  unfold with_post. destruct (given existing) as [e|] eqn:G.
  - subst id.
    destruct (replace_by_id_split (get (py "id") e) payload
                (sorted_reverse earlier timestamp ps))
      as [[-> Hno] | (l1 & p0 & l2 & Hsplit & Hp0 & Hl1 & ->)].
    + split; [intros p Hp _; eapply Permutation_in; [symmetry|]; eauto|].
      split; [intros q Hq; right; eapply Permutation_in; eauto|].
      split; [exact Gid|].
      split; [apply Permutation_length; exact Perm|].
      split; [|intros _; exact Perm].
      intros (p & Hp & Ep). exfalso.
      rewrite (Hno p) in Ep; [discriminate|].
      eapply Permutation_in; [symmetry|]; eauto.
    + assert (Perm' : Permutation (l1 ++ p0 :: l2) ps)
        by (rewrite <- Hsplit; exact Perm).
      split.
      { intros p Hp Ep. rewrite Gid in Ep.
        assert (Hp' : In p (l1 ++ p0 :: l2))
          by (eapply Permutation_in; [symmetry|]; eauto).
        apply in_or_app. apply in_app_or in Hp' as [Hp' | [<- | Hp']];
          [left; auto | congruence | right; right; auto]. }
      split.
      { intros q Hq. apply in_app_or in Hq as [Hq | [<- | Hq]];
          [right | left; reflexivity | right];
          (eapply Permutation_in; [exact Perm'|]); apply in_or_app;
          [left | right; right]; auto. }
      split; [exact Gid|].
      split.
      { rewrite <- (Permutation_length Perm'). rewrite !length_app. reflexivity. }
      split; [intros _; apply in_or_app; right; left; reflexivity|].
      intros Hno. exfalso. rewrite (Hno p0) in Hp0; [discriminate|].
      eapply Permutation_in; [exact Perm'|]. apply in_or_app.
      right; left; reflexivity.
  - split; [intros p Hp _; apply in_or_app; left;
            eapply Permutation_in; [symmetry|]; eauto|].
    split.
    { intros q Hq. apply in_app_or in Hq as [Hq | [<- | []]];
        [right; eapply Permutation_in; eauto | left; reflexivity]. }
    rewrite Permutation_app_comm. simpl. constructor. exact Perm.
Qed.

End WithLib.

End PostFacts.

(* ================================================================== *)
(** * The excerpt is plain text *)
(* ================================================================== *)

Module PlainTextFacts.
Import App Site PyFacts ExcerptFacts.

Lemma sub_tags_no_gt (in_tag : bool) (s : str) :
  existsb (N.eqb GT) s = false ->
  existsb (N.eqb GT) (sub_tags in_tag s) = false.
Proof.
  revert in_tag. induction s as [|c s IH]; intros in_tag; [reflexivity|].
  cbn [existsb sub_tags]. intros E. apply orb_false_iff in E as [Ec Es].
  destruct in_tag; [apply IH; exact Es|].
  destruct (N.eqb c LT && opens_tag s); [apply IH; exact Es|].
  cbn [existsb]. rewrite Ec. apply IH. exact Es.
Qed.

Lemma sub_tags_opens (rest : str) :
  opens_tag rest = false -> opens_tag (sub_tags false rest) = false.
Proof.
  destruct rest as [|c r]; [reflexivity|].
  cbn [opens_tag]. intros E.
  destruct (N.eqb c GT) eqn:Ec.
  - apply N.eqb_eq in Ec. subst c. reflexivity.
  - cbn [negb andb] in E.
    assert (O : opens_tag r = false).
    { destruct r as [|c' r']; [reflexivity|]. cbn [opens_tag].
      cbn [existsb] in E. apply orb_false_iff in E as [_ E]. rewrite E.
      apply andb_false_r. }
    cbn [sub_tags]. rewrite O, andb_false_r.
    cbn [opens_tag]. rewrite Ec. cbn [negb andb].
    apply sub_tags_no_gt. exact E.
Qed.

Lemma sub_tags_has_no_tag (in_tag : bool) (s : str) :
  has_tag (sub_tags in_tag s) = false.
Proof.
  revert in_tag. induction s as [|c s IH]; intros in_tag; [reflexivity|].
  cbn [sub_tags]. destruct in_tag; [apply IH|].
  destruct (N.eqb c LT && opens_tag s) eqn:E; [apply IH|].
  cbn [has_tag]. rewrite IH, orb_false_r.
  apply andb_false_iff in E as [E | E]; [rewrite E; reflexivity|].
  rewrite (sub_tags_opens s E). apply andb_false_r.
Qed.

Lemma opens_tag_app (rest t : str) :
  opens_tag rest = true -> opens_tag (rest ++ t) = true.
Proof.
  destruct rest as [|c r]; [discriminate|].
  change (opens_tag ((c :: r) ++ t))
    with (negb (N.eqb c GT) && existsb (N.eqb GT) (r ++ t)).
  cbn [opens_tag]. intros E. apply andb_true_iff in E as [-> E].
  rewrite existsb_app. apply orb_true_intro. left. exact E.
Qed.

Lemma has_tag_app_inv (s t : str) :
  has_tag (s ++ t) = false -> has_tag s = false /\ has_tag t = false.
Proof.
  induction s as [|c s IH]; [intros E; split; [reflexivity | exact E]|].
  cbn [has_tag app]. intros E. apply orb_false_iff in E as [Ec E].
  destruct (IH E) as [Hs Ht]. split; [|exact Ht].
  rewrite Hs, orb_false_r.
  destruct (N.eqb c LT); [|reflexivity]. cbn [andb] in *.
  destruct (opens_tag s) eqn:O; [|reflexivity].
  rewrite (opens_tag_app s t O) in Ec. discriminate.
Qed.

Lemma has_tag_none (t : str) :
  existsb (N.eqb LT) t = false -> has_tag t = false.
Proof.
  induction t as [|c t IH]; [reflexivity|].
  cbn [existsb has_tag]. intros E. apply orb_false_iff in E as [Ec E].
  rewrite (IH E), orb_false_r.
  rewrite N.eqb_sym, Ec. reflexivity.
Qed.

Lemma has_tag_app_plain (s t : str) :
  has_tag s = false ->
  existsb (N.eqb GT) t = false -> existsb (N.eqb LT) t = false ->
  has_tag (s ++ t) = false.
Proof.
  intros Hs Hgt Hlt. induction s as [|c s IH]; [apply has_tag_none; exact Hlt|].
  cbn [has_tag app] in *. apply orb_false_iff in Hs as [Ec Hs].
  rewrite (IH Hs), orb_false_r.
  destruct (N.eqb c LT); [|reflexivity]. cbn [andb] in *.
  destruct s as [|c' r]; cbn [opens_tag app] in *.
  - destruct t as [|x t']; [reflexivity|]. cbn [opens_tag].
    cbn [existsb] in Hgt. apply orb_false_iff in Hgt as [_ Hgt].
    rewrite Hgt. apply andb_false_r.
  - rewrite existsb_app. unfold char in *. rewrite Hgt, orb_false_r. exact Ec.
Qed.

(** X5. The excerpt [build_excerpt] makes of a text has no tag left in it
    (the pattern [<[^>]+>] matches nowhere) and at most 223 characters,
    the marker included. *)
Theorem build_excerpt_is_plain (html : str) :
  exists excerpt,
    build_excerpt (JStr html) = Ok excerpt
    /\ has_tag excerpt = false
    /\ List.length excerpt <= 223.
Proof.
  exists (build_excerpt_str html 220).
  split; [destruct html; reflexivity|].
  unfold build_excerpt_str. cbv zeta.
  assert (T : has_tag (strip (sub_tags false html)) = false).
  { unfold strip.
    destruct (lstrip_split (sub_tags false html)) as (ws & E & _).
    destruct (rstrip_split (lstrip (sub_tags false html))) as (ws' & E' & _).
    pose proof (sub_tags_has_no_tag false html) as P.
    rewrite E in P. apply has_tag_app_inv in P as [_ P].
    rewrite E' in P. apply has_tag_app_inv in P as [P _]. exact P. }
  set (text := strip (sub_tags false html)) in *.
  destruct (Nat.leb (List.length text) 220) eqn:L.
  - split; [exact T|]. apply Nat.leb_le in L. lia.
  - destruct (rstrip_split (firstn 220 text)) as (ws & E & _).
    split.
    + apply has_tag_app_plain; try reflexivity.
      rewrite <- (firstn_skipn 220 text) in T.
      apply has_tag_app_inv in T as [T _].
      rewrite E in T. apply has_tag_app_inv in T as [T _]. exact T.
    + rewrite length_app.
      assert (List.length (rstrip (firstn 220 text)) <= 220).
      { pose proof (f_equal (@List.length _) E) as El.
        rewrite length_app in El.
        pose proof (firstn_le_length 220 text) as Hle.
        rewrite El in Hle. apply Nat.le_trans with (2 := Hle).
        apply Nat.le_add_r. }
      change (List.length ELLIPSIS) with 3.
      apply Nat.le_trans with (220 + 3); [|apply Nat.le_refl].
      apply Nat.add_le_mono_r. assumption.
Qed.

End PlainTextFacts.

(* ================================================================== *)
(** * The navigation links and the settings form *)
(* ================================================================== *)

Module NavFacts.
Import App Site PyFacts ExcerptFacts.

Lemma fold_appends {A B} (f : A -> list B) (l : list A) (acc : list B) :
  fold_left (fun acc x => acc ++ f x) l acc = acc ++ flat_map f l.
Proof.
  revert acc. induction l as [|x l IH]; intros acc; simpl.
  - symmetry. apply app_nil_r.
  - rewrite IH. symmetry. apply app_assoc.
Qed.

Lemma parse_nav_links_flat (raw : str) :
  parse_nav_links raw
  = match flat_map links_of_line (splitlines raw) with
    | [] => DEFAULT_NAV_LINKS
    | (_ :: _) as links => JList links
    end.
Proof.
  unfold parse_nav_links. rewrite fold_appends. cbn [app].
  destruct (flat_map links_of_line (splitlines raw)); reflexivity.
Qed.

(** ** Lines *)

Lemma splitlines_line (l rest : str) :
  forallb (fun c => negb (line_break c)) l = true ->
  splitlines_from false (l ++ 10%N :: rest) = l :: splitlines_from false rest.
Proof.
  induction l as [|c l IH]; intros B.
  - reflexivity.
  - cbn [forallb] in B. apply andb_true_iff in B as [Bc B].
    apply negb_true_iff in Bc.
    cbn [app splitlines_from andb]. rewrite Bc, (IH B). reflexivity.
Qed.

Lemma splitlines_last (l : str) :
  forallb (fun c => negb (line_break c)) l = true -> l <> [] ->
  splitlines_from false l = [l].
Proof.
  induction l as [|c l IH]; intros B Hne; [contradiction Hne; reflexivity|].
  cbn [forallb] in B. apply andb_true_iff in B as [Bc B].
  apply negb_true_iff in Bc.
  cbn [splitlines_from andb]. rewrite Bc.
  destruct l as [|c' l']; [reflexivity|].
  rewrite (IH B); [reflexivity | discriminate].
Qed.

Lemma splitlines_join (lines : list str) :
  Forall (fun l => forallb (fun c => negb (line_break c)) l = true /\ l <> [])
         lines ->
  splitlines (join [10%N] lines) = lines.
Proof.
  unfold splitlines. induction 1 as [|l lines [B Hne] F IH]; [reflexivity|].
  destruct lines as [|l2 lines].
  - apply splitlines_last; assumption.
  - change (join [10%N] (l :: l2 :: lines))
      with (l ++ 10%N :: join [10%N] (l2 :: lines)).
    rewrite (splitlines_line _ _ B), IH. reflexivity.
Qed.

(** ** Fields *)

Lemma split_piece (sep : char) (a rest : str) :
  forallb (fun c => negb (N.eqb c sep)) a = true ->
  split sep (a ++ sep :: rest) = a :: split sep rest.
Proof.
  induction a as [|c a IH]; intros B.
  - cbn [app split]. rewrite N.eqb_refl. reflexivity.
  - cbn [forallb] in B. apply andb_true_iff in B as [Bc B].
    apply negb_true_iff in Bc.
    cbn [app split]. rewrite Bc, (IH B). reflexivity.
Qed.

Lemma split_whole (sep : char) (a : str) :
  forallb (fun c => negb (N.eqb c sep)) a = true -> split sep a = [a].
Proof.
  induction a as [|c a IH]; intros B; [reflexivity|].
  cbn [forallb] in B. apply andb_true_iff in B as [Bc B].
  apply negb_true_iff in Bc.
  cbn [split]. rewrite Bc, (IH B). reflexivity.
Qed.

Lemma strip_fixed (s s' s'' : str) (c d : char) :
  s = c :: s' -> s = s'' ++ [d] -> isspace c = false -> isspace d = false ->
  strip s = s.
Proof.
  intros E1 E2 Hc Hd. unfold strip.
  assert (L : lstrip s = s) by (rewrite E1; cbn [lstrip]; rewrite Hc; reflexivity).
  rewrite L, E2. apply rstrip_fixed. exact Hd.
Qed.

Lemma plain_field_inv (s : str) :
  plain_field s = true ->
  (exists c s', s = c :: s' /\ isspace c = false)
  /\ (exists s'' d, s = s'' ++ [d] /\ isspace d = false)
  /\ forallb (fun c => negb (N.eqb c BAR)) s = true
  /\ forallb (fun c => negb (line_break c)) s = true.
Proof.
  unfold plain_field. destruct s as [|c s']; [discriminate|].
  destruct (rev (c :: s')) as [|d r] eqn:R; [discriminate|].
  intros E. apply andb_true_iff in E as [E F].
  apply andb_true_iff in E as [Ec Ed].
  apply negb_true_iff in Ec, Ed.
  split; [exists c, s'; auto|].
  split.
  { exists (rev r), d. split; [|exact Ed].
    rewrite <- (rev_involutive (c :: s')), R. reflexivity. }
  rewrite forallb_forall in F.
  split; apply forallb_forall; intros x Hx;
    specialize (F x Hx); apply andb_true_iff in F as [F1 F2]; assumption.
Qed.

Lemma plain_field_strip (s : str) : plain_field s = true -> strip s = s /\ s <> [].
Proof.
  intros P. destruct (plain_field_inv s P) as ((c & s' & E1 & Hc) & (s'' & d & E2 & Hd) & _).
  split; [eapply strip_fixed; eauto | rewrite E1; discriminate].
Qed.

Lemma line_of_strip (l u t : str) :
  plain_field l = true -> plain_field t = true ->
  strip (line_of l u t) = line_of l u t /\ line_of l u t <> [].
Proof.
  intros Pl Pt.
  destruct (plain_field_inv l Pl) as ((c & l' & E1 & Hc) & _).
  destruct (plain_field_inv t Pt) as (_ & (t'' & d & E2 & Hd) & _).
  split.
  - apply (strip_fixed _ (l' ++ BAR :: u ++ BAR :: t)
             (l ++ BAR :: u ++ BAR :: t'') c d); auto.
    + unfold line_of. rewrite E1. reflexivity.
    + unfold line_of. rewrite E2 at 1.
      rewrite <- !app_assoc. cbn [app]. rewrite <- app_assoc. reflexivity.
  - unfold line_of. rewrite E1. discriminate.
Qed.

Lemma links_of_plain_line (l u t : str) :
  plain_field l = true -> plain_field u = true -> plain_field t = true ->
  links_of_line (line_of l u t) = [link l u t].
Proof.
  intros Pl Pu Pt. unfold links_of_line.
  destruct (line_of_strip l u t Pl Pt) as [-> Hne].
  destruct (line_of l u t) as [|c0 rest] eqn:E; [contradiction Hne; reflexivity|].
  rewrite <- E. clear E Hne c0 rest.
  destruct (plain_field_inv l Pl) as (_ & _ & Bl & _).
  destruct (plain_field_inv u Pu) as (_ & _ & Bu & _).
  destruct (plain_field_inv t Pt) as (_ & _ & Bt & _).
  unfold bar_list, line_of.
  rewrite (split_piece BAR l _ Bl), (split_piece BAR u _ Bu), (split_whole BAR t Bt).
  destruct (plain_field_strip l Pl) as [Sl Nl].
  destruct (plain_field_strip u Pu) as [Su Nu].
  destruct (plain_field_strip t Pt) as [St Nt].
  cbn [filter]. rewrite Sl, Su, St.
  destruct l; [contradiction Nl; reflexivity|].
  destruct u; [contradiction Nu; reflexivity|].
  destruct t; [contradiction Nt; reflexivity|].
  cbn [map]. rewrite Sl, Su, St. reflexivity.
Qed.

Lemma links_of_line_no_url (l t : str) :
  plain_field l = true -> plain_field t = true ->
  links_of_line (line_of l [] t)
  = [link l t (if startswith t (py "http") then py "_blank" else py "_self")].
Proof.
  intros Pl Pt. unfold links_of_line.
  destruct (line_of_strip l [] t Pl Pt) as [-> Hne].
  destruct (line_of l [] t) as [|c0 rest] eqn:E; [contradiction Hne; reflexivity|].
  rewrite <- E. clear E Hne c0 rest.
  destruct (plain_field_inv l Pl) as (_ & _ & Bl & _).
  destruct (plain_field_inv t Pt) as (_ & _ & Bt & _).
  unfold bar_list, line_of.
  rewrite (split_piece BAR l _ Bl).
  change ([] ++ BAR :: t) with ([] ++ BAR :: t).
  rewrite (split_piece BAR [] t eq_refl), (split_whole BAR t Bt).
  destruct (plain_field_strip l Pl) as [Sl Nl].
  destruct (plain_field_strip t Pt) as [St Nt].
  cbn [filter]. rewrite Sl, St.
  change (strip []) with (@nil char). cbv iota.
  destruct l; [contradiction Nl; reflexivity|].
  destruct t; [contradiction Nt; reflexivity|].
  cbn [map]. rewrite Sl, St. reflexivity.
Qed.

Lemma line_of_breaks (l u t : str) :
  plain_field l = true -> (u = [] \/ plain_field u = true) ->
  plain_field t = true ->
  forallb (fun c => negb (line_break c)) (line_of l u t) = true
  /\ line_of l u t <> [].
Proof.
  intros Pl Pu Pt.
  destruct (plain_field_inv l Pl) as ((c & l' & E1 & _) & _ & _ & Bl).
  destruct (plain_field_inv t Pt) as (_ & _ & _ & Bt).
  assert (Bu : forallb (fun c => negb (line_break c)) u = true).
  { destruct Pu as [-> | Pu]; [reflexivity|].
    apply (plain_field_inv u Pu). }
  split; [|unfold line_of; rewrite E1; discriminate].
  unfold line_of. rewrite forallb_app, Bl. cbn [forallb andb].
  rewrite forallb_app, Bu. cbn [forallb andb]. rewrite Bt. reflexivity.
Qed.

Section WithFormat.
Context `{Format}.

Lemma nav_links_text_lines (links : list (str * str * str)) :
  nav_links_text (JList (map triple links))
  = Ok (join [10%N] (map (fun '(l, u, t) => line_of l u t) links)).
Proof.
  unfold nav_links_text. cbn [iter result_bind].
  assert (E : mapM
    (fun link0 : json =>
     result_bind (as_dict link0)
       (fun link1 : dict =>
        Ok (format_value (get_default (py "label") (JStr []) link1) ++
            [BAR] ++
            format_value (get_default (py "url") (JStr []) link1) ++
            [BAR] ++ format_value (get_default (py "target") (JStr []) link1))))
    (map triple links) = Ok (map (fun '(l, u, t) => line_of l u t) links)).
  { induction links as [|[[l u] t] links IH]; [reflexivity|].
    cbn [map mapM]. rewrite IH.
    unfold triple at 1, link at 1. cbn [as_dict result_bind].
    change (get_default (py "label") (JStr []) _) with (JStr l).
    change (get_default (py "url") (JStr []) _) with (JStr u).
    change (get_default (py "target") (JStr []) _) with (JStr t).
    rewrite !format_str. reflexivity. }
  rewrite E. reflexivity.
Qed.

(** X10. The navigation links come back from the settings form as they were
    shown in it, as long as every label, url and target is a text the form
    can carry: not empty, without a bar or a line end, and without white
    space at its ends.  A link whose url is empty does not: its target
    comes back as its url. *)
Theorem nav_links_round_trip :
  (forall links,
     links <> [] ->
     Forall (fun '(l, u, t) =>
               plain_field l = true /\ plain_field u = true
               /\ plain_field t = true) links ->
     exists text,
       nav_links_text (JList (map triple links)) = Ok text
       /\ parse_nav_links text = JList (map triple links))
  /\ (forall label target,
        plain_field label = true -> plain_field target = true ->
        exists text,
          nav_links_text (JList [link label [] target]) = Ok text
          /\ parse_nav_links text
             = JList [link label target
                        (if startswith target (py "http") then py "_blank"
                         else py "_self")]).
Proof.
  split.
  - intros links Hne Hall. eexists. split; [apply nav_links_text_lines|].
    rewrite parse_nav_links_flat, splitlines_join.
    + assert (E : flat_map links_of_line
                    (map (fun '(l, u, t) => line_of l u t) links)
                  = map triple links).
      { induction Hall as [|[[l u] t] links (Pl & Pu & Pt) F IH]; [reflexivity|].
        cbn [map flat_map]. rewrite (links_of_plain_line l u t Pl Pu Pt).
        destruct links as [|x links]; [reflexivity|].
        rewrite IH; [reflexivity | discriminate]. }
      rewrite E. destruct links; [contradiction Hne; reflexivity | reflexivity].
    + rewrite Forall_map. eapply Forall_impl; [|exact Hall].
      intros [[l u] t] (Pl & Pu & Pt). apply line_of_breaks; auto.
  - intros label target Pl Pt. eexists.
    split; [apply (nav_links_text_lines [(label, [], target)])|].
    rewrite parse_nav_links_flat. cbn [map join].
    destruct (line_of_breaks label [] target Pl (or_introl eq_refl) Pt) as [B Hne].
    unfold splitlines. rewrite (splitlines_last _ B Hne).
    cbn [flat_map]. rewrite (links_of_line_no_url label target Pl Pt).
    reflexivity.
Qed.

End WithFormat.

End NavFacts.

(* ================================================================== *)
(** * What parse_nav_links returns *)
(* ================================================================== *)

Module NavShapeFacts.
Import App Site PyFacts ExcerptFacts NavFacts.

Lemma bar_list_nonempty (line : str) : Forall (fun p => p <> []) (bar_list line).
Proof.
  unfold bar_list. rewrite Forall_map. apply Forall_forall. intros p Hp.
  apply filter_In in Hp as [_ Hp]. destruct (strip p); [discriminate Hp | discriminate].
Qed.

Lemma links_of_line_full (line : str) : Forall full_link (links_of_line line).
Proof.
  unfold links_of_line. destruct (strip line) as [|c s]; [constructor|].
  pose proof (bar_list_nonempty (c :: s)) as F.
  destruct (bar_list (c :: s)) as [|label [|url rest]]; try constructor;
    [|constructor].
  inversion F as [|? ? Hl F1]; subst. inversion F1 as [|? ? Hu F2]; subst.
  exists label, url. eexists. split; [reflexivity|]. split; [exact Hl|].
  split; [exact Hu|].
  destruct rest as [|third rest].
  - destruct (startswith url (py "http")); discriminate.
  - inversion F2; subst. assumption.
Qed.

Lemma splitlines_chars (P : char -> bool) (after_cr : bool) (s : str) :
  forallb P s = true ->
  Forall (fun l => forallb P l = true) (splitlines_from after_cr s).
Proof.
  revert after_cr. induction s as [|c s IH]; intros after_cr B; [constructor|].
  cbn [forallb] in B. apply andb_true_iff in B as [Bc B].
  cbn [splitlines_from].
  destruct (after_cr && N.eqb c 10); [apply IH; exact B|].
  destruct (line_break c); [constructor; [reflexivity | apply IH; exact B]|].
  specialize (IH false B).
  destruct (splitlines_from false s) as [|l rest]; cbn [cons_line].
  - constructor; [cbn [forallb]; rewrite Bc; reflexivity | constructor].
  - inversion IH; subst. constructor; [|assumption].
    cbn [forallb]. rewrite Bc. assumption.
Qed.

Lemma strip_chars (P : char -> bool) (s : str) :
  forallb P s = true -> forallb P (strip s) = true.
Proof.
  intros B. unfold strip.
  destruct (lstrip_split s) as (ws & E & _).
  destruct (rstrip_split (lstrip s)) as (ws' & E' & _).
  rewrite E, forallb_app in B. apply andb_true_iff in B as [_ B].
  rewrite E', forallb_app in B. apply andb_true_iff in B as [B _]. exact B.
Qed.

Lemma links_of_line_no_bar (line : str) :
  forallb (fun c => negb (N.eqb c BAR)) line = true -> links_of_line line = [].
Proof.
  intros B. unfold links_of_line.
  pose proof (strip_chars _ line B) as B'.
  destruct (strip line) as [|c s]; [reflexivity|].
  unfold bar_list. rewrite (split_whole BAR _ B'). cbn [filter].
  destruct (strip (c :: s)); reflexivity.
Qed.

(** X9. [parse_nav_links] never gives an empty navigation: what it returns
    is the list of default links, or links that each have a label, a url
    and a target, none of them empty; and a text without a bar in it, the
    empty text among them, gives the default links. *)
Theorem parse_nav_links_never_empty :
  (forall raw,
     exists links,
       parse_nav_links raw = JList links
       /\ links <> []
       /\ (JList links = DEFAULT_NAV_LINKS \/ Forall full_link links))
  /\ (forall raw,
        forallb (fun c => negb (N.eqb c BAR)) raw = true ->
        parse_nav_links raw = DEFAULT_NAV_LINKS).
Proof.
  split.
  - intros raw. rewrite parse_nav_links_flat.
    assert (F : Forall full_link (flat_map links_of_line (splitlines raw))).
    { apply Forall_flat_map. apply Forall_forall. intros line _.
      apply links_of_line_full. }
    destruct (flat_map links_of_line (splitlines raw)) as [|l links].
    + eexists. split; [reflexivity|]. split; [discriminate | left; reflexivity].
    + exists (l :: links). split; [reflexivity|].
      split; [discriminate | right; exact F].
  - intros raw B. rewrite parse_nav_links_flat.
    assert (E : flat_map links_of_line (splitlines raw) = []).
    { pose proof (splitlines_chars _ false raw B) as F.
      unfold splitlines. induction F as [|l ls Hl F IH]; [reflexivity|].
      cbn [flat_map]. rewrite (links_of_line_no_bar l Hl), IH. reflexivity. }
    rewrite E. reflexivity.
Qed.

End NavShapeFacts.

(* ================================================================== *)
(** * Saving the settings *)
(* ================================================================== *)

Module SettingsFacts.
Import App Site PyFacts StorageFacts RepositoryFacts DocumentFacts.

Lemma load_data_present (w : World) (j : json) :
  data_path w = File (Encoded j) -> load_data w = (with_defaults j, w).
Proof.
  intros P. rewrite load_data_reads. cbv zeta. unfold exec.
  rewrite (ensure_data_file_present w _ P). cbn [snd]. rewrite P. reflexivity.
Qed.

Lemma get_main_title_run (w : World) (data settings : dict) :
  load_data w = (Ok data, w) ->
  lookup (py "settings") data = Some (JObj settings) ->
  get_main_title w
  = (Ok (get_default (py "main_title") DEFAULT_MAIN_TITLE settings), w).
Proof.
  intros L S. unfold get_main_title, bind. rewrite L.
  replace (get_default (py "settings") (JObj []) data) with (JObj settings)
    by (unfold get_default; rewrite S; reflexivity).
  reflexivity.
Qed.

Lemma get_nav_links_run (w : World) (data settings : dict) :
  load_data w = (Ok data, w) ->
  lookup (py "settings") data = Some (JObj settings) ->
  get_nav_links w
  = (Ok (get_default (py "nav_links") DEFAULT_NAV_LINKS settings), w).
Proof.
  intros L S. unfold get_nav_links, bind. rewrite L.
  replace (get_default (py "settings") (JObj []) data) with (JObj settings)
    by (unfold get_default; rewrite S; reflexivity).
  reflexivity.
Qed.

Section WithLib.
Context `{Lib}.

Lemma get_about_page_run (w : World) (data pages : dict) :
  load_data w = (Ok data, w) ->
  lookup (py "pages") data = Some (JObj pages) ->
  get_about_page w
  = (Ok (get_default (py "about")
           (JObj (page_dict (JStr (py "About")) (py "about") []
                    (now_iso (ticks w)))) pages),
     mkWorld (data_path w) (S (ticks w))).
Proof.
  intros L P. unfold get_about_page. unfold bind at 1. rewrite L.
  replace (get_default (py "pages") (JObj []) data) with (JObj pages)
    by (unfold get_default; rewrite P; reflexivity).
  unfold bind, lift, as_dict, ret. rewrite utcnow_iso_run. reflexivity.
Qed.

Lemma save_settings_run (http : Http) (data pages settings about_page : dict)
    (w : World) (c : contents) :
  lookup (py "pages") data = Some (JObj pages) ->
  lookup (py "settings") data = Some (JObj settings) ->
  data_path w = File c ->
  save_settings http data (JObj about_page) w
  = (Ok (Redirect {| flashed := (py "Settings updated", py "success");
                     location := py "/admin/settings" |}),
     mkWorld (File (Encoded (JObj
                (settings_document http data pages settings
                   (get_default (py "title") (JStr (py "About")) about_page)
                   (now_iso (ticks w))))))
             (S (ticks w))).
Proof.
  intros P S F. unfold save_settings.
  rewrite (setdefault_present _ _ _ _ P).
  unfold bind at 1. unfold lift, as_dict.
  unfold bind at 1. rewrite utcnow_iso_run.
  assert (S2 : forall v, lookup (py "settings") (set (py "pages") v data)
                         = Some (JObj settings))
    by (intros v; rewrite lookup_set_other by reflexivity; exact S).
  rewrite (setdefault_present _ _ _ _ (S2 _)).
  unfold bind, save_data, mkdir_parent, json_dump, ret. cbn [data_path ticks].
  rewrite F. reflexivity.
Qed.


Lemma settings_document_complete (http : Http) (data pages settings : dict)
    (title : json) (updated : str) :
  complete data ->
  complete (settings_document http data pages settings title updated).
Proof.
  intros [[v1 P1] _]. unfold settings_document.
  split; [exists v1; rewrite !lookup_set_other by reflexivity; exact P1|].
  split.
  { eexists. rewrite lookup_set_other by reflexivity. apply lookup_set_same. }
  eexists. split; [apply lookup_set_same|]. split.
  - eexists. rewrite lookup_set_other by reflexivity. apply lookup_set_same.
  - eexists. apply lookup_set_same.
Qed.

Context `{Format}.

Lemma admin_settings_post (http : Http) (session : dict) (w : World)
    (d pages about_page : dict) :
  is_authenticated session = true ->
  method http = POST ->
  data_path w = File (Encoded (JObj d)) ->
  (forall v, lookup (py "settings") d = Some v -> exists s, v = JObj s) ->
  get_default (py "pages") (JObj []) d = JObj pages ->
  get_default (py "about") (JObj []) pages = JObj about_page ->
  exists data settings,
    load_data w = (Ok data, w)
    /\ complete data
    /\ lookup (py "pages") data = Some (JObj pages)
    /\ lookup (py "settings") data = Some (JObj settings)
    /\ admin_settings http session w
       = (Ok (Redirect {| flashed := (py "Settings updated", py "success");
                          location := py "/admin/settings" |}),
          mkWorld (File (Encoded (JObj
                     (settings_document http data pages settings
                        (get_default (py "title") (JStr (py "About")) about_page)
                        (now_iso (S (ticks w)))))))
                  (S (S (ticks w)))).
Proof.
  intros Ha Hm Hd Hs Hp Hab.
  destruct (load_data_dict w d Hd Hs) as (data & settings & L & _ & P & St & _).
  rewrite Hp in P.
  destruct (load_data_complete _ _ _ L) as [C _].
  exists data, settings. repeat (split; [assumption|]).
  assert (L1 : load_data (mkWorld (data_path w) (S (ticks w)))
               = (Ok data, mkWorld (data_path w) (S (ticks w)))).
  { rewrite (load_data_present w _ Hd) in L. injection L as L.
    rewrite (load_data_present (mkWorld (data_path w) (S (ticks w))) _ Hd), L.
    reflexivity. }
  unfold admin_settings, login_required. rewrite Ha. cbn [negb].
  unfold bind at 1. rewrite L.
  unfold bind at 1. rewrite (get_about_page_run w data pages L P).
  unfold bind at 1. rewrite (get_nav_links_run _ data settings L1 St).
  unfold bind at 1. rewrite (get_main_title_run _ data settings L1 St).
  rewrite Hm. change (str_eqb POST POST) with true. cbv iota.
  assert (A : exists a,
             get_default (py "about")
               (JObj (page_dict (JStr (py "About")) (py "about") []
                        (now_iso (ticks w)))) pages = JObj a
             /\ get_default (py "title") (JStr (py "About")) a
                = get_default (py "title") (JStr (py "About")) about_page).
  { unfold get_default in Hab |- *. destruct (lookup (py "about") pages) as [a|].
    - subst a. exists about_page. split; reflexivity.
    - injection Hab as <-. eexists. split; reflexivity. }
  destruct A as (a & -> & <-).
  rewrite (save_settings_run http data pages settings a
             (mkWorld (data_path w) (S (ticks w))) _ P St Hd).
  reflexivity.
Qed.

(** X11. What the settings form posts is what the site reads afterwards: the
    main title as posted, trimmed (the default title when that is empty),
    the navigation [parse_nav_links] makes of the posted text, and an About
    page with the posted content, trimmed, under the title the page had
    (About when there was none). *)
Theorem settings_are_read_back (http : Http) (session : dict) (w : World)
    (d pages about_page : dict) :
  is_authenticated session = true ->
  method http = POST ->
  data_path w = File (Encoded (JObj d)) ->
  (forall v, lookup (py "settings") d = Some v -> exists s, v = JObj s) ->
  get_default (py "pages") (JObj []) d = JObj pages ->
  get_default (py "about") (JObj []) pages = JObj about_page ->
  exists w',
    admin_settings http session w
    = (Ok (Redirect {| flashed := (py "Settings updated", py "success");
                       location := py "/admin/settings" |}), w')
    /\ get_main_title w'
       = (Ok match strip (field "main_title" (body http)) with
             | [] => DEFAULT_MAIN_TITLE
             | (_ :: _) as t => JStr t
             end, w')
    /\ get_nav_links w'
       = (Ok (parse_nav_links (field "nav_links" (body http))), w')
    /\ exists updated,
         fst (get_about_page w')
         = Ok (JObj [(py "title",
                      get_default (py "title") (JStr (py "About")) about_page);
                     (py "slug", JStr (py "about"));
                     (py "content_html",
                      JStr (strip (field "about_content" (body http))));
                     (py "content_markdown", JStr []);
                     (py "updated", JStr updated)]).
Proof.
  intros Ha Hm Hd Hs Hp Hab.
  destruct (admin_settings_post http session w d pages about_page
              Ha Hm Hd Hs Hp Hab) as (data & settings & L & C & P & St & R).
  eexists. split; [exact R|].
  set (doc := settings_document _ _ _ _ _ _) in *.
  set (w' := mkWorld (File (Encoded (JObj doc))) _).
  assert (L' : load_data w' = (Ok doc, w')).
  { apply load_data_file; [reflexivity|].
    apply settings_document_complete. exact C. }
  split; [|split].
  - erewrite get_main_title_run; [|exact L' | apply lookup_set_same].
    unfold get_default. rewrite lookup_set_same. reflexivity.
  - erewrite get_nav_links_run; [|exact L' | apply lookup_set_same].
    unfold get_default. rewrite lookup_set_other by reflexivity.
    rewrite lookup_set_same. reflexivity.
  - eexists. erewrite get_about_page_run; [|exact L'|].
    2:{ unfold doc, settings_document.
        rewrite lookup_set_other by reflexivity. apply lookup_set_same. }
    cbn [fst]. unfold get_default at 1. rewrite lookup_set_same. reflexivity.
Qed.

(** X12. Saving the settings touches two places only: the posts and every
    other top-level key of the document, the pages other than About, and
    the settings other than the navigation and the main title are read
    afterwards as they were before. *)
Theorem settings_leave_the_rest (http : Http) (session : dict) (w : World)
    (d pages about_page : dict) :
  is_authenticated session = true ->
  method http = POST ->
  data_path w = File (Encoded (JObj d)) ->
  (forall v, lookup (py "settings") d = Some v -> exists s, v = JObj s) ->
  get_default (py "pages") (JObj []) d = JObj pages ->
  get_default (py "about") (JObj []) pages = JObj about_page ->
  exists data data' pages' settings settings',
    load_data w = (Ok data, w)
    /\ (let w' := exec (admin_settings http session) w in
        load_data w' = (Ok data', w')
        /\ fst (load_posts w') = fst (load_posts w))
    /\ (forall k, str_eqb k (py "pages") = false ->
                  str_eqb k (py "settings") = false ->
                  lookup k data' = lookup k data)
    /\ lookup (py "pages") data' = Some (JObj pages')
    /\ (forall k, str_eqb k (py "about") = false ->
                  lookup k pages' = lookup k pages)
    /\ lookup (py "settings") data = Some (JObj settings)
    /\ lookup (py "settings") data' = Some (JObj settings')
    /\ (forall k, str_eqb k (py "nav_links") = false ->
                  str_eqb k (py "main_title") = false ->
                  lookup k settings' = lookup k settings).
Proof.
  intros Ha Hm Hd Hs Hp Hab.
  destruct (admin_settings_post http session w d pages about_page
              Ha Hm Hd Hs Hp Hab) as (data & settings & L & C & P & St & R).
  unfold exec. rewrite R. cbn [snd].
  set (doc := settings_document _ _ _ _ _ _) in *.
  set (w' := mkWorld (File (Encoded (JObj doc))) _).
  assert (L' : load_data w' = (Ok doc, w')).
  { apply load_data_file; [reflexivity|].
    apply settings_document_complete. exact C. }
  assert (K : forall k, str_eqb k (py "pages") = false ->
                        str_eqb k (py "settings") = false ->
                        lookup k doc = lookup k data).
  { intros k K1 K2. unfold doc, settings_document.
    rewrite !lookup_set_other by assumption. reflexivity. }
  exists data, doc. do 3 eexists.
  split; [exact L|]. split.
  { split; [exact L'|].
    unfold load_posts, bind. rewrite L, L'.
    unfold get_default. rewrite (K (py "posts")) by reflexivity.
    destruct (lookup (py "posts") data) as [posts|]; cbn [fst];
      unfold lift; destruct (iter _); try reflexivity;
      destruct (mapM date_key _); reflexivity. }
  split; [exact K|].
  split.
  { unfold doc, settings_document. rewrite lookup_set_other by reflexivity.
    apply lookup_set_same. }
  split; [intros k K1; apply lookup_set_other; exact K1|].
  split; [exact St|].
  split; [apply lookup_set_same|].
  intros k K1 K2. rewrite !lookup_set_other by assumption. reflexivity.
Qed.

End WithLib.

End SettingsFacts.

(* ================================================================== *)
(** * The views: who sees what *)
(* ================================================================== *)

Module ViewFacts.
Import App Site PyFacts StorageFacts SortFacts RepositoryFacts DocumentFacts.
Import PostFacts SettingsFacts.

Section WithLib.
Context `{Lib}.

Lemma inject_globals_run (w : World) (data : dict) :
  load_data w = (Ok data, w) ->
  exists main_title nav_links,
    inject_globals w
    = (Ok [(py "site_title", JStr SITE_TITLE);
           (py "site_description", JStr SITE_DESCRIPTION);
           (py "main_title", main_title);
           (py "nav_links", nav_links)], w).
Proof.
  intros L. destruct (load_data_complete _ _ _ L) as [(_ & _ & s & Hs & _) _].
  do 2 eexists. unfold inject_globals.
  unfold bind at 1. rewrite (get_main_title_run w data s L Hs).
  unfold bind at 1. rewrite (get_nav_links_run w data s L Hs).
  reflexivity.
Qed.

Lemma render_template_run (w : World) (data : dict) :
  load_data w = (Ok data, w) ->
  exists globals,
    lookup (py "posts") globals = None
    /\ lookup (py "post") globals = None
    /\ forall flashes template context,
         render_template flashes template context w
         = (Ok (Page flashes (py template) (context ++ globals)), w).
Proof.
  intros L. destruct (inject_globals_run w data L) as (t & n & E).
  eexists. split; [|split]; [| |intros; unfold render_template, bind;
                                 rewrite E; reflexivity]; reflexivity.
Qed.

Lemma stores_loads (w : World) (ps : list dict) :
  stores w ps -> exists data, load_data w = (Ok data, w).
Proof.
  intros St. destruct (load_data_stores w ps St) as (raw & L & _).
  exists raw. exact L.
Qed.

(** X15. On stored posts whose dates are strings or missing: when their
    times are not all of one kind (some carry a UTC offset, some do not)
    the index raises [TypeError]; otherwise it shows a visitor the stored
    posts whose status is [publish] or missing, and an administrator
    every stored post, in both cases latest first, as [load_posts] orders
    them. *)
Theorem blog_index_lists (session : dict) (w : World) (ps : list dict) :
  stores w ps -> Forall dated ps ->
  (comparable (times ps) = false ->
   blog_index session w = (Raise TypeError, w))
  /\ (comparable (times ps) = true ->
      exists context,
        blog_index session w = (Ok (Page [] (py "blog_index.html") context), w)
        /\ lookup (py "posts") context
           = Some (JList (map JObj
               (filter (fun p =>
                          if is_authenticated session then true
                          else match lookup (py "status") p with
                               | None => true
                               | Some status =>
                                   py_eqb status (JStr (py "publish"))
                               end)
                       (sorted_reverse earlier timestamp ps))))
        /\ descending (fun p => moment (timestamp p))
             (sorted_reverse earlier timestamp ps)).
Proof.
  intros St Dt. split.
  { intros Cmp. unfold blog_index, bind.
    rewrite (load_posts_stores w ps St Dt), Cmp. reflexivity. }
  intros Cmp. destruct (stores_loads w ps St) as [data L].
  destruct (render_template_run w data L) as (globals & _ & _ & R).
  eexists. unfold blog_index, bind.
  rewrite (load_posts_comparable w ps St Dt Cmp), R.
  split; [reflexivity|].
  split; [|apply SortFacts.sorted_reverse_sorted].
  cbn [app lookup]. change (str_eqb (py "posts") (py "posts")) with true.
  cbv iota. do 3 f_equal. apply filter_ext. intros p.
  unfold listed, get_default.
  destruct (is_authenticated session); [apply orb_true_r|].
  rewrite orb_false_r. destruct (lookup (py "status") p); reflexivity.
Qed.

(** X16. The page of a post, on stored posts that [load_posts] can sort
    (dates that are strings or missing, times of one kind): a visitor is
    answered 404 for a slug no stored post has, and for a slug whose
    stored posts all have a status other than [publish] or none at all;
    for a slug whose stored posts are all published the page shows one of
    them. *)
Theorem blog_post_serves_published (session : dict) (w : World)
    (ps : list dict) (slug : str) :
  stores w ps -> Forall dated ps -> comparable (times ps) = true ->
  is_authenticated session = false ->
  ((forall p, In p ps -> get (py "slug") p = JStr slug ->
              get (py "status") p <> JStr (py "publish")) ->
   blog_post session slug w = (Ok NotFound, w))
  /\ (In slug (slugs ps) ->
      (forall p, In p ps -> get (py "slug") p = JStr slug ->
                 get (py "status") p = JStr (py "publish")) ->
      exists p context,
        blog_post session slug w
        = (Ok (Page [] (py "blog_post.html") context), w)
        /\ lookup (py "post") context = Some (JObj p)
        /\ In p ps
        /\ get (py "slug") p = JStr slug).
Proof.
  intros St Dt Cmp Ha.
  destruct (get_post_by_slug_stored w ps slug St Dt Cmp)
    as (found & R & Hnone & Hsome).
  destruct (stores_loads w ps St) as [data L].
  destruct (render_template_run w data L) as (globals & _ & _ & T).
  split.
  - intros Hdraft. unfold blog_post, bind. rewrite R.
    destruct found as [p|]; [|reflexivity].
    destruct (Hsome p eq_refl) as [Hp Es].
    destruct p as [|kv p']; [reflexivity|]. cbn [given].
    rewrite Ha. cbn [negb]. rewrite andb_true_r.
    destruct (py_eqb (get (py "status") (kv :: p')) (JStr (py "publish"))) eqn:E;
      [|reflexivity].
    apply py_eqb_str in E. contradiction (Hdraft _ Hp Es E).
  - intros Hin Hpub. destruct found as [p|].
    + destruct (Hsome p eq_refl) as [Hp Es].
      exists p. eexists. unfold blog_post, bind. rewrite R.
      assert (Hne : given (Some p) = Some p).
      { destruct p; [discriminate Es | reflexivity]. }
      rewrite Hne.
      assert (E : py_eqb (get (py "status") p) (JStr (py "publish")) = true)
        by (apply py_eqb_str; auto).
      rewrite E. cbn [negb andb]. rewrite T.
      split; [reflexivity|]. split; [|split; assumption].
      cbn [app lookup]. reflexivity.
    + exfalso. apply (Hnone eq_refl). exact Hin.
Qed.


Lemma flash_run (message category : str) (session : dict) :
  (forall v, lookup (py "_flashes") session = Some v -> exists l, v = JList l) ->
  flash message category session
  = Ok (set (py "_flashes")
          (JList (pending session ++ [JList [JStr category; JStr message]]))
          session).
Proof.
  intros Hl. unfold flash, pending, get_default.
  destruct (lookup (py "_flashes") session) as [v|]; [|reflexivity].
  destruct (Hl v eq_refl) as [l ->]. reflexivity.
Qed.

Lemma flash_raises (message category : str) (session : dict) (v : json) :
  lookup (py "_flashes") session = Some v -> (forall l, v <> JList l) ->
  flash message category session = Raise AttributeError.
Proof.
  intros Hv Hl. unfold flash, get_default. rewrite Hv.
  destruct v; try reflexivity. contradiction (Hl items). reflexivity.
Qed.

(** X13. Logging in, by a POST.  With a session whose waiting messages
    are a list: when the user name and password, trimmed, are the
    configured ones, the view leaves the file alone, redirects to the
    [next] page asked for (the list of posts when none is) and leaves a
    session that authenticates, with the message of the login added to
    its waiting messages and its other keys as they were; any other POST,
    when it answers, answers the login page under the message of the
    failure, and has added that message to the waiting messages of the
    session, whose other keys (the user among them) are as they were.
    With a session that holds something else than a list under
    [_flashes], the view raises [AttributeError]. *)
Theorem admin_login_checks_credentials (http : Http) (session : dict)
    (w : World) :
  method http = POST ->
  (strip (field "username" (body http)) = ADMIN_USER ->
   strip (field "password" (body http)) = ADMIN_PASSWORD ->
   (forall v, lookup (py "_flashes") session = Some v -> exists l, v = JList l) ->
   exists session',
     admin_login http session w
     = (Ok (Redirect {| flashed := (py "Logged in", py "success");
                        location := match lookup (py "next") (args http) with
                                    | Some ((_ :: _) as next) => next
                                    | _ => py "/admin/posts"
                                    end |}, session'), w)
     /\ is_authenticated session' = true
     /\ lookup (py "_flashes") session'
        = Some (JList (pending session
                       ++ [JList [JStr (py "success"); JStr (py "Logged in")]]))
     /\ forall k, str_eqb k (py "user") = false ->
                  str_eqb k (py "_flashes") = false ->
                  lookup k session' = lookup k session)
  /\ ((strip (field "username" (body http)) <> ADMIN_USER
       \/ strip (field "password" (body http)) <> ADMIN_PASSWORD) ->
      (forall v, lookup (py "_flashes") session = Some v -> exists l, v = JList l) ->
      forall a session' w',
        admin_login http session w = (Ok (a, session'), w') ->
        lookup (py "_flashes") session'
        = Some (JList (pending session
                       ++ [JList [JStr (py "error");
                                  JStr (py "Invalid credentials")]]))
        /\ (forall k, str_eqb k (py "_flashes") = false ->
                      lookup k session' = lookup k session)
        /\ exists context,
             a = Page [(py "Invalid credentials", py "error")]
                      (py "admin_login.html") context)
  /\ (forall v, lookup (py "_flashes") session = Some v ->
                (forall l, v <> JList l) ->
                admin_login http session w = (Raise AttributeError, w)).
Proof.
  intros Hm. split; [|split].
  - intros Eu Ep Hl.
    assert (Hl' : forall v,
               lookup (py "_flashes")
                 (set (py "user") (JStr ADMIN_USER) session) = Some v ->
               exists l, v = JList l).
    { intros v. rewrite lookup_set_other by reflexivity. apply Hl. }
    assert (Hp : pending (set (py "user") (JStr ADMIN_USER) session)
                 = pending session).
    { unfold pending. rewrite lookup_set_other by reflexivity. reflexivity. }
    eexists. unfold admin_login. rewrite Hm.
    change (str_eqb POST POST) with true. cbv iota.
    rewrite Eu, Ep, !str_eqb_refl. cbn [andb]. cbv zeta.
    unfold bind, lift. rewrite (flash_run _ _ _ Hl'), Hp.
    split; [reflexivity|]. split; [|split].
    + unfold is_authenticated, get.
      rewrite lookup_set_other by reflexivity. rewrite lookup_set_same.
      apply py_eqb_str. reflexivity.
    + apply lookup_set_same.
    + intros k Hu Hf. rewrite !lookup_set_other by assumption. reflexivity.
  - intros Hbad Hl a session' w'. unfold admin_login. rewrite Hm.
    change (str_eqb POST POST) with true. cbv iota.
    assert (E : str_eqb (strip (field "username" (body http))) ADMIN_USER
                && str_eqb (strip (field "password" (body http))) ADMIN_PASSWORD
                = false).
    { apply andb_false_iff.
      destruct Hbad as [Hb | Hb]; [left | right]; apply str_eqb_neq; exact Hb. }
    rewrite E. unfold bind at 1, lift. rewrite (flash_run _ _ _ Hl).
    unfold bind, render_template, bind.
    destruct (inject_globals w) as [[g|e] w1]; [|discriminate].
    unfold ret. intros [= <- <- <-].
    split; [apply lookup_set_same|].
    split; [intros k Hf; apply lookup_set_other; exact Hf|].
    eexists. reflexivity.
  - intros v Hv Hl. unfold admin_login. rewrite Hm.
    change (str_eqb POST POST) with true. cbv iota.
    destruct (str_eqb _ ADMIN_USER && str_eqb _ ADMIN_PASSWORD); cbv zeta;
      unfold bind at 1, lift.
    + rewrite (flash_raises _ _ _ v); [reflexivity| |exact Hl].
      rewrite lookup_set_other by reflexivity. exact Hv.
    + rewrite (flash_raises _ _ _ v Hv Hl). reflexivity.
Qed.

(** X14. No administration view runs for a visitor: without a session that
    authenticates, and so after [admin_logout] whatever the session was,
    the list of posts, the new-post and edit forms and the settings answer
    with the redirect to the login page, and neither read nor write the
    backing file. *)
Theorem admin_views_need_a_login `{Format} (http : Http) (session : dict)
    (slug : str) (w : World) :
  is_authenticated (snd (admin_logout session)) = false
  /\ (is_authenticated session = false ->
      admin_posts http session w = (Ok (LoginFirst (path http)), w)
      /\ admin_new_post http session w = (Ok (LoginFirst (path http)), w)
      /\ admin_edit_post http session slug w = (Ok (LoginFirst (path http)), w)
      /\ admin_settings http session w = (Ok (LoginFirst (path http)), w)).
Proof.
  split; [reflexivity|]. intros Ha.
  unfold admin_posts, admin_new_post, admin_edit_post, admin_settings,
    login_required.
  rewrite Ha. repeat split.
Qed.

End WithLib.

End ViewFacts.

(* ================================================================== *)
(** * The importer: pages, and what an import leaves *)
(* ================================================================== *)

Module ImportMoreFacts.
Import App ImportWp Site ImportPages.
Import PyFacts StorageFacts RepositoryFacts ImportFacts DocumentFacts SettingsFacts.

Lemma find_last {A} (f : A -> bool) (l : list A) (x : A) :
  find f (l ++ [x])
  = match find f l with
    | Some y => Some y
    | None => if f x then Some x else None
    end.
Proof.
  induction l as [|a l IH]; simpl; [reflexivity|].
  destruct (f a); [reflexivity | exact IH].
Qed.

Section WithLib.
Context `{Lib}.

Lemma pages_of_items_last (items : list element) (acc : dict) (w : World) :
  exists pages w',
    pages_of_items items acc w = (Ok pages, w')
    /\ data_path w' = data_path w
    /\ lookup [] pages = lookup [] acc
    /\ forall slug, slug <> [] ->
         match last_page slug items with
         | Some item =>
             exists updated, lookup slug pages = Some (imported_page item updated)
         | None => lookup slug pages = lookup slug acc
         end.
Proof.
  revert acc w. induction items as [|item items IH]; intros acc w.
  - exists acc, w. do 3 (split; [reflexivity|]). intros slug _. reflexivity.
  - cbn [pages_of_items]. unfold last_page. cbn [rev].
    destruct (is_type "page" item) eqn:T; cbn [negb].
    2:{ destruct (IH acc w) as (pages & w' & R & P & E0 & L).
        exists pages, w'. repeat (split; [assumption|]).
        intros slug Hs. specialize (L slug Hs). unfold last_page in L.
        rewrite find_last. unfold is_page_of at 2. rewrite T. cbn [andb].
        destruct (find (is_page_of slug) (rev items)); exact L. }
    destruct (or_else (findtext (py "wp:post_name") [] item) []) as [|c sv] eqn:S.
    { destruct (IH acc w) as (pages & w' & R & P & E0 & L).
      exists pages, w'. repeat (split; [assumption|]).
      intros slug Hs. specialize (L slug Hs). unfold last_page in L.
      rewrite find_last. unfold is_page_of at 2. rewrite T, S. cbn [andb].
      destruct slug; [contradiction Hs; reflexivity|]. cbn [str_eqb].
      destruct (find (is_page_of (c :: slug)) (rev items)); exact L. }
    unfold bind at 1. rewrite utcnow_iso_run.
    match goal with
    | |- context [pages_of_items items ?p ?w0] =>
        destruct (IH p w0) as (pages & w' & R & P & E0 & L)
    end.
    exists pages, w'. split; [exact R|]. split; [exact P|].
    split; [rewrite E0; apply lookup_set_other; reflexivity|].
    intros slug Hs. specialize (L slug Hs). unfold last_page in L.
    rewrite find_last. unfold is_page_of at 2. rewrite T, S. cbn [andb].
    destruct (find (is_page_of slug) (rev items)); [exact L|].
    destruct (str_eqb (c :: sv) slug) eqn:E.
    + apply str_eqb_eq in E. subst slug. eexists. rewrite L.
      rewrite lookup_set_same. unfold imported_page. rewrite S. reflexivity.
    + rewrite L. apply lookup_set_other. rewrite str_eqb_sym. exact E.
Qed.

(** X19. [parse_pages] keeps one page per slug, the last page item of the
    export that carries it: a slug no page item carries is not a key of
    what it returns, a page item without a slug is left out, and the page
    under a slug has the title (the slug in title case when there is
    none) and the content of the last page item with that slug.  The
    backing file is not touched. *)
Theorem parse_pages_last_wins (root channel : element) (w : World) :
  find_child (py "channel") root = Some channel ->
  exists pages w',
    parse_pages root w = (Ok pages, w')
    /\ data_path w' = data_path w
    /\ lookup [] pages = None
    /\ forall slug, slug <> [] ->
         match last_page slug (findall (py "item") channel) with
         | Some item =>
             exists updated,
               lookup slug pages
               = Some (JObj [(py "title",
                              JStr (or_else
                                      (or_else (findtext (py "title") [] item) [])
                                      (title_case slug)));
                             (py "slug", JStr slug);
                             (py "content_html",
                              JStr (or_else
                                      (findtext (py "content:encoded") [] item)
                                      []));
                             (py "content_markdown", JStr []);
                             (py "updated", JStr updated)])
         | None => lookup slug pages = None
         end.
Proof.
  intros Hch. unfold parse_pages. rewrite Hch.
  destruct (pages_of_items_last (findall (py "item") channel) [] w)
    as (pages & w' & R & P & E0 & L).
  exists pages, w'. repeat (split; [assumption|]).
  intros slug Hs. specialize (L slug Hs).
  destruct (last_page slug (findall (py "item") channel)) as [item|] eqn:F;
    [|exact L].
  destruct L as [updated L]. exists updated. rewrite L.
  unfold imported_page.
  apply find_some in F as [_ F]. unfold is_page_of in F.
  apply andb_true_iff in F as [_ F]. apply str_eqb_eq in F. rewrite F.
  reflexivity.
Qed.

(** ** The importer does not look at the file *)

Lemma blind_ret {A} (a : A) : file_blind (ret a).
Proof. intros n. exists (Ok a), n. reflexivity. Qed.

Lemma blind_raise {A} (e : exn) : file_blind (@raise A e).
Proof. intros n. exists (Raise e), n. reflexivity. Qed.

Lemma blind_lift {A} (r : result A) : file_blind (lift r).
Proof. intros n. exists r, n. reflexivity. Qed.

Lemma blind_bind {A B} (m : M A) (f : A -> M B) :
  file_blind m -> (forall a, file_blind (f a)) -> file_blind (bind m f).
Proof.
  intros Hm Hf n. destruct (Hm n) as (r & k & E).
  destruct r as [a|e].
  - destruct (Hf a k) as (r' & k' & E'). exists r', k'. intros p.
    unfold bind. rewrite E. apply E'.
  - exists (Raise e), k. intros p. unfold bind. rewrite E. reflexivity.
Qed.

Lemma blind_utcnow : file_blind utcnow.
Proof. intros n. exists (Ok (naive (clock n))), (S n). reflexivity. Qed.

Lemma blind_utcnow_iso : file_blind utcnow_iso.
Proof. apply blind_bind; [apply blind_utcnow | intros; apply blind_ret]. Qed.

Lemma blind_to_iso (s : str) : file_blind (to_iso s).
Proof.
  unfold to_iso.
  repeat match goal with
         | |- file_blind (match ?x with _ => _ end) => destruct x
         end; try apply blind_ret. apply blind_utcnow_iso.
Qed.

Lemma blind_post_of_item (item : element) : file_blind (post_of_item item).
Proof.
  unfold post_of_item.
  apply blind_bind; [apply blind_lift | intros post_id].
  apply blind_bind.
  - destruct (findtext (py "wp:post_date") [] item); [|apply blind_to_iso].
    apply blind_bind; [apply blind_utcnow | intros; apply blind_ret].
  - intros d. destruct (classify _). apply blind_ret.
Qed.

Lemma blind_posts_of_items (items : list element) :
  file_blind (posts_of_items items).
Proof.
  induction items as [|item items IH]; [apply blind_ret|].
  cbn [posts_of_items]. destruct (negb (is_type "post" item)); [exact IH|].
  apply blind_bind; [apply blind_post_of_item | intros post].
  apply blind_bind; [exact IH | intros; apply blind_ret].
Qed.

Lemma blind_pages_of_items (items : list element) (acc : dict) :
  file_blind (pages_of_items items acc).
Proof.
  revert acc. induction items as [|item items IH]; intros acc; [apply blind_ret|].
  cbn [pages_of_items]. destruct (negb (is_type "page" item)); [apply IH|].
  destruct (or_else (findtext (py "wp:post_name") [] item) []); [apply IH|].
  apply blind_bind; [apply blind_utcnow_iso | intros; apply IH].
Qed.

Lemma blind_parse (root : element) :
  file_blind (posts <- parse_posts root ;; pages <- parse_pages root ;;
              ret (posts, pages)).
Proof.
  unfold parse_posts, parse_pages.
  destruct (find_child (py "channel") root).
  - apply blind_bind.
    + apply blind_bind; [apply blind_posts_of_items | intros; apply blind_ret].
    + intros posts. apply blind_bind; [apply blind_pages_of_items|].
      intros; apply blind_ret.
  - apply blind_bind; [apply blind_raise | intros].
    apply blind_bind; [apply blind_raise | intros; apply blind_ret].
Qed.

(** X20. An import replaces the stored document, whatever the backing file
    was (absent, unreadable, or holding posts): what [main] writes is
    decided by the export and the clock alone.  The document it writes
    lacks nothing [load_data] would add, so the site reads it back as
    written: with an empty main title, not the default one, and with the
    default navigation. *)
Theorem import_replaces_the_document (root channel : element) (n : nat) :
  find_child (py "channel") root = Some channel ->
  Forall id_reads (filter (is_type "post") (findall (py "item") channel)) ->
  exists posts pages k,
    let document :=
      [(py "posts", JList (map JObj posts));
       (py "pages", JObj pages);
       (py "settings", JObj [(py "nav_links", DEFAULT_NAV_LINKS);
                             (py "main_title", JStr [])])] in
    forall file,
      let w' := mkWorld (File (Encoded (JObj document))) k in
      main root (mkWorld file n) = (Ok tt, w')
      /\ fst (parse_posts root (mkWorld file n)) = Ok posts
      /\ load_data w' = (Ok document, w')
      /\ get_main_title w' = (Ok (JStr []), w')
      /\ get_nav_links w' = (Ok DEFAULT_NAV_LINKS, w').
Proof.
  intros Hch Hids.
  destruct (blind_parse root n) as (r & k & E).
  destruct (posts_of_items_run _ (mkWorld NoDir n) Hids)
    as (built & w1 & Hrun & _ & _).
  destruct (pages_of_items_run (findall (py "item") channel) [] w1)
    as (pgs & w2 & Hrun2 & _).
  assert (Er : exists posts pages, r = Ok (posts, pages)).
  { specialize (E NoDir). unfold parse_posts, parse_pages in E.
    rewrite Hch in E. unfold bind at 1 in E. unfold bind at 1 in E.
    rewrite Hrun in E. unfold ret at 1 in E. unfold bind at 1 in E.
    rewrite Hrun2 in E. unfold ret in E. injection E as <- _. eauto. }
  destruct Er as (posts & pages & ->).
  exists posts, pages, k. cbv zeta. intros file.
  assert (C : complete
            [(py "posts", JList (map JObj posts));
             (py "pages", JObj pages);
             (py "settings", JObj [(py "nav_links", DEFAULT_NAV_LINKS);
                                   (py "main_title", JStr [])])]).
  { split; [eexists; reflexivity|]. split; [eexists; reflexivity|].
    eexists. split; [reflexivity|]. split; eexists; reflexivity. }
  pose proof (load_data_file
                (mkWorld (File (Encoded (JObj _))) k) _ eq_refl C) as L.
  specialize (E file). unfold bind at 1 in E.
  destruct (parse_posts root (mkWorld file n)) as [[ps|e] wa] eqn:Ea;
    [|discriminate E].
  unfold bind at 1 in E.
  destruct (parse_pages root wa) as [[pg|e] wb] eqn:Eb; [|discriminate E].
  unfold ret in E. injection E as -> -> ->.
  split; [|split; [reflexivity|split; [exact L|split]]].
  - unfold main. unfold bind at 1. rewrite Ea. unfold bind at 1. rewrite Eb.
    unfold bind, mkdir_parent, json_dump. destruct file as [| |c]; reflexivity.
  - rewrite (get_main_title_run _ _ [(py "nav_links", DEFAULT_NAV_LINKS);
                                     (py "main_title", JStr [])] L eq_refl).
    reflexivity.
  - rewrite (get_nav_links_run _ _ [(py "nav_links", DEFAULT_NAV_LINKS);
                                    (py "main_title", JStr [])] L eq_refl).
    reflexivity.
Qed.

End WithLib.

End ImportMoreFacts.

(* ================================================================== *)
(** * Forms, the repository round trip and the first visit *)
(* ================================================================== *)

Module FormFacts.
Import App Site PyFacts StorageFacts ExcerptFacts SortFacts RepositoryFacts.
Import DocumentFacts NavFacts NavShapeFacts SettingsFacts ViewFacts.

Lemma split_pieces (sep : char) (s : str) :
  Forall (fun piece => forallb (fun c => negb (N.eqb c sep)) piece = true)
         (split sep s).
Proof.
  induction s as [|c s IH]; [repeat constructor|].
  cbn [split]. destruct (N.eqb c sep) eqn:E; [constructor; [reflexivity | exact IH]|].
  destruct (split sep s) as [|piece rest]; [repeat constructor; cbn; rewrite E; reflexivity|].
  inversion IH; subst. constructor; [|assumption].
  cbn [forallb]. rewrite E. assumption.
Qed.

Lemma strip_strip (s : str) : strip (strip s) = strip s.
Proof.
  destruct (strip s) as [|c0 y0] eqn:Y; [reflexivity|]. rewrite <- Y.
  unfold strip in *.
  destruct (lstrip_split s) as (ws & _ & _ & Hfirst).
  destruct (rstrip_split (lstrip s)) as (ws' & E' & _ & Hlast).
  rewrite Y in E', Hlast. rewrite E' in Hfirst. cbn [app] in Hfirst.
  rewrite Y.
  destruct (rev (c0 :: y0)) as [|d r] eqn:R.
  { apply (f_equal (@List.length _)) in R. rewrite length_rev in R.
    discriminate R. }
  apply (strip_fixed (c0 :: y0) y0 (rev r) c0 d); auto.
  rewrite <- (rev_involutive (c0 :: y0)), R. reflexivity.
Qed.

Section WithLib.
Context `{Lib}.

(** X6. The tags and the categories a post is saved with are the entries of
    the posted text between its commas, trimmed: none of them is empty,
    has a comma in it, or white space at an end. *)
Theorem tags_are_trimmed (req : Request) :
  let entry (t : str) :=
    t <> [] /\ strip t = t /\ forallb (fun c => negb (N.eqb c 44)) t = true in
  Forall entry (tags req) /\ Forall entry (categories req).
Proof.
  cbv zeta.
  assert (G : forall text,
            Forall (fun t => t <> [] /\ strip t = t
                             /\ forallb (fun c => negb (N.eqb c 44)) t = true)
                   (comma_list text)).
  { intros text. unfold comma_list. rewrite Forall_map. apply Forall_forall.
    intros p Hp. apply filter_In in Hp as [Hp Hne].
    split; [destruct (strip p); [discriminate Hne | discriminate]|].
    split; [apply strip_strip|].
    apply strip_chars.
    pose proof (split_pieces 44%N text) as F. rewrite Forall_forall in F.
    apply F. exact Hp. }
  split; apply G.
Qed.

(** X2. [save_posts] and [load_posts] round trip.  Posts whose dates are
    strings or missing, saved with no document given, are stored
    whenever the file was absent or a document [load_data] reads; every
    other key of that document is stored again as it was read, and an
    empty dict given as the document counts as none.  When the times of
    the posts are of one kind, the next [load_posts] returns the posts
    saved, latest first and posts of one time in the order they were
    saved in; when some of the times carry a UTC offset and some do not,
    it raises [TypeError]. *)
Theorem save_posts_then_load (w : World) (ps : list dict) (data : dict) :
  fst (load_data w) = Ok data ->
  Forall dated ps ->
  exists w',
    save_posts ps None w = (Ok tt, w')
    /\ save_posts ps (Some []) w = (Ok tt, w')
    /\ (comparable (times ps) = true ->
        load_posts w' = (Ok (sorted_reverse earlier timestamp ps), w')
        /\ Permutation (sorted_reverse earlier timestamp ps) ps
        /\ descending (fun p => moment (timestamp p))
             (sorted_reverse earlier timestamp ps)
        /\ forall k,
             keyed (fun p => moment (timestamp p)) k
               (sorted_reverse earlier timestamp ps)
             = keyed (fun p => moment (timestamp p)) k ps)
    /\ (comparable (times ps) = false ->
        load_posts w' = (Raise TypeError, w'))
    /\ exists data',
         load_data w' = (Ok data', w')
         /\ forall k, str_eqb k (py "posts") = false ->
                      lookup k data' = lookup k data.
Proof.
  intros L Dt.
  destruct (load_data w) as [r w1] eqn:E. cbn [fst] in L. subst r.
  destruct (load_data_complete _ _ _ E) as [C ->].
  destruct (ensure_data_file_total w) as [_ [c P]].
  set (w1 := exec ensure_data_file w) in *.
  set (doc := set (py "posts") (JList (map JObj ps)) data).
  exists (mkWorld (File (Encoded (JObj doc))) (ticks w1)).
  assert (R : save_posts ps None w
              = (Ok tt, mkWorld (File (Encoded (JObj doc))) (ticks w1))).
  { unfold save_posts. unfold bind at 1. rewrite E.
    unfold save_data, bind, mkdir_parent, json_dump. rewrite P. cbn [data_path].
    rewrite P. reflexivity. }
  split; [exact R|]. split; [exact R|].
  assert (C' : complete doc) by (apply complete_set_posts; exact C).
  assert (L' : load_data (mkWorld (File (Encoded (JObj doc))) (ticks w1))
               = (Ok doc, mkWorld (File (Encoded (JObj doc))) (ticks w1)))
    by (apply load_data_file; [reflexivity | exact C']).
  assert (St : stores (mkWorld (File (Encoded (JObj doc))) (ticks w1)) ps).
  { exists doc. split; [reflexivity|]. split.
    + intros v Hv. destruct C' as (_ & _ & s & Hs & _).
      rewrite Hs in Hv. injection Hv as <-. eauto.
    + unfold get_default, doc. rewrite lookup_set_same. reflexivity. }
  split; [|split].
  - intros Cmp. split; [apply load_posts_comparable; assumption|].
    split; [apply sorted_reverse_perm|].
    split; [apply SortFacts.sorted_reverse_sorted|].
    intros k. apply SortFacts.sorted_reverse_stable.
  - intros Cmp. rewrite (load_posts_stores _ ps St Dt), Cmp. reflexivity.
  - exists doc. split; [exact L'|].
    intros k Hk. apply lookup_set_other. exact Hk.
Qed.

(** X18. The first visit creates the backing file: with no file there, the
    index writes the default document before it reads it, and shows no
    post under the default main title. *)
Theorem first_visit_creates_the_file (session : dict) (w : World) :
  (forall c, data_path w <> File c) ->
  exists context,
    blog_index session w
    = (Ok (Page [] (py "blog_index.html") context),
       mkWorld (File (Encoded (JObj default_document))) (ticks w))
    /\ lookup (py "posts") context = Some (JList [])
    /\ lookup (py "main_title") context = Some DEFAULT_MAIN_TITLE
    /\ lookup (py "nav_links") context = Some DEFAULT_NAV_LINKS.
Proof.
  intros Hno. destruct w as [[| |c] n]; [| |contradiction (Hno c); reflexivity];
    eexists; (split; [reflexivity|]); repeat split.
Qed.

End WithLib.

End FormFacts.

(* ================================================================== *)
(** * Editing a post through its view *)
(* ================================================================== *)

Module EditFacts.
Import App Site PyFacts StorageFacts SortFacts RepositoryFacts.
Import DocumentFacts PostFacts ViewFacts.

Section WithLib.
Context `{Lib}.

(** X21. Editing through the view, on stored posts whose dates are
    strings or missing: for an administrator, a POST to the edit view of
    a slug no stored post has is answered 404 and nothing is written,
    when the times of the stored posts are of one kind; when they are not
    (some carry a UTC offset, some do not) the view raises [TypeError]
    for every slug.  For a slug some stored post has, an edit that
    reports success has replaced the post the view found under the slug:
    the payload is stored with the id of that post and the posted title,
    the number of stored posts is the same, and every post with another
    id is still stored. *)
Theorem edit_view_replaces_the_post (http : Http) (session : dict)
    (slug : str) (w : World) (ps : list dict) :
  stores w ps -> Forall dated ps -> Forall int_id ps ->
  is_authenticated session = true ->
  method http = POST ->
  (comparable (times ps) = true -> ~ In slug (slugs ps) ->
   admin_edit_post http session slug w = (Ok NotFound, w))
  /\ (comparable (times ps) = false ->
      admin_edit_post http session slug w = (Raise TypeError, w))
  /\ forall resp w',
       admin_edit_post http session slug w = (Ok (Redirect resp), w') ->
       snd (flashed resp) = py "success" ->
       exists p payload new,
         In p ps
         /\ get (py "slug") p = JStr slug
         /\ stores w' new
         /\ In payload new
         /\ get (py "id") payload = get (py "id") p
         /\ get (py "title") payload = JStr (title (body http))
         /\ List.length new = List.length ps
         /\ forall q, In q ps ->
              py_eqb (get (py "id") q) (get (py "id") p) = false -> In q new.
Proof.
  intros St Dt Hids Ha Hm.
  destruct (comparable (times ps)) eqn:Cmp.
  2: { assert (Hraise : admin_edit_post http session slug w
                        = (Raise TypeError, w)).
       { unfold admin_edit_post, login_required. rewrite Ha. cbn [negb].
         unfold bind at 1. unfold get_post_by_slug, bind.
         rewrite (load_posts_stores w ps St Dt), Cmp. reflexivity. }
       split; [intros C; discriminate C|]. split; [intros _; exact Hraise|].
       intros resp w' Hrun. rewrite Hraise in Hrun. discriminate Hrun. }
  destruct (get_post_by_slug_stored w ps slug St Dt Cmp)
    as (found & R & Hnone & Hsome).
  split; [|split; [intros C; discriminate C|]].
  - intros _ Hno.
    unfold admin_edit_post, login_required. rewrite Ha. cbn [negb].
    unfold bind at 1. rewrite R.
    destruct found as [p|]; [|reflexivity].
    destruct (Hsome p eq_refl) as [Hp Es]. exfalso. apply Hno.
    apply in_slugs. exists p. split; assumption.
  - intros resp w'.
    unfold admin_edit_post, login_required. rewrite Ha. cbn [negb].
    unfold bind at 1. rewrite R.
    destruct found as [p|]; [|discriminate].
    destruct (Hsome p eq_refl) as [Hp Es].
    assert (G : given (Some p) = Some p)
      by (destruct p; [discriminate Es | reflexivity]).
    rewrite G, Hm. change (str_eqb POST POST) with true. cbv iota.
    unfold bind, ret.
    destruct (handle_post_save (body http) (Some p) w) as [[r|e] w2] eqn:E;
      [|discriminate].
    intros [= -> ->] Hs.
    pose proof (sorted_reverse_perm earlier timestamp ps) as Perm.
    destruct (handle_post_save_ends (body http) (Some p) w)
      as [(e & w2 & R' & _)
         | [[_ R']
           | [(_ & _ & R')
             | [(posts & sv & _ & _ & _ & _ & _ & R')
               | (posts & data & sv & LP & LD & Hne & _ & _ & _ & _ & R')]]]];
      cbv zeta in *;
      try (rewrite R' in E; injection E as <- <-; simpl in Hs;
           exfalso; revert Hs; discriminate);
      try (rewrite R' in E; discriminate E).
    destruct (loads_stored w _ ps posts St LP) as (Ew & _ & ->).
    rewrite Ew in *. rewrite R' in E.
    destruct (stores_file w ps St) as [c Hc].
    destruct (save_valid_post_run (body http) (Some p)
                (sorted_reverse earlier timestamp ps) data sv w Hne
                (ex_intro _ c Hc))
      as [(e & w2 & R2 & _) | (id & d & m & ex & w2 & R2 & P & Hid & _)];
      rewrite R2 in E; [discriminate E|].
    injection E as _ <-. rewrite G in Hid, P. subst id.
    set (payload := post_dict (get (py "id") p) sv (title (body http)) d m
                      (status (body http)) (tags (body http))
                      (categories (body http)) (md_body (body http))
                      (html_body (body http) (Some p)) ex
                      (get (py "author") p)) in *.
    destruct (get_post_dict (get (py "id") p) sv (title (body http)) d m
                (status (body http)) (tags (body http))
                (categories (body http)) (md_body (body http))
                (html_body (body http) (Some p)) ex (get (py "author") p))
      as (Gid & _ & Gt & _).
    fold payload in Gid, Gt.
    assert (Hself : py_eqb (get (py "id") p) (get (py "id") p) = true).
    { rewrite Forall_forall in Hids. destruct (Hids p Hp) as [i Hi].
      rewrite Hi, py_eqb_int. apply Z.eqb_refl. }
    exists p, payload,
      (with_post (Some p) payload (sorted_reverse earlier timestamp ps)).
    split; [exact Hp|]. split; [exact Es|].
    split; [eapply stores_saved; eauto|].
    unfold with_post. rewrite G.
    destruct (replace_by_id_split (get (py "id") p) payload
                (sorted_reverse earlier timestamp ps))
      as [[_ Hno] | (l1 & p0 & l2 & Hsplit & Hp0 & Hl1 & ->)].
    { exfalso. rewrite (Hno p) in Hself; [discriminate|].
      eapply Permutation_in; [symmetry; exact Perm | exact Hp]. }
    assert (Perm' : Permutation (l1 ++ p0 :: l2) ps)
      by (rewrite <- Hsplit; exact Perm).
    split; [apply in_or_app; right; left; reflexivity|].
    split; [exact Gid|]. split; [exact Gt|].
    split.
    { rewrite <- (Permutation_length Perm'). rewrite !length_app. reflexivity. }
    intros q Hq Eq.
    assert (Hq' : In q (l1 ++ p0 :: l2))
      by (eapply Permutation_in; [symmetry; exact Perm' | exact Hq]).
    apply in_or_app. apply in_app_or in Hq' as [Hq' | [<- | Hq']];
      [left; auto | congruence | right; right; auto].
Qed.

End WithLib.

End EditFacts.

(* ================================================================== *)
(** * The order of the imported posts *)
(* ================================================================== *)

Module ImportOrderFacts.
Import App ImportWp Site PyFacts RepositoryFacts ImportFacts.

Lemma str_ltb_asym (a b : str) : str_ltb a b = true -> str_ltb b a = false.
Proof.
  revert b. induction a as [|x a IH]; intros [|y b]; cbn [str_ltb];
    try discriminate; try reflexivity.
  intros E. apply orb_true_iff in E as [E | E].
  - apply N.ltb_lt in E. apply orb_false_iff. split.
    + apply N.ltb_ge. lia.
    + apply andb_false_iff. left. apply N.eqb_neq. lia.
  - apply andb_true_iff in E as [Exy E]. apply N.eqb_eq in Exy. subst y.
    rewrite N.ltb_irrefl, N.eqb_refl. cbn [orb andb]. apply IH. exact E.
Qed.

Lemma str_ltb_not_trans (a b c : str) :
  str_ltb a b = false -> str_ltb b c = false -> str_ltb a c = false.
Proof.
  revert b c. induction a as [|x a IH]; intros [|y b] [|z c]; cbn [str_ltb];
    try discriminate; try reflexivity.
  intros E1 E2.
  apply orb_false_iff in E1 as [L1 A1]. apply orb_false_iff in E2 as [L2 A2].
  apply N.ltb_ge in L1, L2.
  apply orb_false_iff. split; [apply N.ltb_ge; lia|].
  destruct (N.eqb_spec x z) as [->|Hxz]; [|reflexivity].
  assert (y = z) as -> by lia.
  rewrite N.eqb_refl in A1, A2. cbn [andb] in *. eapply IH; eauto.
Qed.

Section Generic.
Context {A : Type} (key : A -> str).

Lemma insert_desc_str_sorted (x : A) (l : list A) :
  StronglySorted (fun a b => str_ltb (key a) (key b) = false) l ->
  StronglySorted (fun a b => str_ltb (key a) (key b) = false)
                 (insert_desc str_ltb key x l).
Proof.
  induction 1 as [|y l S IH F]; cbn [insert_desc].
  - repeat constructor.
  - destruct (str_ltb (key x) (key y)) eqn:E.
    + constructor; [exact IH|].
      apply Forall_forall. intros z Hz.
      assert (Hz' : In z (x :: l)).
      { eapply Permutation_in; [|exact Hz].
        apply (SortFacts.insert_desc_perm str_ltb key). }
      destruct Hz' as [<- | Hz'].
      * apply str_ltb_asym. exact E.
      * rewrite Forall_forall in F. apply F. exact Hz'.
    + constructor; [constructor; assumption|].
      constructor; [exact E|].
      apply Forall_forall. intros z Hz. rewrite Forall_forall in F.
      eapply str_ltb_not_trans; [exact E | apply F; exact Hz].
Qed.

Lemma sorted_reverse_str_sorted (l : list A) :
  StronglySorted (fun a b => str_ltb (key a) (key b) = false)
                 (sorted_reverse str_ltb key l).
Proof.
  induction l as [|x l IH]; [constructor|].
  cbn [sorted_reverse]. apply insert_desc_str_sorted. exact IH.
Qed.

Lemma insert_desc_str_stable (k : str) (x : A) (l : list A) :
  filter (fun a => str_eqb (key a) k) (insert_desc str_ltb key x l)
  = filter (fun a => str_eqb (key a) k) (x :: l).
Proof.
  induction l as [|y l IH]; [reflexivity|].
  cbn [insert_desc]. destruct (str_ltb (key x) (key y)) eqn:E; [|reflexivity].
  cbn [filter] in *. rewrite IH.
  destruct (str_eqb (key x) k) eqn:Ex; [|reflexivity].
  destruct (str_eqb (key y) k) eqn:Ey; [|reflexivity].
  apply str_eqb_eq in Ex, Ey. rewrite Ex, Ey in E.
  assert (F : str_ltb k k = false).
  { destruct (str_ltb k k) eqn:T; [|reflexivity].
    pose proof (str_ltb_asym k k T). congruence. }
  congruence.
Qed.

Lemma sorted_reverse_str_stable (k : str) (l : list A) :
  filter (fun a => str_eqb (key a) k) (sorted_reverse str_ltb key l)
  = filter (fun a => str_eqb (key a) k) l.
Proof.
  induction l as [|x l IH]; [reflexivity|].
  cbn [sorted_reverse]. rewrite insert_desc_str_stable.
  cbn [filter]. rewrite IH. reflexivity.
Qed.

End Generic.

Section WithLib.
Context `{Lib}.

(** X22. The posts [parse_posts] returns are in descending order of their
    date strings: no post is followed by one whose date string is greater;
    the posts of one date string keep the order of their items in the
    export; and the backing file is not touched. *)
Theorem parse_posts_latest_first (root channel : element) (w : World) :
  find_child (py "channel") root = Some channel ->
  Forall id_reads (filter (is_type "post") (findall (py "item") channel)) ->
  exists posts built w',
    parse_posts root w = (Ok posts, w')
    /\ data_path w' = data_path w
    /\ StronglySorted
         (fun a b => str_ltb (date_of a) (date_of b) = false) posts
    /\ Forall2 imports (filter (is_type "post") (findall (py "item") channel))
               built
    /\ forall date,
         filter (fun p => str_eqb (date_of p) date) posts
         = filter (fun p => str_eqb (date_of p) date) built.
Proof.
  intros Hch Hids.
  destruct (posts_of_items_run _ w Hids) as (built & w' & Hrun & Hp & Hall).
  exists (sorted_reverse str_ltb date_of built), built, w'.
  split; [|split; [exact Hp|split; [|split; [exact Hall|]]]].
  - unfold parse_posts. rewrite Hch. unfold bind. rewrite Hrun. reflexivity.
  - apply sorted_reverse_str_sorted.
  - intros date. apply sorted_reverse_str_stable.
Qed.

End WithLib.

End ImportOrderFacts.

(* ================================================================== *)
(** * More runs of the model on the sample data *)
(* ================================================================== *)

Module MoreRuns.
Import App ImportWp Site ImportPages Sample.
Import PyFacts StorageFacts SortFacts RepositoryFacts ImportFacts Runs.
Import DocumentFacts PostFacts PlainTextFacts NavFacts NavShapeFacts.
Import SettingsFacts ViewFacts ImportMoreFacts FormFacts.
Import EditFacts ImportOrderFacts.

Lemma save_then_load_same_witness :
  (save_data default_document ;; load_data)
    (mkWorld (File (Encoded (JObj default_document))) 0)
  = (Ok default_document, mkWorld (File (Encoded (JObj default_document))) 0).
Proof.
  apply (save_then_load_same fresh
           (mkWorld (File (Encoded (JObj default_document))) 0)
           default_document).
  reflexivity.
Defined.

Lemma save_posts_then_load_witness :
  exists w',
    save_posts [january; june] None fresh = (Ok tt, w')
    /\ load_posts w' = (Ok [june; january], w').
Proof.
  destruct (save_posts_then_load fresh [january; june] default_document)
    as (w' & R & _ & L & _).
  - reflexivity.
  - repeat constructor; vm_compute; eauto.
  - exists w'. split; [exact R | exact (proj1 (L eq_refl))].
Defined.

Lemma get_post_by_slug_latest_witness :
  exists found,
    get_post_by_slug (py "first") blog = (Ok found, blog)
    /\ found <> None
    /\ forall p, found = Some p -> get (py "slug") p = JStr (py "first").
Proof.
  destruct (get_post_by_slug_latest blog [january; june; undated] (py "first")
              blog_stores blog_dated) as (_ & _ & Hfound).
  destruct (Hfound eq_refl) as (found & R & Hnone & Hsome).
  exists found. split; [exact R|]. split.
  - intros E. apply (proj1 Hnone E). vm_compute. auto.
  - intros p E. apply (Hsome p E).
Defined.

Lemma save_keeps_other_posts_witness :
  exists new,
    stores (exec (handle_post_save hello None) blog) new
    /\ In january new /\ In june new /\ In undated new
    /\ List.length new = 4.
Proof.
  pose proof (surjective_pairing (handle_post_save hello None blog)) as E.
  assert (Hr : fst (handle_post_save hello None blog)
               = Ok {| flashed := (py "Post created", py "success");
                       location := py "/admin/posts" |})
    by (vm_compute; reflexivity).
  rewrite Hr in E.
  destruct (save_keeps_other_posts hello None blog _ [january; june; undated] _
              blog_stores E eq_refl) as (payload & new & St & _ & _ & _ & P).
  cbn [given] in P.
  exists new. split; [exact St|].
  assert (I : forall p, In p [january; june; undated] -> In p new).
  { intros p Hp. eapply Permutation_in; [symmetry; exact P|]. right. exact Hp. }
  repeat split; try (apply I; simpl; auto).
  rewrite (Permutation_length P). reflexivity.
Defined.

Lemma nav_links_round_trip_witness :
  exists text,
    nav_links_text (JList [link (py "Home") (py "/") (py "_self");
                           link (py "My blog") (py "http://b.example") (py "_blank")])
    = Ok text
    /\ parse_nav_links text
       = JList [link (py "Home") (py "/") (py "_self");
                link (py "My blog") (py "http://b.example") (py "_blank")].
Proof.
  destruct nav_links_round_trip as [R _].
  apply (R [(py "Home", py "/", py "_self");
            (py "My blog", py "http://b.example", py "_blank")]).
  - discriminate.
  - repeat constructor.
Defined.

Lemma settings_are_read_back_witness :
  exists w',
    admin_settings settings_form administrator blog
    = (Ok (Redirect {| flashed := (py "Settings updated", py "success");
                       location := py "/admin/settings" |}), w')
    /\ get_main_title w' = (Ok (JStr (py "My blog")), w')
    /\ get_nav_links w'
       = (Ok (JList [link (py "Home") (py "/") (py "_self")]), w').
Proof.
  destruct (settings_are_read_back settings_form administrator blog
              [(py "posts", JList [JObj january; JObj june; JObj undated])]
              [] [])
    as (w' & R & T & N & _);
    try reflexivity.
  - intros v Hv. discriminate Hv.
  - exists w'. split; [exact R|]. split; [exact T | exact N].
Defined.

Lemma settings_leave_the_rest_witness :
  fst (load_posts (exec (admin_settings settings_form administrator) blog))
  = Ok [june; january; undated].
Proof.
  assert (Hs : forall v,
            lookup (py "settings")
              [(py "posts", JList [JObj january; JObj june; JObj undated])]
            = Some v -> exists s, v = JObj s)
    by (intros v Hv; discriminate Hv).
  assert (Ha : is_authenticated administrator = true) by reflexivity.
  destruct (settings_leave_the_rest settings_form administrator blog
              [(py "posts", JList [JObj january; JObj june; JObj undated])]
              [] [] Ha eq_refl eq_refl Hs eq_refl eq_refl)
    as (data & data' & pages' & settings & settings' & _ & [_ P] & _).
  rewrite P. reflexivity.
Defined.

Lemma magazine_stores : stores magazine [january; draft; news].
Proof.
  eexists. split; [reflexivity|]. split; [|reflexivity].
  intros v Hv. discriminate Hv.
Qed.

Lemma magazine_dated : Forall dated [january; draft; news].
Proof. repeat constructor; vm_compute; eauto. Qed.

Lemma blog_index_lists_witness :
  (exists context,
     blog_index visitor magazine
     = (Ok (Page [] (py "blog_index.html") context), magazine)
     /\ lookup (py "posts") context = Some (JList [JObj news; JObj january]))
  /\ exists context,
       blog_index administrator magazine
       = (Ok (Page [] (py "blog_index.html") context), magazine)
       /\ lookup (py "posts") context
          = Some (JList [JObj news; JObj draft; JObj january]).
Proof.
  split.
  - destruct (proj2 (blog_index_lists visitor magazine _ magazine_stores
                       magazine_dated) eq_refl)
      as (context & R & P & _).
    exists context. split; [exact R|]. rewrite P. vm_compute. reflexivity.
  - destruct (proj2 (blog_index_lists administrator magazine _ magazine_stores
                       magazine_dated) eq_refl)
      as (context & R & P & _).
    exists context. split; [exact R|]. rewrite P. vm_compute. reflexivity.
Defined.

Lemma blog_post_serves_published_witness :
  blog_post visitor (py "draft") magazine = (Ok NotFound, magazine)
  /\ exists context,
       blog_post visitor (py "news") magazine
       = (Ok (Page [] (py "blog_post.html") context), magazine)
       /\ lookup (py "post") context = Some (JObj news).
Proof.
  split.
  - apply (proj1 (blog_post_serves_published visitor magazine _ (py "draft")
                    magazine_stores magazine_dated eq_refl eq_refl)).
    intros p [<- | [<- | [<- | []]]]; vm_compute; discriminate.
  - destruct (proj2 (blog_post_serves_published visitor magazine _ (py "news")
                       magazine_stores magazine_dated eq_refl eq_refl))
      as (p & context & R & P & Hp & Es).
    + vm_compute. auto.
    + intros p [<- | [<- | [<- | []]]]; vm_compute; try discriminate; reflexivity.
    + exists context. split; [exact R|]. rewrite P.
      destruct Hp as [<- | [<- | [<- | []]]]; vm_compute in Es;
        try discriminate Es; reflexivity.
Defined.


Lemma admin_login_checks_credentials_witness :
  (exists session',
     admin_login login_form visitor blog
     = (Ok (Redirect {| flashed := (py "Logged in", py "success");
                        location := py "/admin/settings" |}, session'), blog)
     /\ is_authenticated session' = true
     /\ lookup (py "_flashes") session'
        = Some (JList [JList [JStr (py "success"); JStr (py "Logged in")]]))
  /\ forall a session' w',
       admin_login wrong_password visitor blog = (Ok (a, session'), w') ->
       lookup (py "_flashes") session'
       = Some (JList [JList [JStr (py "error");
                             JStr (py "Invalid credentials")]])
       /\ lookup (py "user") session' = None.
Proof.
  assert (Hl : forall v, lookup (py "_flashes") visitor = Some v ->
                         exists l, v = JList l)
    by (intros v Hv; discriminate Hv).
  split.
  - assert (Hu : strip (field "username" (body login_form)) = ADMIN_USER)
      by (vm_compute; reflexivity).
    assert (Hp : strip (field "password" (body login_form)) = ADMIN_PASSWORD)
      by (vm_compute; reflexivity).
    destruct (proj1 (admin_login_checks_credentials login_form visitor blog
                       eq_refl) Hu Hp Hl)
      as (session' & R & A & F & _).
    exists session'. split; [exact R|]. split; [exact A | exact F].
  - intros a session' w' R.
    assert (Hbad : strip (field "username" (body wrong_password)) <> ADMIN_USER
                   \/ strip (field "password" (body wrong_password))
                      <> ADMIN_PASSWORD)
      by (right; vm_compute; discriminate).
    destruct (proj1 (proj2 (admin_login_checks_credentials wrong_password
                              visitor blog eq_refl))
                Hbad Hl a session' w' R) as (F & K & _).
    split; [exact F|]. rewrite K by reflexivity. reflexivity.
Defined.

Lemma first_visit_creates_the_file_witness :
  exists context,
    blog_index visitor fresh
    = (Ok (Page [] (py "blog_index.html") context),
       mkWorld (File (Encoded (JObj default_document))) 0)
    /\ lookup (py "posts") context = Some (JList []).
Proof.
  destruct (first_visit_creates_the_file visitor fresh) as (context & R & P & _).
  - intros c. discriminate.
  - exists context. split; [exact R | exact P].
Defined.

Lemma site_channel :
  find_child (py "channel") site
  = Some (Element (py "channel") [] None
            [item "1" "one" "One" [];
             page "about" "About us" "<p>first</p>";
             page "" "Nameless" "<p>lost</p>";
             page "about" "" "<p>second</p>"]).
Proof. reflexivity. Qed.

Lemma parse_pages_last_wins_witness :
  exists pages w' updated,
    parse_pages site fresh = (Ok pages, w')
    /\ lookup (py "about") pages
       = Some (JObj [(py "title", JStr (py "About"));
                     (py "slug", JStr (py "about"));
                     (py "content_html", JStr (py "<p>second</p>"));
                     (py "content_markdown", JStr []);
                     (py "updated", JStr updated)])
    /\ lookup (py "one") pages = None.
Proof.
  destruct (parse_pages_last_wins site _ fresh site_channel)
    as (pages & w' & R & _ & _ & L).
  pose proof (L (py "about")) as La. pose proof (L (py "one")) as Lo.
  vm_compute in La. vm_compute in Lo.
  destruct La as [updated La]; [discriminate|].
  exists pages, w', updated. split; [exact R|]. split.
  - vm_compute. exact La.
  - apply Lo. discriminate.
Defined.

Lemma import_replaces_the_document_witness :
  exists w',
    main export (mkWorld (File (Malformed (py "{"))) 0) = (Ok tt, w')
    /\ main export (mkWorld NoDir 0) = (Ok tt, w')
    /\ get_main_title w' = (Ok (JStr []), w').
Proof.
  destruct (import_replaces_the_document export _ 0 export_channel)
    as (posts & pages & k & Hall).
  - repeat constructor; vm_compute; eauto.
  - cbv zeta in Hall. eexists. split; [apply Hall|].
    split; [apply Hall|]. apply (Hall NoDir).
Defined.

Lemma edit_view_replaces_the_post_witness :
  exists new,
    stores (exec (admin_edit_post edit_form administrator (py "first")) blog) new
    /\ List.length new = 3
    /\ In june new /\ In undated new.
Proof.
  pose proof (surjective_pairing
                (admin_edit_post edit_form administrator (py "first") blog)) as E.
  assert (Hr : fst (admin_edit_post edit_form administrator (py "first") blog)
               = Ok (Redirect {| flashed := (py "Post updated", py "success");
                                 location := py "/admin/posts" |}))
    by (vm_compute; reflexivity).
  rewrite Hr in E.
  assert (Ha : is_authenticated administrator = true) by reflexivity.
  destruct (proj2 (proj2 (edit_view_replaces_the_post edit_form administrator
                            (py "first") blog [january; june; undated]
                            blog_stores blog_dated (proj1 blog_ids) Ha eq_refl))
                  _ _ E eq_refl)
    as (p & payload & new & Hp & Es & St & _ & _ & _ & Hlen & Hkeep).
  assert (p = january) as ->.
  { destruct Hp as [<- | [<- | [<- | []]]]; vm_compute in Es;
      try discriminate Es; reflexivity. }
  exists new. split; [exact St|]. split; [exact Hlen|].
  split; apply Hkeep; simpl; auto.
Defined.

Lemma parse_posts_latest_first_witness :
  exists posts w',
    parse_posts export fresh = (Ok posts, w')
    /\ StronglySorted (fun a b => str_ltb (date_of a) (date_of b) = false) posts.
Proof.
  destruct (parse_posts_latest_first export _ fresh export_channel)
    as (posts & built & w' & R & _ & S & _).
  - repeat constructor; vm_compute; eauto.
  - exists posts, w'. split; [exact R | exact S].
Defined.

End MoreRuns.
